(** * HR Mate AI: the candidate/project scoring engine (scorer.py)

    A shallow embedding of [scorer.py], of the pieces of [config.py] it
    relies on, of [format_timestamp_to_date] of [config.py] and of the
    metadata preparation of [retriever.py], followed by the properties of
    the scoring engine.

    Modelling conventions.
    - Python values are the inductive [value]; a record (a [dict] read
      from JSON) is an association list from field names to values, in
      insertion order.
    - Python [float]s are modelled as exact rationals ([Q]), Python [int]s
      as [Z]; NaN and the infinities are outside the model.  Equality of
      scores is [Qeq].
    - A [datetime] is a count of microseconds since the epoch (naive).
    - The keys of a mapping are strings; a weight table maps factor names
      to rationals.
    - An exception is a [Raise]; [try/except] is a match on the result.
    - Explanation text is kept as a list of [message]s: the literal
      template of the f-string together with the values formatted into it.
    - Library functions the repository imports ([fuzz.ratio],
      [dateutil.parser.parse], [datetime.fromtimestamp], [json.loads],
      [float()]/[int()] on text, [repr]) are the fields of the class
      [PyLib]; the clock, read by [datetime.now()] and by the date parser
      for the fields a text leaves out, is an explicit input. *)

From Stdlib Require Import ZArith QArith Qround Qminmax String Ascii List Bool Lia Lqa.
From Stdlib Require Import DecimalString.
Import ListNotations.

#[local] Set Warnings "-register-all".
Local Open Scope string_scope.
Local Open Scope list_scope.
Local Open Scope Z_scope.

(** ** Exceptions and results *)

Inductive exn : Type :=
| TypeError
| ValueError
| AttributeError
| KeyError
| ZeroDivisionError
| OverflowError.

Inductive result (A : Type) : Type :=
| Ok (a : A)
| Raise (e : exn).

Arguments Ok {A} a.
Arguments Raise {A} e.

Definition bind {A B : Type} (c : result A) (k : A -> result B) : result B :=
  match c with
  | Ok a => k a
  | Raise e => Raise e
  end.

Declare Scope py_scope.
Delimit Scope py_scope with py.
Notation "x <- c ;; k" := (bind c (fun x => k))
  (at level 61, c at next level, right associativity) : py_scope.
Notation "' pat <- c ;; k" := (bind c (fun x => match x with pat => k end))
  (at level 61, pat pattern, c at next level, right associativity) : py_scope.
Local Open Scope py_scope.

(** ** Python values *)

Definition datetime : Type := Z.

Inductive value : Type :=
| VNone
| VBool (b : bool)
| VInt (z : Z)
| VFloat (q : Q)
| VStr (s : string)
| VList (l : list value)
| VDict (d : list (string * value)).

Definition record : Type := list (string * value).

Fixpoint assoc {A : Type} (k : string) (d : list (string * A)) : option A :=
  match d with
  | [] => None
  | (k', v) :: r => if String.eqb k k' then Some v else assoc k r
  end.

(** [d.get(k)] and [d.get(k, default)]. *)
Definition get (d : record) (k : string) : value :=
  match assoc k d with Some v => v | None => VNone end.

Definition get_default (d : record) (k : string) (default : value) : value :=
  match assoc k d with Some v => v | None => default end.

(** Truth value of an object ([if x:], [not x]). *)
Definition truthy (v : value) : bool :=
  match v with
  | VNone => false
  | VBool b => b
  | VInt z => negb (z =? 0)
  | VFloat q => negb (Qeq_bool q 0)
  | VStr s => negb (String.eqb s EmptyString)
  | VList l => match l with [] => false | _ => true end
  | VDict d => match d with [] => false | _ => true end
  end.

(** [isinstance(v, (int, float))]: [bool] is a subclass of [int]. *)
Definition as_num (v : value) : option Q :=
  match v with
  | VBool b => Some (if b then 1%Q else 0%Q)
  | VInt z => Some (inject_Z z)
  | VFloat q => Some q
  | _ => None
  end.

Definition is_num (v : value) : bool :=
  match as_num v with Some _ => true | None => false end.

(** [len(v)]. *)
Definition py_len (v : value) : result Z :=
  match v with
  | VStr s => Ok (Z.of_nat (String.length s))
  | VList l => Ok (Z.of_nat (List.length l))
  | VDict d => Ok (Z.of_nat (List.length d))
  | _ => Raise TypeError
  end.

(** [v.items()] and [v.keys()]: only a dict has them. *)
Definition dict_items (v : value) : result (list (string * value)) :=
  match v with
  | VDict d => Ok d
  | _ => Raise AttributeError
  end.

Definition dict_keys (v : value) : result (list string) :=
  match v with
  | VDict d => Ok (map fst d)
  | _ => Raise AttributeError
  end.

(** [for x in v]: a list yields its items, a dict its keys, a string its
    characters; nothing else is iterable. *)
Definition iterate (v : value) : result (list value) :=
  match v with
  | VList l => Ok l
  | VDict d => Ok (map (fun kv => VStr (fst kv)) d)
  | VStr s => Ok (map (fun c => VStr (String c EmptyString)) (list_ascii_of_string s))
  | _ => Raise TypeError
  end.

(** [v[k]] on a dict holding the key. *)
Definition subscript (v : value) (k : string) : result value :=
  match v with
  | VDict d => match assoc k d with Some x => Ok x | None => Raise KeyError end
  | _ => Raise TypeError
  end.

(** Equality [a == b]: numbers compare by value across [bool], [int] and
    [float]; lists item by item; dicts as sets of entries. *)
Fixpoint py_eq (a b : value) {struct a} : bool :=
  match a, b with
  | VNone, VNone => true
  | VStr s, VStr t => String.eqb s t
  | VList la, VList lb =>
      (fix items (xs ys : list value) {struct xs} : bool :=
         match xs, ys with
         | [], [] => true
         | x :: xs', y :: ys' => py_eq x y && items xs' ys'
         | _, _ => false
         end) la lb
  | VDict da, VDict db =>
      (List.length da =? List.length db)%nat &&
      (fix entries (xs : list (string * value)) {struct xs} : bool :=
         match xs with
         | [] => true
         | (k, x) :: xs' =>
             match assoc k db with
             | Some y => py_eq x y
             | None => false
             end && entries xs'
         end) da
  | _, _ =>
      match as_num a, as_num b with
      | Some p, Some q => Qeq_bool p q
      | _, _ => false
      end
  end.

(** Ordering [a >= b]: numbers, strings (by character code) and lists
    (first differing item decides) are ordered; anything else raises. *)
Fixpoint py_ge (a b : value) {struct a} : result bool :=
  match a, b with
  | VStr s, VStr t => Ok (String.leb t s)
  | VList la, VList lb =>
      (fix items (xs ys : list value) {struct xs} : result bool :=
         match xs, ys with
         | [], [] => Ok true
         | [], _ :: _ => Ok false
         | _ :: _, [] => Ok true
         | x :: xs', y :: ys' => if py_eq x y then items xs' ys' else py_ge x y
         end) la lb
  | _, _ =>
      match as_num a, as_num b with
      | Some p, Some q => Ok (Qle_bool q p)
      | _, _ => Raise TypeError
      end
  end.

(** Arithmetic [a - b] as used by the scorers (numbers only). *)
Definition py_sub (a b : value) : result Q :=
  match as_num a, as_num b with
  | Some p, Some q => Ok (p - q)%Q
  | _, _ => Raise TypeError
  end.

(** True division of floats. *)
Definition py_div (a b : Q) : result Q :=
  if Qeq_bool b 0 then Raise ZeroDivisionError else Ok (a / b)%Q.

(** ** Text helpers (ASCII) *)

Definition lower_ascii (c : ascii) : ascii :=
  let n := nat_of_ascii c in
  if ((65 <=? n) && (n <=? 90))%nat then ascii_of_nat (n + 32) else c.

Definition upper_ascii (c : ascii) : ascii :=
  let n := nat_of_ascii c in
  if ((97 <=? n) && (n <=? 122))%nat then ascii_of_nat (n - 32) else c.

Fixpoint map_string (f : ascii -> ascii) (s : string) : string :=
  match s with
  | EmptyString => EmptyString
  | String c r => String (f c) (map_string f r)
  end.

Definition lower : string -> string := map_string lower_ascii.
Definition upper : string -> string := map_string upper_ascii.

Definition is_space (c : ascii) : bool :=
  let n := nat_of_ascii c in
  ((n =? 32) || ((9 <=? n) && (n <=? 13)) || ((28 <=? n) && (n <=? 31)))%nat.

Fixpoint lstrip (s : string) : string :=
  match s with
  | String c r => if is_space c then lstrip r else s
  | EmptyString => EmptyString
  end.

Fixpoint rstrip (s : string) : string :=
  match s with
  | EmptyString => EmptyString
  | String c r =>
      match rstrip r with
      | EmptyString => if is_space c then EmptyString else String c EmptyString
      | r' => String c r'
      end
  end.

Definition strip (s : string) : string := rstrip (lstrip s).

Definition startswith (s p : string) : bool := String.prefix p s.

Definition endswith (s p : string) : bool :=
  let n := String.length s in
  let m := String.length p in
  ((m <=? n)%nat && String.eqb (String.substring (n - m) m s) p)%bool.

(** [sub in s]. *)
Fixpoint contains (sub s : string) : bool :=
  String.prefix sub s ||
  match s with
  | EmptyString => false
  | String _ r => contains sub r
  end.

(** ** Rounding *)

(** Round to the nearest integer, ties to the even one. *)
Definition round_half_even (x : Q) : Z :=
  let f := Qfloor x in
  match Qcompare (x - inject_Z f) (1 # 2) with
  | Lt => f
  | Gt => f + 1
  | Eq => if Z.even f then f else f + 1
  end.

(** [round(x, ndigits)]. *)
Definition pow10 (n : nat) : positive := Nat.iter n (Pos.mul 10) 1%positive.

Definition py_round (x : Q) (ndigits : nat) : Q :=
  let scale := pow10 ndigits in
  Qred (round_half_even (x * inject_Z (Zpos scale)) # scale).

(** ** Explanation text *)

Inductive arg : Type :=
| AVal (v : value)               (* {v} *)
| AStr (s : string)              (* {s}, a string already built *)
| AInt (z : Z)                   (* {n} *)
| AFix (digits : nat) (q : Q)    (* {q:.2f} *)
| ADate (t : datetime)           (* {t.strftime('%Y-%m-%d')} *)
| AExn (e : exn).                (* {str(e)} *)

Record message : Type := Msg { template : string; margs : list arg }.

Abbreviation text := (list message) (only parsing).

(** The entries of the dict that [availability_score] returns as its
    explanation. *)
Inductive detail_value : Type :=
| DVal (v : value)
| DDate (t : datetime)
| DNum (q : Q)
| DInt (z : Z)
| DMsg (m : message).

Definition details_dict : Type := list (string * detail_value).

(** [d[k] = v]: replace the entry in place, or append it. *)
Fixpoint dict_set {A : Type} (k : string) (v : A) (d : list (string * A))
    : list (string * A) :=
  match d with
  | [] => [(k, v)]
  | (k', x) :: r =>
      if String.eqb k k' then (k, v) :: r else (k', x) :: dict_set k v r
  end.

(** The explanation attached to a factor: joined text, or the dict above. *)
Inductive details : Type :=
| DText (t : text)
| DDict (d : details_dict).

(** [f"{v:.3f}"]: only a number can be formatted as fixed point. *)
Definition format_fixed (digits : nat) (v : value) : result arg :=
  match v with
  | VStr _ => Raise ValueError
  | _ => match as_num v with
         | Some q => Ok (AFix digits q)
         | None => Raise TypeError
         end
  end.

(** ** The library functions the scorer calls *)

Class PyLib : Type := {
  (** [fuzzywuzzy.fuzz.ratio]: similarity of two strings, 0 to 100. *)
  fuzz_ratio : string -> string -> Z;
  (** [dateutil.parser.parse], given the clock (the fields a text leaves
      out are taken from today's date); [None] when it raises. *)
  date_parse : datetime -> string -> option datetime;
  (** [datetime.fromtimestamp] on seconds; [None] when it raises. *)
  fromtimestamp : Q -> option datetime;
  (** [json.loads]; [None] on [JSONDecodeError]. *)
  json_loads : string -> option value;
  (** [float(s)] and [int(s)] on a string; [None] on [ValueError]. *)
  float_of_string : string -> option Q;
  int_of_string : string -> option Z;
  (** [str(v)] for a value that is not already a string. *)
  py_repr : value -> string
}.

Definition py_str `{PyLib} (v : value) : string :=
  match v with
  | VStr s => s
  | _ => py_repr v
  end.

(** ** scorer.py *)

Section Scorer.

Context `{L : PyLib}.

(** Module constants. *)
Definition fuzzy_match_threshold : Q := 70.

Definition cefr_scale : list (string * Z) :=
  [("A1", 1); ("A2", 2); ("B1", 3); ("B2", 4); ("C1", 5); ("C2", 6);
   ("Native", 6)].

(** config.py *)
Definition HOURS_PER_WORKDAY : Q := 8.

Definition SCORING_WEIGHTS : list (string * Q) :=
  [("SkillMatchScore", 25 # 100); ("AvailabilityScore", 15 # 100);
   ("ProductScore", 5 # 100); ("IndustryScore", 5 # 100);
   ("ExpertiseScore", 10 # 100); ("LanguageScore", 5 # 100);
   ("CertificationScore", 5 # 100); ("LocationScore", 0);
   ("CulturalAwarenessScore", 2 # 100); ("ProblemSolvingScore", 4 # 100);
   ("LeadershipScore", 4 # 100); ("RetrieverScore", 25 # 100)]%Q.

(** *** Helper functions *)

Definition fuzzy_match (text1 text2 : value) (threshold : Q) : bool :=
  if negb (truthy text1) || negb (truthy text2) then false
  else Qle_bool threshold
         (inject_Z (fuzz_ratio (lower (py_str text1)) (lower (py_str text2)))).

Definition normalize (v : value) (min_val max_val : Q) : result Q :=
  match as_num v with
  | None => Raise TypeError
  | Some x =>
      if Qeq_bool max_val min_val then
        Ok (if Qle_bool x min_val then 0 else 1)%Q
      else
        Ok (Qmax 0 (Qmin 1 ((x - min_val) / (max_val - min_val))))%Q
  end.

Definition normalize_flexibility (flexibility_text : value) : Z :=
  let flexibility_text := lower (py_str flexibility_text) in
  if contains "remote" flexibility_text then 0
  else if contains "hybrid" flexibility_text then 1
  else if contains "on-site" flexibility_text || contains "onsite" flexibility_text
       then 2
  else 3.

(** [cefr_scale.get(str(level_str).strip().upper(), 0)] *)
Definition cefr_lookup (level_str : value) : Z :=
  match assoc (upper (strip (py_str level_str))) cefr_scale with
  | Some n => n
  | None => 0
  end.

Definition cefr_to_numerical (level_str : value) : Z := cefr_lookup level_str.

(** The loop of [best_fuzzy_match]: the running best score and key. *)
Definition best_step (query : string) (acc : Z * option string)
    (emp_lang_key : string) : Z * option string :=
  let score := fuzz_ratio (lower query) (lower emp_lang_key) in
  if fst acc <? score then (score, Some emp_lang_key) else acc.

Definition best_fuzzy_match (query_lang : string) (employee_langs_dict : value)
    (threshold : Q) : result (option string) :=
  keys <- dict_keys employee_langs_dict ;;
  let best := fold_left (best_step query_lang) keys (0, None) in
  if Qle_bool threshold (inject_Z (fst best)) then Ok (snd best) else Ok None.

(** [if matched_key:] on the optional key returned above. *)
Definition key_truthy (k : option string) : option string :=
  match k with
  | Some s => if String.eqb s EmptyString then None else Some s
  | None => None
  end.

(** *** Language score *)

(** One pass of the matching loop of [calculate_language_coverage]. *)
Definition lang_match_step (employee_langs : value)
    (acc : result (list (string * string * value * value) * text))
    (item : string * value)
    : result (list (string * string * value * value) * text) :=
  '(matched_details, details_log) <- acc ;;
  let '(p_lang, p_level_str) := item in
  matched_lang_key <- best_fuzzy_match p_lang employee_langs 70 ;;
  match key_truthy matched_lang_key with
  | Some k =>
      e_level_str <- subscript employee_langs k ;;
      Ok (matched_details ++ [(p_lang, k, p_level_str, e_level_str)],
          details_log ++
          [Msg "Project requires '{}' ({}). Matched with employee's '{}' ({})."
               [AStr p_lang; AVal p_level_str; AStr k; AVal e_level_str]])
  | None =>
      Ok (matched_details,
          details_log ++
          [Msg "Project requires '{}' ({}). No suitable match found in employee's languages."
               [AStr p_lang; AVal p_level_str]])
  end.

(** The proficiency fit of one matched pair. *)
Definition level_fit (p_level_str e_level_str : value) : Q :=
  let required_numeric := cefr_lookup p_level_str in
  let actual_numeric := cefr_lookup e_level_str in
  if required_numeric <=? actual_numeric then 1%Q
  else if 0 <? required_numeric then
    Qmax 0 (1 - inject_Z (required_numeric - actual_numeric) / 6)%Q
  else 0%Q.

Definition level_step (acc : list Q * text)
    (m : string * string * value * value) : list Q * text :=
  let '(level_scores, details_log) := acc in
  let '(p_lang, matched_lang_key, p_level_str, e_level_str) := m in
  let level_score := level_fit p_level_str e_level_str in
  (level_scores ++ [level_score],
   details_log ++
   [Msg "  - Match '{}' ({}/{}) vs '{}' ({}/{}): Proficiency Fit Score: {}"
        [AStr p_lang; AVal p_level_str; AInt (cefr_lookup p_level_str);
         AStr matched_lang_key; AVal e_level_str;
         AInt (cefr_lookup e_level_str); AFix 2 level_score]]).

Definition Qsum (l : list Q) : Q := fold_left Qplus l 0%Q.

Definition Qlen {A : Type} (l : list A) : Q := inject_Z (Z.of_nat (List.length l)).

Definition calculate_language_coverage (project_langs employee_langs : value)
    : result (Q * text) :=
  if negb (truthy project_langs) then
    Ok (1%Q, [Msg "No specific languages required by project." []])
  else if negb (truthy employee_langs) then
    Ok (0%Q, [Msg "Employee has no listed language proficiency." []])
  else
    items <- dict_items project_langs ;;
    '(matched_details, details_log) <-
      fold_left (lang_match_step employee_langs) items (Ok ([], [])) ;;
    match matched_details with
    | [] => Ok (0%Q, details_log ++ [Msg "No language matches found." []])
    | _ :: _ =>
        let coverage := (Qlen matched_details / Qlen items)%Q in
        let details_log := details_log ++
          [Msg "Language Coverage: {} ({} of {} required languages matched)"
               [AFix 2 coverage; AInt (Z.of_nat (List.length matched_details));
                AInt (Z.of_nat (List.length items))]] in
        let '(level_scores, details_log) :=
          fold_left level_step matched_details ([], details_log) in
        let avg_fit :=
          match level_scores with
          | [] => 0%Q
          | _ :: _ => (Qsum level_scores / Qlen level_scores)%Q
          end in
        let details_log := details_log ++
          [Msg "Average Proficiency Fit for matched languages: {}" [AFix 2 avg_fit]] in
        let final_score := (coverage * avg_fit)%Q in
        let details_log := details_log ++
          [Msg "Final Language Score (Coverage * Avg Fit): {}" [AFix 2 final_score]] in
        Ok (py_round final_score 3, details_log)
    end.

Definition language_score (project_langs_dict employee_langs_dict : value)
    : result (Q * text) :=
  calculate_language_coverage project_langs_dict employee_langs_dict.

(** *** Availability score *)

Definition MICROSECONDS_PER_DAY : Z := 86400000000.

(** [datetime.min] and [datetime.max]. *)
Definition DATETIME_MIN : datetime := -62135596800000000.
Definition DATETIME_MAX : datetime := 253402300799999999.

(** [timedelta(days=x)]: rounded to the microsecond; the day count is
    limited to nine digits. *)
Definition timedelta_days (x : Q) : result Z :=
  let us := round_half_even (x * inject_Z MICROSECONDS_PER_DAY) in
  let days := us / MICROSECONDS_PER_DAY in
  if (-999999999 <=? days) && (days <=? 999999999) then Ok us
  else Raise OverflowError.

(** [t + delta] on a datetime. *)
Definition datetime_add (t : datetime) (delta : Z) : result datetime :=
  let r := t + delta in
  if (DATETIME_MIN <=? r) && (r <=? DATETIME_MAX) then Ok r
  else Raise OverflowError.

(** [(a - b).days] *)
Definition days_between (a b : datetime) : Z := (a - b) / MICROSECONDS_PER_DAY.

(** [datetime.now() + timedelta(days=365*5)] *)
Definition far_future (now : datetime) : result datetime :=
  datetime_add now (365 * 5 * MICROSECONDS_PER_DAY).

(** [float(v)] *)
Definition py_float (v : value) : result Q :=
  match v with
  | VStr s => match float_of_string s with
              | Some q => Ok q
              | None => Raise ValueError
              end
  | _ => match as_num v with
         | Some q => Ok q
         | None => Raise TypeError
         end
  end.

(** [float(v if v is not None else 0)] under [except ValueError], which
    falls back to 0.0; any other exception goes on. *)
Definition float_or_zero (v : value) : result Q :=
  match py_float (match v with VNone => VInt 0 | _ => v end) with
  | Raise ValueError => Ok 0%Q
  | r => r
  end.

Definition initial_details (project_effort_input_hours project_end_input
    employee_available_from_input employee_weekly_capacity : value)
    : details_dict :=
  [("raw_project_effort_hours", DVal project_effort_input_hours);
   ("raw_project_end_input", DVal project_end_input);
   ("parsed_project_end_date", DVal VNone);
   ("raw_employee_available_from_input", DVal employee_available_from_input);
   ("parsed_employee_available_date", DVal VNone);
   ("raw_employee_weekly_capacity", DVal employee_weekly_capacity);
   ("project_effort_calculated_days", DNum 0);
   ("employee_weekly_capacity_hours", DNum 0);
   ("calculated_project_end_for_employee", DVal VNone);
   ("days_over_under", DInt 0);
   ("status_message", DMsg (Msg EmptyString []));
   ("original_detail_string", DMsg (Msg EmptyString []))].

(** [return score, details_dict] after setting both message entries. *)
Definition leave (score : Q) (m : message) (d : details_dict)
    : result Q * details_dict :=
  (Ok score, dict_set "original_detail_string" (DMsg m)
               (dict_set "status_message" (DMsg m) d)).

(** The last part of the [try] block, once both dates and both numbers
    are known. *)
Definition availability_project (project_end_date employee_available_date : datetime)
    (employee_weekly_capacity project_effort_hours_val : Q) (d : details_dict)
    : result Q * details_dict :=
  if Qle_bool employee_weekly_capacity 0 then
    leave 0 (Msg "Employee weekly capacity is zero or not specified." []) d
  else if Qle_bool project_effort_hours_val 0 then
    leave 1 (Msg "Project effort is zero or not specified (considered fully available)." []) d
  else
    let project_duration_weeks_for_employee :=
      (project_effort_hours_val / employee_weekly_capacity)%Q in
    let calendar_days_needed := (project_duration_weeks_for_employee * 7)%Q in
    match (delta <- timedelta_days calendar_days_needed ;;
           datetime_add employee_available_date delta) with
    | Raise e => (Raise e, d)
    | Ok calculated_project_end_for_employee =>
        let d := dict_set "calculated_project_end_for_employee"
                   (DDate calculated_project_end_for_employee) d in
        let days := days_between calculated_project_end_for_employee project_end_date in
        let d := dict_set "days_over_under" (DInt days) d in
        if calculated_project_end_for_employee <=? project_end_date then
          let d := dict_set "status_message"
                     (DMsg (Msg "Employee can complete on time." [])) d in
          let d := dict_set "original_detail_string"
                     (DMsg (Msg "Employee can complete. Proj End: {}, Emp Calc End: {}. Effort: {}d, Emp Cap: {}hrs/wk."
                        [ADate project_end_date; ADate calculated_project_end_for_employee;
                         AFix 1 (project_effort_hours_val / HOURS_PER_WORKDAY)%Q;
                         AFix 1 employee_weekly_capacity])) d in
          (Ok (py_round 1 3), d)
        else
          let d := dict_set "status_message"
                     (DMsg (Msg "Employee may not complete on time. Estimated over by {} days."
                        [AInt days])) d in
          let max_acceptable_overrun_days := 30%Q in
          let score := Qmax 0 (1 - inject_Z days / max_acceptable_overrun_days)%Q in
          let d := dict_set "original_detail_string"
                     (DMsg (Msg "Employee may not complete on time. Proj End: {}, Emp Calc End: {}. Over by {} days. Effort: {}hrs ({}d), Emp Cap: {}hrs/wk."
                        [ADate project_end_date; ADate calculated_project_end_for_employee;
                         AInt days; AFix 1 project_effort_hours_val;
                         AFix 1 (project_effort_hours_val / HOURS_PER_WORKDAY)%Q;
                         AFix 1 employee_weekly_capacity])) d in
          (Ok (py_round score 3), d)
    end.

(** The middle part: the two numbers, once both dates are known.  The
    third component is the value the variable [employee_weekly_capacity]
    holds when the block is left: the argument, or its conversion. *)
Definition availability_numbers (project_effort_input_hours employee_weekly_capacity : value)
    (project_end_date employee_available_date : datetime) (d : details_dict)
    : result Q * details_dict * value :=
  match float_or_zero employee_weekly_capacity with
  | Raise e => (Raise e, d, employee_weekly_capacity)
  | Ok capacity =>
      let d := dict_set "employee_weekly_capacity_hours" (DNum capacity) d in
      match float_or_zero project_effort_input_hours with
      | Raise e => (Raise e, d, VFloat capacity)
      | Ok project_effort_hours_val =>
          let d := dict_set "raw_project_effort_hours"
                     (DVal (VFloat project_effort_hours_val)) d in
          let d := dict_set "project_effort_calculated_days"
                     (DNum (project_effort_hours_val / HOURS_PER_WORKDAY)%Q) d in
          (availability_project project_end_date employee_available_date
             capacity project_effort_hours_val d, VFloat capacity)
      end
  end.

(** A date given as a number is an epoch in milliseconds; a string goes
    through the date parser.  [None] for any other kind of value. *)
Definition parse_date_input (now : datetime) (v : value) : option (result datetime) :=
  match v with
  | VStr s => Some (match date_parse now s with
                    | Some t => Ok t
                    | None => Raise ValueError
                    end)
  | _ => match as_num v with
         | Some x => Some (match fromtimestamp (x / 1000)%Q with
                           | Some t => Ok t
                           | None => Raise OverflowError
                           end)
         | None => None
         end
  end.

(** The date the project must end by, with the details as updated. *)
Definition availability_project_end (now : datetime) (project_end_input : value)
    (d : details_dict) : result datetime * details_dict :=
  let assume_far_future (m : string) :=
    match far_future now with
    | Raise e => (Raise e, d)
    | Ok t => (Ok t, dict_set "parsed_project_end_date" (DDate t)
                       (dict_set "status_message" (DMsg (Msg m [])) d))
    end in
  match project_end_input with
  | VNone => assume_far_future "Project end date not specified, assuming far future."
  | _ =>
      match parse_date_input now project_end_input with
      | Some (Ok t) => (Ok t, dict_set "parsed_project_end_date" (DDate t) d)
      | Some (Raise e) => (Raise e, d)
      | None => assume_far_future
                  "Project end date format invalid or missing, assuming far future."
      end
  end.

(** The body of the [try] block: the returned score, or the exception
    raised, together with the details and the variable
    [employee_weekly_capacity] as they stand at that point. *)
Definition availability_try (now : datetime) (project_effort_input_hours
    project_end_input employee_available_from_input employee_weekly_capacity : value)
    (d : details_dict) : result Q * details_dict * value :=
  match availability_project_end now project_end_input d with
  | (Raise e, d) => (Raise e, d, employee_weekly_capacity)
  | (Ok project_end_date, d) =>
      match employee_available_from_input with
      | VNone =>
          (leave 0 (Msg "Employee available from date not specified." []) d,
           employee_weekly_capacity)
      | _ =>
          match parse_date_input now employee_available_from_input with
          | None =>
              (leave 0 (Msg "Employee available from date format invalid." []) d,
               employee_weekly_capacity)
          | Some (Raise e) => (Raise e, d, employee_weekly_capacity)
          | Some (Ok employee_available_date) =>
              let d := dict_set "parsed_employee_available_date"
                         (DDate employee_available_date) d in
              availability_numbers project_effort_input_hours employee_weekly_capacity
                project_end_date employee_available_date d
          end
      end
  end.

Definition availability_score (now : datetime) (project_effort_input_hours
    project_end_input employee_available_from_input employee_weekly_capacity : value)
    : Q * details_dict :=
  let d := initial_details project_effort_input_hours project_end_input
             employee_available_from_input employee_weekly_capacity in
  match availability_try now project_effort_input_hours project_end_input
          employee_available_from_input employee_weekly_capacity d with
  | (Ok score, d, _) => (score, d)
  | (Raise e, d, employee_weekly_capacity) =>
      let d := dict_set "status_message"
                 (DMsg (Msg "Error in availability_score: {}." [AExn e])) d in
      let d := dict_set "original_detail_string"
                 (DMsg (Msg "Error in availability_score: {}. Inputs: P_Effort='{}', P_End='{}', E_Avail='{}', E_Cap='{}'"
                    [AExn e; AVal project_effort_input_hours; AVal project_end_input;
                     AVal employee_available_from_input; AVal employee_weekly_capacity])) d in
      (0%Q, d)
  end.

(** *** List-overlap scores: products, certifications, expertise areas *)

(** [if isinstance(x, str): x = [x]] *)
Definition as_list (v : value) : value :=
  match v with
  | VStr _ => VList [v]
  | _ => v
  end.

(** The texts in which the three copies of the overlap scorer differ. *)
Record overlap_labels : Type := {
  no_requirement : string;
  no_candidate : string;
  matched : string;
  not_matched : string
}.

(** One pass of the outer loop: the inner loop stops at the first
    employee item that matches. *)
Definition overlap_step (labels : overlap_labels) (employee_items : list value)
    (acc : Z * text) (p_item : value) : Z * text :=
  let '(matches, details) := acc in
  match find (fun e_item => fuzzy_match p_item e_item fuzzy_match_threshold)
             employee_items with
  | Some e_item =>
      (matches + 1, details ++ [Msg (matched labels) [AVal p_item; AVal e_item]])
  | None => (matches, details ++ [Msg (not_matched labels) [AVal p_item]])
  end.

Definition overlap_score (labels : overlap_labels) (project_items employee_items : value)
    : result (Q * text) :=
  if negb (truthy project_items) then Ok (1%Q, [Msg (no_requirement labels) []])
  else if negb (truthy employee_items) then Ok (0%Q, [Msg (no_candidate labels) []])
  else
    p_items <- iterate (as_list project_items) ;;
    e_items <- iterate (as_list employee_items) ;;
    let '(matches, details) := fold_left (overlap_step labels e_items) p_items (0, []) in
    let score := (inject_Z matches / Qlen p_items)%Q in
    Ok (py_round score 3, details).

Definition product_score : value -> value -> result (Q * text) :=
  overlap_score
    {| no_requirement := "No specific products required by project.";
       no_candidate := "Employee has no listed product experience.";
       matched := "Matched: Project '{}' with Employee '{}'";
       not_matched := "No match for Project product: '{}'" |}.

Definition certification_score : value -> value -> result (Q * text) :=
  overlap_score
    {| no_requirement := "No specific certifications required by project.";
       no_candidate := "Employee has no listed certifications.";
       matched := "Matched: Project cert '{}' with Employee cert '{}'";
       not_matched := "No match for Project cert: '{}'" |}.

Definition expertise_score : value -> value -> result (Q * text) :=
  overlap_score
    {| no_requirement := "No specific expertise areas required by project.";
       no_candidate := "Employee has no listed expertise areas.";
       matched := "Matched: Project expertise '{}' with Employee expertise '{}'";
       not_matched := "No match for Project expertise: '{}'" |}.

(** *** Industry score *)

Definition is_str (v : value) : bool :=
  match v with VStr _ => true | _ => false end.

(** [', '.join(v)]: the items must all be strings. *)
Definition join_items (v : value) : result (list value) :=
  items <- iterate v ;;
  if forallb is_str items then Ok items else Raise TypeError.

Definition industry_score (project_industry employee_industries : value)
    : result (Q * text) :=
  if negb (truthy project_industry) then
    Ok (1%Q, [Msg "No specific industry required by project." []])
  else if negb (truthy employee_industries) then
    Ok (0%Q, [Msg "Employee has no listed industry experience." []])
  else
    items <- join_items (as_list employee_industries) ;;
    let details :=
      [Msg "Project Industry: {}. Employee Industries: {}"
           [AVal project_industry; AVal (VList items)]] in
    match find (fun e_ind => fuzzy_match project_industry e_ind fuzzy_match_threshold)
               items with
    | Some e_ind =>
        Ok (1%Q, details ++ [Msg "Match: Project '{}' with Employee '{}'"
                                 [AVal project_industry; AVal e_ind]])
    | None => Ok (0%Q, details ++ [Msg "No industry match found." []])
    end.

(** *** Location score *)

Definition location_score (project_loc project_flex employee_loc employee_flex : value)
    : Q * text :=
  let p_flex_norm := normalize_flexibility project_flex in
  let e_flex_norm := normalize_flexibility employee_flex in
  let details :=
    [Msg "Project: Loc='{}', Flex='{}'({}). Employee: Loc='{}', Flex='{}'({})"
         [AVal project_loc; AVal project_flex; AInt p_flex_norm;
          AVal employee_loc; AVal employee_flex; AInt e_flex_norm]] in
  let unknown := (0%Q, details ++ [Msg "Unknown project/employee flexibility, low score." []]) in
  if p_flex_norm =? 0 then
    if e_flex_norm =? 0 then
      (1%Q, details ++ [Msg "Match: Project remote, Employee remote." []])
    else if e_flex_norm =? 1 then
      (1%Q, details ++ [Msg "Match: Project remote, Employee hybrid (can do remote)." []])
    else
      (1%Q, details ++ [Msg "Match: Project remote, Employee on-site." []])
  else if p_flex_norm =? 2 then
    if fuzzy_match project_loc employee_loc fuzzy_match_threshold then
      if e_flex_norm =? 2 then
        (1%Q, details ++ [Msg "Match: Project on-site, Employee on-site, Locations match." []])
      else if e_flex_norm =? 1 then
        (1 # 2, details ++ [Msg "Partial Match: Project on-site, Employee hybrid, Locations match." []])
      else
        (0%Q, details ++ [Msg "Mismatch: Project on-site, Employee remote, Locations match but flex mismatch." []])
    else
      (0%Q, details ++ [Msg "Mismatch: Project on-site, Locations do not match." []])
  else if p_flex_norm =? 1 then
    if fuzzy_match project_loc employee_loc fuzzy_match_threshold then
      if e_flex_norm =? 1 then
        (1%Q, details ++ [Msg "Match: Project hybrid, Employee hybrid, Locations match." []])
      else if e_flex_norm =? 0 then
        (0%Q, details ++ [Msg "Mismatch: Project hybrid, Employee remote (can do remote part), Locations match." []])
      else if e_flex_norm =? 2 then
        (1%Q, details ++ [Msg "Match: Project hybrid, Employee on-site (can do on-site part), Locations match." []])
      else unknown
    else
      if e_flex_norm =? 0 then
        (0%Q, details ++ [Msg "Mismatch: Project hybrid, Employee remote, Locations mismatch (employee can do remote part)." []])
      else
        (0%Q, details ++ [Msg "Mismatch: Project hybrid, Locations do not match for employee preferring hybrid/on-site." []])
  else unknown.

(** *** Skill match score *)

(** One pass of the matching loop. *)
Definition skill_match_step (core_competency_dict : value)
    (acc : result (list (string * string * value * value) * text))
    (item : string * value)
    : result (list (string * string * value * value) * text) :=
  '(matched_pairs, details_log) <- acc ;;
  let '(p_skill, required_level) := item in
  matched_skill_key <- best_fuzzy_match p_skill core_competency_dict 70 ;;
  match key_truthy matched_skill_key with
  | Some k =>
      actual_level <- subscript core_competency_dict k ;;
      Ok (matched_pairs ++ [(p_skill, k, required_level, actual_level)],
          details_log ++ [Msg "  Match: Proj '{}'({}) with Emp '{}'({})"
                              [AStr p_skill; AVal required_level; AStr k; AVal actual_level]])
  | None =>
      Ok (matched_pairs,
          details_log ++ [Msg "  No Match: Proj '{}'({})" [AStr p_skill; AVal required_level]])
  end.

(** The expertise fit of one matched pair. *)
Definition skill_fit (required actual : value) : result Q :=
  ge <- py_ge actual required ;;
  if ge : bool then Ok 1%Q
  else diff <- py_sub required actual ;; Ok (1 - diff / 10)%Q.

Definition expertise_step (acc : result (list Q * text))
    (m : string * string * value * value) : result (list Q * text) :=
  '(expertise_scores, details_log) <- acc ;;
  let '(_, _, required, actual) := m in
  individual_skill_score <- skill_fit required actual ;;
  Ok (expertise_scores ++ [individual_skill_score],
      details_log ++ [Msg "    Expertise Fit: ReqLvl={}, EmpLvl={}, Score={}"
                          [AVal required; AVal actual; AFix 2 individual_skill_score]]).

(** [len(v) if v else 0] *)
Definition len_or_zero (v : value) : result Z :=
  if truthy v then py_len v else Ok 0.

(** The complexity after validation and clamping to 0..10. *)
Definition clamp_complexity (project_complexity_int : value) : Q :=
  let c := match as_num project_complexity_int with
           | Some c => c
           | None => 5%Q
           end in
  Qmax 0 (Qmin 10 c).

Definition skill_match_score_with_fuzzy_keys
    (project_skills_dict project_complexity_int core_competency_dict : value)
    : result (Q * text) :=
  let details_log :=
    if is_num project_complexity_int then []
    else [Msg "Warning: Invalid project complexity '{}', defaulting to 5 for safety."
              [AVal project_complexity_int]] in
  let project_complexity_int := clamp_complexity project_complexity_int in
  n_skills <- len_or_zero project_skills_dict ;;
  n_competencies <- len_or_zero core_competency_dict ;;
  let details_log := details_log ++
    [Msg "Project Skills: {}, Emp Competencies: {}, Proj Complexity: {}"
         [AInt n_skills; AInt n_competencies; AVal (VFloat project_complexity_int)]] in
  '(matched_pairs, details_log) <-
    (if truthy project_skills_dict && truthy core_competency_dict then
       items <- dict_items project_skills_dict ;;
       fold_left (skill_match_step core_competency_dict) items (Ok ([], details_log))
     else if negb (truthy project_skills_dict) then
       Ok ([], details_log ++
               [Msg "No specific skills required by project (project_skills_dict is empty/None)." []])
     else
       Ok ([], details_log ++
               [Msg "Employee has no listed core competencies (core_competency_dict is empty/None)." []])) ;;
  match matched_pairs with
  | [] => Ok (0%Q, details_log ++ [Msg "No skill matches found (or inputs were empty)." []])
  | _ :: _ =>
      n_skills <- py_len project_skills_dict ;;
      let coverage := (Qlen matched_pairs / inject_Z n_skills)%Q in
      let details_log := details_log ++
        [Msg "Coverage: {} ({}/{}) "
             [AFix 2 coverage; AInt (Z.of_nat (List.length matched_pairs)); AInt n_skills]] in
      '(expertise_scores, details_log) <-
        fold_left expertise_step matched_pairs (Ok ([], details_log)) ;;
      let expertise_fit := (Qsum expertise_scores / Qlen expertise_scores)%Q in
      let details_log := details_log ++ [Msg "Avg Expertise Fit: {}" [AFix 2 expertise_fit]] in
      let capability := (coverage * expertise_fit)%Q in
      let details_log := details_log ++
        [Msg "Capability (Coverage * Expertise Fit): {}" [AFix 3 capability]] in
      let complexity_target := (project_complexity_int / 10)%Q in
      let details_log := details_log ++
        [Msg "Complexity Target: {}" [AFix 2 complexity_target]] in
      if Qle_bool complexity_target capability then
        Ok (1%Q, details_log ++
                 [Msg "Final Score: 1.0 (Capability {} >= Target {})"
                      [AFix 3 capability; AFix 2 complexity_target]])
      else
        raw_final_score_else <- py_div capability complexity_target ;;
        let final_score := py_round raw_final_score_else 2 in
        Ok (final_score, details_log ++
                 [Msg "Final Score: {} (Capability {} / Target {}, Raw: {})"
                      [AFix 2 final_score; AFix 3 capability; AFix 2 complexity_target;
                       AFix 3 raw_final_score_else]])
  end.

(** *** Main scoring orchestration *)

(** The default chosen from the field name when the caller gives none
    (the chain of tests that has the last word in the source). *)
Definition default_for_field (field_name : string) : value :=
  if endswith field_name "Dict" then VDict []
  else if contains "Langs" field_name then VDict []
  else if contains "Experience" field_name || contains "Certifications" field_name
          || contains "Expertise" field_name || contains "Industries" field_name
       then VList []
  else VStr EmptyString.

Definition _safely_get_and_parse_json_field (rec : record) (field_name : string)
    (default_value : option value) : value :=
  let default_value :=
    match default_value with
    | Some v => v
    | None => default_for_field field_name
    end in
  let val := get_default rec field_name default_value in
  let fallback := match val with VNone => default_value | _ => val end in
  match val with
  | VStr s =>
      if (startswith s "[" && endswith s "]") || (startswith s "{" && endswith s "}") then
        match json_loads s with
        | Some decoded => decoded
        | None => match default_value with
                  | VList _ => VList [val]
                  | _ => val
                  end
        end
      else fallback
  | _ => fallback
  end.

(** [int(x)] on a float truncates towards zero. *)
Definition Qtruncate (q : Q) : Z := Z.quot (Qnum q) (Zpos (Qden q)).

(** The complexity handed to the skill scorer: an integer in 0..10. *)
Definition project_complexity (project_record : record) : Z :=
  let project_complexity_val := get project_record "Complexity" in
  let as_int : Z :=
    match as_num project_complexity_val with
    | Some q => Qtruncate q
    | None =>
        match project_complexity_val with
        | VStr s => match int_of_string s with
                    | Some n => n
                    | None => 5
                    end
        | _ => 5
        end
    end in
  Z.max 0 (Z.min 10 as_int).

(** The weighting loop: the running [overall_score_sum] and
    [total_weight_applied]. *)
Definition weight_step (scores : list (string * value)) (acc : Q * Q)
    (entry : string * Q) : Q * Q :=
  let '(overall_score_sum, total_weight_applied) := acc in
  let '(score_name, weight) := entry in
  match assoc score_name scores with
  | Some v =>
      match as_num v with
      | Some x => (overall_score_sum + x * weight, total_weight_applied + weight)%Q
      | None => acc
      end
  | None => acc
  end.

Definition overall_weighted_score (scores : list (string * value))
    (active_scoring_weights : list (string * Q)) : Q * Q * Q :=
  let '(overall_score_sum, total_weight_applied) :=
    fold_left (weight_step scores) active_scoring_weights (0%Q, 0%Q) in
  let normalized_overall_score :=
    if negb (Qle_bool total_weight_applied 0)
    then (overall_score_sum / total_weight_applied)%Q
    else 0%Q in
  (py_round normalized_overall_score 4, overall_score_sum, total_weight_applied).

Record report : Type := {
  EmployeeID : value;
  ProjectID : value;
  Scores : list (string * value);
  Details : list (string * details);
  OverallWeightedScore : Q
}.

Definition trait_message (raw : value) (normalized : Q) : details :=
  DText [Msg "Raw: {}, Normalized: {}" [AVal raw; AFix 2 normalized]].

(** ['Requested End Date'] is preferred, ['Requested End'] the fallback. *)
Definition project_end_val (project_record : record) : value :=
  match get project_record "Requested End Date" with
  | VNone => get project_record "Requested End"
  | v => v
  end.

Definition score_employee_against_project (now : datetime)
    (employee_record project_record : record)
    (custom_weights : option (list (string * Q))) : result report :=
  (* 2. Availability Score *)
  let '(avail_score, avail_details) :=
    availability_score now (get project_record "Effort")
      (project_end_val project_record)
      (get employee_record "Available From")
      (get employee_record "Weekly Availability in Hours") in
  let is_fully_available := if Qeq_bool avail_score 1 then 1 else 0 in
  (* 3. Product Experience Score *)
  let proj_products :=
    _safely_get_and_parse_json_field project_record "Products Involved" (Some (VList [])) in
  let emp_products :=
    _safely_get_and_parse_json_field employee_record "Products Experience" (Some (VList [])) in
  '(prod_score, prod_details) <- product_score proj_products emp_products ;;
  (* 4. Location Score *)
  let '(loc_score, loc_details) :=
    location_score (get project_record "Work Location")
      (get project_record "Work Flexibility")
      (get employee_record "Work Location")
      (get employee_record "Work Flexibility") in
  (* 5. Language Score *)
  let proj_langs :=
    _safely_get_and_parse_json_field project_record "Languages Required" (Some (VDict [])) in
  let emp_langs :=
    _safely_get_and_parse_json_field employee_record "Languages Known" (Some (VDict [])) in
  '(lang_score, lang_details) <- language_score proj_langs emp_langs ;;
  (* 6. Industry Score *)
  let proj_industry := get project_record "Customer Industry" in
  let emp_industries :=
    _safely_get_and_parse_json_field employee_record "Industry Experience" (Some (VList [])) in
  '(ind_score, ind_details) <- industry_score proj_industry emp_industries ;;
  (* 7. Skill Match Score: the decoded mappings are computed but the raw
     fields are what the scorer receives. *)
  let proj_skills :=
    _safely_get_and_parse_json_field project_record "Required Skills and Expertise"
      (Some (VDict [])) in
  let emp_competencies :=
    _safely_get_and_parse_json_field employee_record "Core Competencies" (Some (VDict [])) in
  let project_complexity_val := project_complexity project_record in
  '(skill_score, skill_details) <-
    skill_match_score_with_fuzzy_keys
      (get_default project_record "Required Skills and Expertise" (VDict []))
      (VInt project_complexity_val)
      (get_default employee_record "Core Competencies" (VDict [])) ;;
  (* 8. Certification Score *)
  let proj_certs :=
    _safely_get_and_parse_json_field project_record
      "Customer Preferences (Certifications)" (Some (VList [])) in
  let emp_certs :=
    _safely_get_and_parse_json_field employee_record
      "External/Internal Certifications" (Some (VList [])) in
  '(cert_score, cert_details) <- certification_score proj_certs emp_certs ;;
  (* 10. Retriever Relevance Score *)
  let retriever_score := get_default employee_record "document_score" (VFloat 0) in
  retriever_shown <- format_fixed 3 retriever_score ;;
  (* 12. Expertise Score *)
  let proj_expertise :=
    _safely_get_and_parse_json_field project_record
      "Integration Requirements (Expertise Areas)" (Some (VList [])) in
  let emp_expertise :=
    _safely_get_and_parse_json_field employee_record "Expertise Areas" (Some (VList [])) in
  '(exp_score, exp_details) <- expertise_score proj_expertise emp_expertise ;;
  (* 10. Direct Employee Attribute Scores *)
  let cultural_awareness := get_default employee_record "Cultural Awareness" (VInt 0) in
  let problem_solving := get_default employee_record "Problem Solving" (VInt 0) in
  let leadership := get_default employee_record "Leadership" (VInt 0) in
  cultural_score <- normalize cultural_awareness 0 10 ;;
  problem_score <- normalize problem_solving 0 10 ;;
  leadership_score <- normalize leadership 0 10 ;;
  let scores :=
    [("AvailabilityScore", VFloat avail_score);
     ("IsFullyAvailable", VInt is_fully_available);
     ("ProductScore", VFloat prod_score);
     ("LocationScore", VFloat loc_score);
     ("LanguageScore", VFloat lang_score);
     ("IndustryScore", VFloat ind_score);
     ("SkillMatchScore", VFloat skill_score);
     ("CertificationScore", VFloat cert_score);
     ("RetrieverScore", retriever_score);
     ("ExpertiseScore", VFloat exp_score);
     ("CulturalAwarenessScore", VFloat cultural_score);
     ("ProblemSolvingScore", VFloat problem_score);
     ("LeadershipScore", VFloat leadership_score)] in
  (* Calculate Overall Weighted Score *)
  let active_scoring_weights :=
    match custom_weights with
    | Some w => w
    | None => SCORING_WEIGHTS
    end in
  let '(overall, overall_score_sum, total_weight_applied) :=
    overall_weighted_score scores active_scoring_weights in
  Ok {| EmployeeID := get employee_record "EmployeeID";
        ProjectID := get project_record "ProjectID";
        Scores := scores;
        Details :=
          [("AvailabilityScore", DDict avail_details);
           ("ProductScore", DText prod_details);
           ("LocationScore", DText loc_details);
           ("LanguageScore", DText lang_details);
           ("IndustryScore", DText ind_details);
           ("SkillMatchScore", DText skill_details);
           ("CertificationScore", DText cert_details);
           ("RetrieverScore",
            DText [Msg "Raw document_score from retriever: {}" [retriever_shown]]);
           ("ExpertiseScore", DText exp_details);
           ("CulturalAwarenessScore", trait_message cultural_awareness cultural_score);
           ("ProblemSolvingScore", trait_message problem_solving problem_score);
           ("LeadershipScore", trait_message leadership leadership_score);
           ("OverallWeightedScoreCalculation",
            DText [Msg "Calculated based on predefined weights. Sum of (score*weight): {}. Total weight applied: {}. Final Score: {}"
                       [AFix 4 overall_score_sum; AFix 2 total_weight_applied;
                        AFix 4 overall]])];
        OverallWeightedScore := overall |}.

(** One pass per candidate, in order; the first exception ends the
    batch.  [clock i] is the time read while candidate [i] is scored. *)
Fixpoint generate_detailed_scores_from (i : nat) (clock : nat -> datetime)
    (project_record : record) (candidate_employee_records : list record)
    (custom_weights : option (list (string * Q))) : result (list report) :=
  match candidate_employee_records with
  | [] => Ok []
  | emp_record :: rest =>
      detailed_scores <-
        score_employee_against_project (clock i) emp_record project_record
          custom_weights ;;
      others <- generate_detailed_scores_from (S i) clock project_record rest
                  custom_weights ;;
      Ok (detailed_scores :: others)
  end.

Definition generate_detailed_scores_for_candidates :=
  generate_detailed_scores_from 0.

(** *** config.py: the instant a numeric timestamp is formatted at *)

(** The numeric branch of [format_timestamp_to_date]: a value above the
    year-2000 mark in milliseconds is taken as milliseconds, any other as
    seconds; the result is what [datetime.fromtimestamp] receives. *)
Definition format_timestamp_seconds (timestamp_input : Q) : Q :=
  if negb (Qle_bool timestamp_input 946684800000) then (timestamp_input / 1000)%Q
  else timestamp_input.

End Scorer.

(** ** A stand-in for the libraries, to run the scorer on examples

    [Demo.lib] gives each library function a definition that computes:
    the similarity ratio by longest common subsequence (what the
    Levenshtein-backed matcher of fuzzywuzzy returns), dates in the
    [YYYY-MM-DD] form (complete, so the clock is not needed), timestamps
    in UTC, a JSON reader for documents
    without escapes or exponents, decimal numerals for [float()] and
    [int()].  The theorems below hold for every [PyLib]; this instance is
    only used to evaluate the scorer on concrete records. *)

Module Demo.

Fixpoint lcs (a b : list ascii) {struct a} : nat :=
  match a with
  | [] => O
  | x :: a' =>
      (fix inner (b : list ascii) : nat :=
         match b with
         | [] => O
         | y :: b' =>
             if Ascii.eqb x y then S (lcs a' b')
             else Nat.max (lcs a' b) (inner b')
         end) b
  end.

Definition ratio (s1 s2 : string) : Z :=
  if String.eqb s1 s2 then 100
  else
    let n := (String.length s1 + String.length s2)%nat in
    if ((String.length s1 =? 0) || (String.length s2 =? 0))%nat then 0
    else
      let m := lcs (list_ascii_of_string s1) (list_ascii_of_string s2) in
      round_half_even (inject_Z (200 * Z.of_nat m) / inject_Z (Z.of_nat n)).

(** Numerals. *)
Definition digit_of (c : ascii) : option Z :=
  let n := nat_of_ascii c in
  if ((48 <=? n) && (n <=? 57))%nat then Some (Z.of_nat (n - 48)) else None.

Fixpoint digits_value (acc : Z) (l : list ascii) : option Z :=
  match l with
  | [] => Some acc
  | c :: r => match digit_of c with
              | Some d => digits_value (10 * acc + d) r
              | None => None
              end
  end.

Definition natural (l : list ascii) : option Z :=
  match l with
  | [] => None
  | _ => digits_value 0 l
  end.

Definition signed {A : Type} (body : list ascii -> option A) (neg : A -> A)
    (l : list ascii) : option A :=
  match l with
  | "-"%char :: r => option_map neg (body r)
  | "+"%char :: r => body r
  | _ => body l
  end.

Definition parse_int (s : string) : option Z :=
  signed natural Z.opp (list_ascii_of_string (strip s)).

Fixpoint split_at_dot (l : list ascii) : list ascii * option (list ascii) :=
  match l with
  | [] => ([], None)
  | "."%char :: r => ([], Some r)
  | c :: r => let '(a, b) := split_at_dot r in (c :: a, b)
  end.

Definition decimal (l : list ascii) : option Q :=
  match split_at_dot l with
  | (whole, None) => option_map inject_Z (natural whole)
  | (whole, Some frac) =>
      match natural whole, natural frac with
      | Some w, Some f =>
          Some (Qred (inject_Z w + (f # pow10 (List.length frac))))
      | _, _ => None
      end
  end.

Definition parse_float (s : string) : option Q :=
  signed decimal Qopp (list_ascii_of_string (strip s)).

(** Calendar dates. *)
Definition days_from_civil (y m d : Z) : Z :=
  let y := if m <=? 2 then y - 1 else y in
  let era := y / 400 in
  let yoe := y - era * 400 in
  let doy := (153 * (if 2 <? m then m - 3 else m + 9) + 2) / 5 + d - 1 in
  let doe := yoe * 365 + yoe / 4 - yoe / 100 + doy in
  era * 146097 + doe - 719468.

Definition is_leap (y : Z) : bool :=
  ((y mod 4 =? 0) && negb (y mod 100 =? 0)) || (y mod 400 =? 0).

Definition days_in_month (y m : Z) : Z :=
  if m =? 2 then (if is_leap y then 29 else 28)
  else if (m =? 4) || (m =? 6) || (m =? 9) || (m =? 11) then 30
  else 31.

Definition parse_date (s : string) : option datetime :=
  match list_ascii_of_string (strip s) with
  | [y1; y2; y3; y4; "-"%char; m1; m2; "-"%char; d1; d2] =>
      match natural [y1; y2; y3; y4], natural [m1; m2], natural [d1; d2] with
      | Some y, Some m, Some d =>
          if (1 <=? y) && (1 <=? m) && (m <=? 12) && (1 <=? d)
             && (d <=? days_in_month y m)
          then Some (days_from_civil y m d * 86400000000)
          else None
      | _, _, _ => None
      end
  | _ => None
  end.

Definition utc_fromtimestamp (t : Q) : option datetime :=
  let us := round_half_even (t * 1000000) in
  if (-62135596800000000 <=? us) && (us <=? 253402300799999999) then Some us
  else None.

(** A reader for JSON documents (no escapes in strings, no exponents). *)
Definition is_json_space (c : ascii) : bool :=
  let n := nat_of_ascii c in
  ((n =? 32) || (n =? 9) || (n =? 10) || (n =? 13))%nat.

Fixpoint skip_space (l : list ascii) : list ascii :=
  match l with
  | c :: r => if is_json_space c then skip_space r else l
  | [] => []
  end.

(** The characters up to the closing quote, and what follows it. *)
Fixpoint read_string (l : list ascii) : option (string * list ascii) :=
  match l with
  | [] => None
  | c :: r =>
      if Ascii.eqb c "034"%char then Some (EmptyString, r)
      else if Ascii.eqb c "\"%char || (nat_of_ascii c <? 32)%nat then None
      else match read_string r with
           | Some (s, r') => Some (String c s, r')
           | None => None
           end
  end.

Definition is_number_char (c : ascii) : bool :=
  match digit_of c with
  | Some _ => true
  | None => Ascii.eqb c "-"%char || Ascii.eqb c "."%char
  end.

Fixpoint span_number (l : list ascii) : list ascii * list ascii :=
  match l with
  | c :: r => if is_number_char c
              then let '(a, b) := span_number r in (c :: a, b)
              else ([], l)
  | [] => ([], [])
  end.

Definition read_number (l : list ascii) : option (value * list ascii) :=
  let '(tok, rest) := span_number l in
  let unsigned := match tok with "-"%char :: r => r | _ => tok end in
  let negative := match tok with "-"%char :: _ => true | _ => false end in
  match split_at_dot unsigned with
  | (_, None) =>
      option_map (fun n => (VInt (if negative then - n else n), rest))
                 (natural unsigned)
  | (_, Some _) =>
      option_map (fun q => (VFloat (if negative then Qopp q else q), rest))
                 (decimal unsigned)
  end.

(** A later member with the same name replaces the earlier value. *)
Definition dict_of_members (members : list (string * value)) : list (string * value) :=
  fold_left (fun d kv => dict_set (fst kv) (snd kv) d) members [].

Fixpoint read_value (fuel : nat) (l : list ascii) {struct fuel}
    : option (value * list ascii) :=
  match fuel with
  | O => None
  | S fuel' =>
      match skip_space l with
      | "n"%char :: "u"%char :: "l"%char :: "l"%char :: r => Some (VNone, r)
      | "t"%char :: "r"%char :: "u"%char :: "e"%char :: r => Some (VBool true, r)
      | "f"%char :: "a"%char :: "l"%char :: "s"%char :: "e"%char :: r =>
          Some (VBool false, r)
      | "034"%char :: r =>
          option_map (fun sr => (VStr (fst sr), snd sr)) (read_string r)
      | "["%char :: r =>
          match skip_space r with
          | "]"%char :: r' => Some (VList [], r')
          | _ => option_map (fun vr => (VList (fst vr), snd vr)) (read_elements fuel' r)
          end
      | "{"%char :: r =>
          match skip_space r with
          | "}"%char :: r' => Some (VDict [], r')
          | _ => option_map (fun mr => (VDict (dict_of_members (fst mr)), snd mr))
                            (read_members fuel' r)
          end
      | l' => read_number l'
      end
  end
with read_elements (fuel : nat) (l : list ascii) {struct fuel}
    : option (list value * list ascii) :=
  match fuel with
  | O => None
  | S fuel' =>
      match read_value fuel' l with
      | None => None
      | Some (v, r) =>
          match skip_space r with
          | ","%char :: r' =>
              option_map (fun vr => (v :: fst vr, snd vr)) (read_elements fuel' r')
          | "]"%char :: r' => Some ([v], r')
          | _ => None
          end
      end
  end
with read_members (fuel : nat) (l : list ascii) {struct fuel}
    : option (list (string * value) * list ascii) :=
  match fuel with
  | O => None
  | S fuel' =>
      match skip_space l with
      | "034"%char :: r =>
          match read_string r with
          | None => None
          | Some (k, r1) =>
              match skip_space r1 with
              | ":"%char :: r2 =>
                  match read_value fuel' r2 with
                  | None => None
                  | Some (v, r3) =>
                      match skip_space r3 with
                      | ","%char :: r4 =>
                          option_map (fun mr => ((k, v) :: fst mr, snd mr))
                                     (read_members fuel' r4)
                      | "}"%char :: r4 => Some ([(k, v)], r4)
                      | _ => None
                      end
                  end
              | _ => None
              end
          end
      | _ => None
      end
  end.

Definition loads (s : string) : option value :=
  let l := list_ascii_of_string s in
  match read_value (S (List.length l)) l with
  | Some (v, r) => match skip_space r with
                   | [] => Some v
                   | _ => None
                   end
  | None => None
  end.

(** Text of a value. *)
Definition string_of_Z (z : Z) : string := NilZero.string_of_int (Z.to_int z).

Fixpoint fraction_digits (fuel : nat) (num den : Z) : string :=
  match fuel with
  | O => EmptyString
  | S fuel' =>
      if num =? 0 then EmptyString
      else String (ascii_of_nat (48 + Z.to_nat (10 * num / den)))
                  (fraction_digits fuel' ((10 * num) mod den) den)
  end.

Definition float_repr (q : Q) : string :=
  let den := Zpos (Qden q) in
  let whole := Z.quot (Qnum q) den in
  let rest := Z.abs (Z.rem (Qnum q) den) in
  let sign := if (Qnum q <? 0) && (whole =? 0) then "-" else EmptyString in
  let frac := if rest =? 0 then "0" else fraction_digits 17 rest den in
  (sign ++ string_of_Z whole ++ "." ++ frac)%string.

Fixpoint repr (v : value) : string :=
  match v with
  | VNone => "None"
  | VBool true => "True"
  | VBool false => "False"
  | VInt z => string_of_Z z
  | VFloat q => float_repr q
  | VStr s => ("'" ++ s ++ "'")%string
  | VList l => ("[" ++ String.concat ", " (map repr l) ++ "]")%string
  | VDict d =>
      ("{" ++ String.concat ", "
                (map (fun kv => ("'" ++ fst kv ++ "': " ++ repr (snd kv))%string) d)
           ++ "}")%string
  end.

#[export] Instance lib : PyLib := {|
  fuzz_ratio := ratio;
  date_parse := fun _ => parse_date;
  fromtimestamp := utc_fromtimestamp;
  json_loads := loads;
  float_of_string := parse_float;
  int_of_string := parse_int;
  py_repr := repr
|}.

End Demo.

(** ** Vocabulary of the properties *)

(** The score of a scorer's result, without its explanation. *)
Definition score_of {T : Type} (r : result (Q * T)) : result Q :=
  match r with
  | Ok (s, _) => Ok s
  | Raise e => Raise e
  end.

(** A text input that is empty or missing. *)
Definition empty_or_none (v : value) : Prop := v = VNone \/ v = VStr EmptyString.


(** Every level of a skill mapping is a number between 0 and 10. *)
Definition level_in_range (v : value) : Prop :=
  exists q, as_num v = Some q /\ (0 <= q <= 10)%Q.

Definition levels_in_range (d : list (string * value)) : Prop :=
  Forall (fun kv => level_in_range (snd kv)) d.

(** A skill field of a record in the documented domain: absent, or a
    mapping whose levels are in range. *)
Definition skill_field_in_domain (rec : record) (field : string) : Prop :=
  match assoc field rec with
  | None => True
  | Some (VDict d) => levels_in_range d
  | Some _ => False
  end.

(** The renormalized mean as the specification words it: the pairs
    (score, weight) of the weight-table entries whose factor has a
    numeric computed score, the sum of score times weight over the sum of
    weights, and 0.0 when no weight applies. *)
Fixpoint applied_weights (scores : list (string * value))
    (weights : list (string * Q)) : list (Q * Q) :=
  match weights with
  | [] => []
  | (name, w) :: rest =>
      match assoc name scores with
      | Some v =>
          match as_num v with
          | Some x => (x, w) :: applied_weights scores rest
          | None => applied_weights scores rest
          end
      | None => applied_weights scores rest
      end
  end.

Definition weighted_sum (l : list (Q * Q)) : Q :=
  Qsum (map (fun xw => fst xw * snd xw)%Q l).

Definition weight_total (l : list (Q * Q)) : Q := Qsum (map snd l).

Definition renormalized_mean (scores : list (string * value))
    (weights : list (string * Q)) : Q :=
  match applied_weights scores weights with
  | [] => 0%Q
  | l => (weighted_sum l / weight_total l)%Q
  end.

(** The same with the guard of the code: the total must be positive. *)
Definition guarded_mean (scores : list (string * value))
    (weights : list (string * Q)) : Q :=
  let l := applied_weights scores weights in
  if negb (Qle_bool (weight_total l) 0)
  then (weighted_sum l / weight_total l)%Q
  else 0%Q.

Definition active_weights (custom_weights : option (list (string * Q)))
    : list (string * Q) :=
  match custom_weights with
  | Some w => w
  | None => SCORING_WEIGHTS
  end.

(** The language fit as the specification words it, on numeric levels. *)
Definition proficiency_fit (required_numeric actual_numeric : Z) : Q :=
  if required_numeric <=? actual_numeric then 1%Q
  else Qmax 0 (1 - inject_Z (required_numeric - actual_numeric) / 6)%Q.

(** A score between 0 and 1. *)
Definition unit_score (s : Q) : Prop := (0 <= s <= 1)%Q.

(** A matched pair whose two levels are in range. *)
Definition pair_in_range (m : string * string * value * value) : Prop :=
  level_in_range (snd (fst m)) /\ level_in_range (snd m).

(** A required skill that finds a candidate key. *)
Definition skill_matches `{PyLib} (cc : list (string * value)) (item : string * value)
    : Prop :=
  exists k, best_fuzzy_match (fst item) (VDict cc) 70 = Ok (Some k) /\ k <> EmptyString.

(** The explanation ends with the message of the branch taken when the
    capability reaches the target. *)
Definition reached_target (d : text) : Prop :=
  exists log capability target,
    d = log ++ [Msg "Final Score: 1.0 (Capability {} >= Target {})"
                    [AFix 3 capability; AFix 2 target]]
    /\ (target <= capability)%Q.

(** The requested end date yields a deadline: it parses, or the far
    future stands in for it. *)
Definition deadline_resolves `{PyLib} (now : datetime) (v : value) : Prop :=
  match parse_date_input now v with
  | Some r => exists t, r = Ok t
  | None => exists t, far_future now = Ok t
  end.



(** A field that holds a list, or is absent or null. *)
Definition list_field (rec : record) (field : string) : Prop :=
  match assoc field rec with
  | None | Some VNone | Some (VList _) => True
  | Some _ => False
  end.

(** A field that holds a list of strings, or is absent or null. *)
Definition text_list_field (rec : record) (field : string) : Prop :=
  match assoc field rec with
  | None | Some VNone => True
  | Some (VList l) => forallb is_str l = true
  | Some _ => False
  end.

(** A field that holds a mapping, or is absent or null. *)
Definition dict_field (rec : record) (field : string) : Prop :=
  match assoc field rec with
  | None | Some VNone | Some (VDict _) => True
  | Some _ => False
  end.

(** A field that holds a number, or is absent. *)
Definition number_field (rec : record) (field : string) : Prop :=
  match assoc field rec with
  | None => True
  | Some v => is_num v = true
  end.

(** The two records as the data model describes them, every list and
    mapping already decoded. *)
Record decoded_records (employee_record project_record : record) : Prop := {
  products_involved : list_field project_record "Products Involved";
  products_experience : list_field employee_record "Products Experience";
  languages_required : dict_field project_record "Languages Required";
  languages_known : dict_field employee_record "Languages Known";
  industry_experience : text_list_field employee_record "Industry Experience";
  required_skills : skill_field_in_domain project_record "Required Skills and Expertise";
  core_competencies : skill_field_in_domain employee_record "Core Competencies";
  certifications_required :
    list_field project_record "Customer Preferences (Certifications)";
  certifications_held : list_field employee_record "External/Internal Certifications";
  expertise_required :
    list_field project_record "Integration Requirements (Expertise Areas)";
  expertise_areas : list_field employee_record "Expertise Areas";
  relevance : number_field employee_record "document_score";
  cultural_awareness : number_field employee_record "Cultural Awareness";
  problem_solving : number_field employee_record "Problem Solving";
  leadership : number_field employee_record "Leadership"
}.

(** The matched pairs as the specification words them: for each required
    language that finds a candidate language, the required level and the
    level of the candidate. *)
Definition matched_levels `{PyLib} (required known : list (string * value))
    : list (value * value) :=
  flat_map
    (fun item =>
       match best_fuzzy_match (fst item) (VDict known) 70 with
       | Ok (Some k) =>
           if String.eqb k EmptyString then []
           else match assoc k known with
                | Some level => [(snd item, level)]
                | None => []
                end
       | _ => []
       end) required.

(** Coverage times average fit, rounded to three decimals. *)
Definition language_formula `{PyLib} (required known : list (string * value)) : Q :=
  let pairs := matched_levels required known in
  let fits := map (fun rl => proficiency_fit (cefr_lookup (fst rl)) (cefr_lookup (snd rl)))
                  pairs in
  py_round ((Qlen pairs / Qlen required) * (Qsum fits / Qlen fits)) 3.

(** The two levels of a matched pair. *)
Definition levels_of (m : string * string * value * value) : value * value :=
  (snd (fst m), snd m).

(** ** Further vocabulary *)

(** The similarity [best_fuzzy_match] computes between a query and a key. *)
Definition key_ratio `{PyLib} (query key : string) : Z :=
  fuzz_ratio (lower query) (lower key).

(** A required item that some candidate item matches. *)
Definition item_satisfied `{PyLib} (candidates : list value) (required : value) : bool :=
  existsb (fun e_item => fuzzy_match required e_item fuzzy_match_threshold) candidates.

(** The number of required items that some candidate item matches. *)
Definition satisfied_count `{PyLib} (required candidates : list value) : Z :=
  Z.of_nat (List.length (filter (item_satisfied candidates) required)).

(** A value Python stores as a scalar: text, number or truth value. *)
Definition is_scalar (v : value) : bool :=
  match v with
  | VStr _ | VInt _ | VFloat _ | VBool _ => true
  | _ => false
  end.

(** A value that is a list or a mapping. *)
Definition is_container (v : value) : bool :=
  match v with
  | VList _ | VDict _ => true
  | _ => false
  end.

(** Text that [_safely_get_and_parse_json_field] hands to the JSON reader. *)
Definition looks_encoded (s : string) : bool :=
  (startswith s "[" && endswith s "]") || (startswith s "{" && endswith s "}").

(** Order on the outcomes of a scorer: a raised exception counts as the
    score 0.0 that [availability_score] returns for it. *)
Definition outcome_score (r : result Q) : Q :=
  match r with
  | Ok s => s
  | Raise _ => 0%Q
  end.



(** The names of the entries of [Scores], in the order they are set. *)
Definition SCORE_NAMES : list string :=
  ["AvailabilityScore"; "IsFullyAvailable"; "ProductScore"; "LocationScore";
   "LanguageScore"; "IndustryScore"; "SkillMatchScore"; "CertificationScore";
   "RetrieverScore"; "ExpertiseScore"; "CulturalAwarenessScore";
   "ProblemSolvingScore"; "LeadershipScore"].

(** The names of the entries of the details of [availability_score]. *)
Definition AVAILABILITY_DETAIL_NAMES : list string :=
  ["raw_project_effort_hours"; "raw_project_end_input"; "parsed_project_end_date";
   "raw_employee_available_from_input"; "parsed_employee_available_date";
   "raw_employee_weekly_capacity"; "project_effort_calculated_days";
   "employee_weekly_capacity_hours"; "calculated_project_end_for_employee";
   "days_over_under"; "status_message"; "original_detail_string"].

(** The deadline [availability_score] works with: the requested end
    date, or five years from now when none is given. *)
Definition requested_deadline `{PyLib} (now : datetime) (project_end_input : value)
    : result datetime :=
  match parse_date_input now project_end_input with
  | Some r => r
  | None => far_future now
  end.

(** The date the employee would finish: the start plus
    [timedelta(days=effort / capacity * 7)]. *)
Definition projected_finish (employee_available_date : datetime)
    (employee_weekly_capacity project_effort_hours_val : Q) : result datetime :=
  delta <- timedelta_days (project_effort_hours_val / employee_weekly_capacity * 7)%Q ;;
  datetime_add employee_available_date delta.

(** The score of a finish date against the deadline. *)
Definition lateness_score (finish deadline : datetime) : Q :=
  if finish <=? deadline then py_round 1 3
  else py_round (Qmax 0 (1 - inject_Z (days_between finish deadline) / 30)) 3.

(** The score of the [try] block of [availability_score], without the
    details it records. *)
Definition availability_value `{PyLib} (now : datetime) (project_effort_input_hours
    project_end_input employee_available_from_input employee_weekly_capacity : value)
    : result Q :=
  deadline <- requested_deadline now project_end_input ;;
  match parse_date_input now employee_available_from_input with
  | None => Ok 0%Q
  | Some r =>
      start <- r ;;
      capacity <- float_or_zero employee_weekly_capacity ;;
      effort <- float_or_zero project_effort_input_hours ;;
      if Qle_bool capacity 0 then Ok 0%Q
      else if Qle_bool effort 0 then Ok 1%Q
      else finish <- projected_finish start capacity effort ;;
           Ok (lateness_score finish deadline)
  end.

(** A required skill paired by [best_fuzzy_match] with a competency of the
    employee; [required] and [actual] are the two levels. *)
Definition skill_pairing `{PyLib} (core_competencies : list (string * value))
    (item : string * value) (required actual : Q) : Prop :=
  exists k level,
    best_fuzzy_match (fst item) (VDict core_competencies) 70 = Ok (Some k)
    /\ k <> EmptyString
    /\ assoc k core_competencies = Some level
    /\ as_num (snd item) = Some required
    /\ as_num level = Some actual.

(** A required skill held at the required level or above. *)
Definition skill_met `{PyLib} (core_competencies : list (string * value))
    (item : string * value) : Prop :=
  exists required actual,
    skill_pairing core_competencies item required actual /\ (required <= actual)%Q.

(** A required skill held more than ten levels below the requirement. *)
Definition skill_far_below `{PyLib} (core_competencies : list (string * value))
    (item : string * value) : Prop :=
  exists required actual,
    skill_pairing core_competencies item required actual /\ (actual + 10 < required)%Q.

(** A required language spoken at the required level or above. *)
Definition language_met `{PyLib} (known : list (string * value))
    (item : string * value) : Prop :=
  exists k level,
    best_fuzzy_match (fst item) (VDict known) 70 = Ok (Some k)
    /\ k <> EmptyString
    /\ assoc k known = Some level
    /\ cefr_lookup (snd item) <= cefr_lookup level.

(** The names of the entries of [Details], in the order they are set. *)
Definition DETAIL_NAMES : list string :=
  ["AvailabilityScore"; "ProductScore"; "LocationScore"; "LanguageScore";
   "IndustryScore"; "SkillMatchScore"; "CertificationScore"; "RetrieverScore";
   "ExpertiseScore"; "CulturalAwarenessScore"; "ProblemSolvingScore";
   "LeadershipScore"; "OverallWeightedScoreCalculation"].


(** A weight-table entry the weighting loop passes over or that adds
    nothing: the factor has no numeric score, or the weight is zero. *)
Definition idle_weight (scores : list (string * value)) (entry : string * Q) : Prop :=
  (snd entry == 0)%Q
  \/ match assoc (fst entry) scores with
     | Some v => as_num v = None
     | None => True
     end.

(** Two records that differ at most in their work location and work
    flexibility. *)
Definition same_except_location (a b : record) : Prop :=
  forall k, k <> "Work Location" -> k <> "Work Flexibility" -> assoc k a = assoc k b.

(** ** retriever.py: metadata for the document store *)

Section Retriever.

(** [json.dumps] *)
Variable json_dumps : value -> string.

(** What [_prepare_metadata_for_chroma] stores for one value: a list or a
    mapping as JSON text, [None] as the empty string, a scalar as it is. *)
Definition prepared_value (v : value) : value :=
  match v with
  | VList _ | VDict _ => VStr (json_dumps v)
  | VNone => VStr EmptyString
  | _ => v
  end.

Definition _prepare_metadata_for_chroma (employee_record : record) : record :=
  fold_left (fun processed_metadata kv =>
               dict_set (fst kv) (prepared_value (snd kv)) processed_metadata)
            employee_record [].

End Retriever.

(** A JSON writer for the examples: compact numbers, text without
    escapes, [", "] and [": "] as separators, as [json.dumps] prints. *)
Module DemoJson.

Definition quote : string := String "034"%char EmptyString.

Fixpoint dumps (v : value) : string :=
  match v with
  | VNone => "null"
  | VBool b => if b then "true" else "false"
  | VInt z => Demo.string_of_Z z
  | VFloat q => Demo.float_repr q
  | VStr s => (quote ++ s ++ quote)%string
  | VList l =>
      ("[" ++
       (fix items (l : list value) : string :=
          match l with
          | [] => EmptyString
          | [x] => dumps x
          | x :: r => dumps x ++ ", " ++ items r
          end) l ++ "]")%string
  | VDict d =>
      ("{" ++
       (fix members (d : list (string * value)) : string :=
          match d with
          | [] => EmptyString
          | [(k, x)] => quote ++ k ++ quote ++ ": " ++ dumps x
          | (k, x) :: r => quote ++ k ++ quote ++ ": " ++ dumps x ++ ", " ++ members r
          end) d ++ "}")%string
  end.

End DemoJson.

(** ** config.py: [format_timestamp_to_date] *)

(** [s.replace(c, '')] *)
Fixpoint remove_char (c : ascii) (s : string) : string :=
  match s with
  | EmptyString => EmptyString
  | String x r => if Ascii.eqb x c then remove_char c r else String x (remove_char c r)
  end.

(** [s.replace(a, b)] for single characters. *)
Definition replace_char (a b : ascii) : string -> string :=
  map_string (fun x => if Ascii.eqb x a then b else x).

(** [s.split(c)[0]] *)
Fixpoint before_first (c : ascii) (s : string) : string :=
  match s with
  | EmptyString => EmptyString
  | String x r => if Ascii.eqb x c then EmptyString else String x (before_first c r)
  end.

(** [s.split(c)] *)
Fixpoint split_on (c : ascii) (s : string) : list string :=
  match s with
  | EmptyString => [EmptyString]
  | String x r =>
      if Ascii.eqb x c then EmptyString :: split_on c r
      else match split_on c r with
           | first :: others => String x first :: others
           | [] => [String x EmptyString]
           end
  end.

Definition is_digit (c : ascii) : bool :=
  let n := nat_of_ascii c in ((48 <=? n) && (n <=? 57))%nat.

Fixpoint all_digits (s : string) : bool :=
  match s with
  | EmptyString => true
  | String c r => is_digit c && all_digits r
  end.

(** [s.isdigit()] *)
Definition isdigit (s : string) : bool :=
  negb (String.eqb s EmptyString) && all_digits s.

(** [float(x)] of a number: the value, in lowest terms. *)
Definition to_float (x : Q) : Q := Qred x.

Section Config.

Context `{L : PyLib}.

(** [t.strftime('%Y-%m-%d')], [datetime.fromisoformat] and
    [datetime.strptime(s, '%Y-%m-%d')]; [None] when they raise
    [ValueError]. *)
Variable strftime : datetime -> string.
Variable fromisoformat : string -> option datetime.
Variable strptime : string -> option datetime.

(** What the handler of [ValueError] returns for a text input. *)
Definition unparsed_text (timestamp_input : string) : string :=
  if contains "-" timestamp_input then
    let date_part := before_first "T" timestamp_input in
    match split_on "-" date_part with
    | [year; month; day] =>
        if isdigit year && isdigit month && isdigit day
           && (String.length year =? 4)%nat && (String.length month <=? 2)%nat
           && (String.length day <=? 2)%nat
        then date_part
        else timestamp_input
    | _ => timestamp_input
    end
  else timestamp_input.

(** [format_timestamp_to_date] on the values of the data model (a
    [datetime] object is not one of them). *)
Definition format_timestamp_to_date (timestamp_input : value) : string :=
  match timestamp_input with
  | VNone => "N/A"
  | _ =>
      if String.eqb (strip (py_str timestamp_input)) EmptyString then "N/A"
      else
        match timestamp_input with
        | VStr s =>
            let timestamp_str := remove_char "Z" (strip s) in
            let timestamp_str :=
              if contains "." timestamp_str then before_first "." timestamp_str
              else timestamp_str in
            let dt_obj :=
              if contains "T" timestamp_str
              then fromisoformat (replace_char "T" " " timestamp_str)
              else strptime timestamp_str in
            match dt_obj with
            | Some t => strftime t
            | None => unparsed_text s
            end
        | _ =>
            match as_num timestamp_input with
            | Some x =>
                let rescaled := negb (Qle_bool x 946684800000) in
                let x' := if rescaled then (x / 1000)%Q else x in
                match fromtimestamp (to_float x') with
                | Some t => strftime t
                | None =>
                    py_str (if rescaled then VFloat (to_float x') else timestamp_input)
                end
            | None => py_str timestamp_input
            end
        end
  end.

End Config.

(** ** Sample records *)

Module Samples.

(** 2025-01-01T00:00:00, in microseconds. *)
Definition new_year_2025 : datetime := 1735689600000000.


Definition employee : record :=
  [("EmployeeID", VStr "E001");
   ("Available From", VStr "2025-01-01");
   ("Weekly Availability in Hours", VInt 40);
   ("Products Experience", VList [VStr "Python"; VStr "PyTorch"]);
   ("Work Location", VStr "Berlin");
   ("Work Flexibility", VStr "Hybrid");
   ("Languages Known", VDict [("English", VStr "C2")]);
   ("Industry Experience", VList [VStr "Technology"; VStr "Finance"]);
   ("Core Competencies", VDict [("Cloud", VInt 6); ("Python", VInt 5)]);
   ("External/Internal Certifications", VList [VStr "PMP"]);
   ("Expertise Areas", VList [VStr "AI Development"]);
   ("Cultural Awareness", VInt 8);
   ("Problem Solving", VInt 9);
   ("Leadership", VInt 7);
   ("document_score", VFloat (3 # 4))].

(** A project with no requested end date. *)
Definition project : record :=
  [("ProjectID", VStr "P001");
   ("Effort", VInt 400);
   ("Products Involved", VList [VStr "Python"; VStr "TensorFlow"]);
   ("Work Location", VStr "Berlin");
   ("Work Flexibility", VStr "Hybrid");
   ("Languages Required", VDict [("English", VStr "C1")]);
   ("Customer Industry", VStr "Technology");
   ("Required Skills and Expertise", VDict [("Cloud", VInt 8)]);
   ("Complexity", VInt 7);
   ("Customer Preferences (Certifications)", VList [VStr "PMP"]);
   ("Integration Requirements (Expertise Areas)", VList [VStr "AI Development"])].

(** The same project with a requested end date. *)
Definition dated_project : record :=
  ("Requested End Date", VStr "2025-06-30") :: project.

(** [s] between double quotes. *)
Definition quoted (s : string) : string :=
  String "034"%char (s ++ String "034"%char EmptyString)%string.

(** The same project with its skill mapping left JSON-encoded, as the
    document store hands it back. *)
Definition encoded_skills : string := ("{" ++ quoted "Cloud" ++ ": 8}")%string.

Definition encoded_project : record :=
  dict_set "Required Skills and Expertise" (VStr encoded_skills) project.

End Samples.

(** ** Properties *)

(** *** Rounding *)

Lemma round_half_even_bounds (x : Q) :
  Qfloor x <= round_half_even x <= Qfloor x + 1.
Proof.
  unfold round_half_even.
  destruct (Qcompare (x - inject_Z (Qfloor x)) (1 # 2)); [destruct (Z.even _) | |]; lia.
Qed.

Lemma round_half_even_comp (x y : Q) :
  (x == y)%Q -> round_half_even x = round_half_even y.
Proof.
  intros E. unfold round_half_even.
  rewrite (Qfloor_comp _ _ E).
  assert (E' : (x - inject_Z (Qfloor y) == y - inject_Z (Qfloor y))%Q) by (rewrite E; reflexivity).
  rewrite (Qcompare_comp _ _ E' _ _ (Qeq_refl (1 # 2))). reflexivity.
Qed.

Lemma round_half_even_range (x : Q) (n : Z) :
  (0 <= x <= inject_Z n)%Q -> 0 <= round_half_even x <= n.
Proof.
  intros [H0 Hn].
  pose proof (round_half_even_bounds x) as [Hlo Hhi].
  pose proof (Qfloor_resp_le _ _ H0) as F0.
  pose proof (Qfloor_resp_le _ _ Hn) as Fn.
  rewrite Qfloor_Z in Fn. change (Qfloor 0) with 0 in F0.
  split; [lia|].
  destruct (Z.eq_dec (Qfloor x) n) as [E|NE]; [|lia].
  unfold round_half_even. rewrite E.
  pose proof (Qfloor_le x) as Hf. rewrite E in Hf.
  destruct (Qcompare (x - inject_Z n) (1 # 2)) eqn:C; [|lia|].
  - apply Qeq_alt in C. lra.
  - apply Qgt_alt in C. lra.
Qed.

Lemma py_round_comp (x y : Q) (n : nat) : (x == y)%Q -> py_round x n = py_round y n.
Proof.
  intros E. unfold py_round.
  rewrite (round_half_even_comp (x * _) (y * inject_Z (Z.pos (pow10 n)))%Q); [reflexivity|].
  rewrite E. reflexivity.
Qed.

Lemma py_round_range (x : Q) (n : nat) :
  (0 <= x <= 1)%Q -> (0 <= py_round x n <= 1)%Q.
Proof.
  intros [H0 H1]. unfold py_round. rewrite Qred_correct.
  set (s := pow10 n).
  assert (Hs : (0 < inject_Z (Z.pos s))%Q) by (unfold Qlt; simpl; lia).
  destruct (round_half_even_range (x * inject_Z (Z.pos s)) (Z.pos s)) as [R0 R1].
  { split; [apply Qmult_le_0_compat; lra | nra]. }
  unfold Qle; simpl. lia.
Qed.

(** *** Sums *)

Lemma fold_Qplus_acc (l : list Q) (a : Q) :
  (fold_left Qplus l a == a + fold_left Qplus l 0)%Q.
Proof.
  revert a. induction l as [|x l IH]; intros a; simpl.
  - lra.
  - rewrite (IH (a + x)%Q), (IH (0 + x)%Q). lra.
Qed.

Lemma Qsum_cons (x : Q) (l : list Q) : (Qsum (x :: l) == x + Qsum l)%Q.
Proof. unfold Qsum. simpl. rewrite fold_Qplus_acc. lra. Qed.

Lemma Qsum_app (l1 l2 : list Q) : (Qsum (l1 ++ l2) == Qsum l1 + Qsum l2)%Q.
Proof.
  induction l1 as [|x l1 IH]; simpl.
  - unfold Qsum at 2. simpl. lra.
  - rewrite !Qsum_cons, IH. lra.
Qed.

Lemma Qlen_cons {A : Type} (x : A) (l : list A) : (Qlen (x :: l) == 1 + Qlen l)%Q.
Proof.
  unfold Qlen. cbn [List.length]. rewrite Nat2Z.inj_succ, <- Z.add_1_l, inject_Z_plus.
  reflexivity.
Qed.

Lemma Qlen_nonneg {A : Type} (l : list A) : (0 <= Qlen l)%Q.
Proof. unfold Qlen, Qle. simpl. lia. Qed.

Lemma Qsum_range (l : list Q) :
  Forall (fun x => 0 <= x <= 1)%Q l -> (0 <= Qsum l <= Qlen l)%Q.
Proof.
  induction 1 as [|x l Hx _ IH].
  - unfold Qsum, Qlen. simpl. unfold inject_Z. lra.
  - rewrite Qsum_cons, Qlen_cons. cbv beta in Hx. lra.
Qed.

Lemma ratio_range (a b : Q) : (0 <= a <= b)%Q -> (0 < b)%Q -> (0 <= a / b <= 1)%Q.
Proof.
  intros [H0 H1] Hb. split.
  - apply Qle_shift_div_l; lra.
  - apply Qle_shift_div_r; lra.
Qed.

Lemma Qlen_pos {A : Type} (l : list A) : l <> [] -> (0 < Qlen l)%Q.
Proof.
  destruct l; [congruence|]. intros _. rewrite Qlen_cons.
  pose proof (Qlen_nonneg l). lra.
Qed.

Lemma mean_range (l : list Q) :
  l <> [] -> Forall (fun x => 0 <= x <= 1)%Q l -> (0 <= Qsum l / Qlen l <= 1)%Q.
Proof.
  intros Hne Hall. apply ratio_range; [apply Qsum_range, Hall | apply Qlen_pos, Hne].
Qed.

Lemma Qdiv_nonneg (a b : Q) : (0 <= a)%Q -> (0 < b)%Q -> (0 <= a / b)%Q.
Proof. intros Ha Hb. apply Qle_shift_div_l; lra. Qed.

Lemma inject_Z_nonneg (z : Z) : 0 <= z -> (0 <= inject_Z z)%Q.
Proof. intros H. change 0%Q with (inject_Z 0). rewrite <- Zle_Qle. exact H. Qed.

(** [1 - a / b] stays at or below 1 for a non-negative [a]. *)
Lemma one_minus_ratio_le (a b : Q) : (0 <= a)%Q -> (0 < b)%Q -> (1 - a / b <= 1)%Q.
Proof.
  intros Ha Hb. pose proof (Qdiv_nonneg a b Ha Hb).
  set (q := (a / b)%Q) in *. lra.
Qed.

Section Properties.

Context {L : PyLib}.

(** *** Every scorer stays between 0 and 1 *)

Lemma unit_score_0 : unit_score 0.
Proof. unfold unit_score. lra. Qed.

Lemma unit_score_1 : unit_score 1.
Proof. unfold unit_score. lra. Qed.

Lemma unit_score_round (x : Q) (n : nat) : unit_score x -> unit_score (py_round x n).
Proof. apply py_round_range. Qed.

Lemma Qmax0_unit (x : Q) : (x <= 1)%Q -> unit_score (Qmax 0 x).
Proof.
  intros H. unfold unit_score. split.
  - apply Q.le_max_l.
  - apply Q.max_lub; lra.
Qed.

(** *** normalize *)


(** *** List-overlap scorers *)

Lemma overlap_step_count (labels : overlap_labels) (e_items : list value)
    (acc : Z * text) (p : value) :
  fst acc <= fst (overlap_step labels e_items acc p) <= fst acc + 1.
Proof.
  unfold overlap_step. destruct acc as [m d].
  destruct (find _ e_items); cbn [fst]; lia.
Qed.

Lemma overlap_fold_count (labels : overlap_labels) (e_items p_items : list value)
    (acc : Z * text) :
  fst acc <= fst (fold_left (overlap_step labels e_items) p_items acc)
    <= fst acc + Z.of_nat (List.length p_items).
Proof.
  revert acc. induction p_items as [|p l IH]; intros acc.
  - simpl. lia.
  - cbn [fold_left List.length].
    specialize (IH (overlap_step labels e_items acc p)).
    pose proof (overlap_step_count labels e_items acc p). lia.
Qed.

Lemma overlap_score_range (labels : overlap_labels) (p e : value) (s : Q) (d : text) :
  overlap_score labels p e = Ok (s, d) -> unit_score s.
Proof.
  unfold overlap_score.
  destruct (negb (truthy p)); [intros [= <- _]; apply unit_score_1|].
  destruct (negb (truthy e)); [intros [= <- _]; apply unit_score_0|].
  destruct (iterate (as_list p)) as [p_items|]; [|discriminate].
  destruct (iterate (as_list e)) as [e_items|]; [|discriminate].
  cbn [bind].
  pose proof (overlap_fold_count labels e_items p_items (0, [])) as Hc.
  destruct (fold_left (overlap_step labels e_items) p_items (0, []))
    as [matches details].
  cbn [fst] in Hc. intros [= <- _].
  apply unit_score_round.
  destruct p_items as [|x l].
  - cbn in Hc. assert (matches = 0) by lia. subst. unfold unit_score.
    split; unfold Qle; simpl; lia.
  - apply ratio_range.
    + unfold Qlen. split; [change 0%Q with (inject_Z 0)|]; rewrite <- Zle_Qle; lia.
    + apply Qlen_pos. discriminate.
Qed.

(** *** Industry and location *)




(** *** Language score *)


Lemma lang_fold_raise (el : value) (items : list (string * value)) (e : exn) :
  fold_left (lang_match_step el) items (Raise e) = Raise e.
Proof. induction items as [|i l IH]; [reflexivity | exact IH]. Qed.


Lemma level_fold_scores (matched : list (string * string * value * value)) :
  forall ls0 d0 ls d,
    fold_left level_step matched (ls0, d0) = (ls, d) ->
    ls = ls0 ++ map (fun m => level_fit (snd (fst m)) (snd m)) matched.
Proof.
  induction matched as [|[[[p k] pl] el] l IH]; intros ls0 d0 ls d H.
  - cbn in H. injection H as <- <-. rewrite app_nil_r. reflexivity.
  - cbn [fold_left map] in *. unfold level_step at 2 in H.
    apply IH in H. rewrite <- app_assoc in H. exact H.
Qed.

Lemma unit_score_mult (a b : Q) : unit_score a -> unit_score b -> unit_score (a * b).
Proof. unfold unit_score. intros [? ?] [? ?]. split; nra. Qed.

Lemma coverage_range {A B : Type} (m : list A) (items : list B) :
  m <> [] -> (List.length m <= List.length items)%nat ->
  unit_score (Qlen m / Qlen items).
Proof.
  intros Hne Hle. apply ratio_range.
  - split; [apply Qlen_nonneg|]. unfold Qlen. rewrite <- Zle_Qle. lia.
  - apply Qlen_pos. destruct items; [|discriminate].
    destruct m; [congruence | cbn in Hle; lia].
Qed.


(** *** Availability score *)




(** *** Association lists *)

Lemma assoc_In {A : Type} (k : string) (d : list (string * A)) (v : A) :
  assoc k d = Some v -> In (k, v) d.
Proof.
  induction d as [|[k' x] d IH]; cbn; [discriminate|].
  destruct (String.eqb_spec k k') as [->|_].
  - intros [= ->]. now left.
  - intros H. right. auto.
Qed.

Lemma assoc_of_key {A : Type} (k : string) (d : list (string * A)) :
  In k (map fst d) -> exists v, assoc k d = Some v.
Proof.
  induction d as [|[k' x] d IH]; cbn; [contradiction|].
  destruct (String.eqb_spec k k') as [->|Hne].
  - eauto.
  - intros [E|H]; [congruence | auto].
Qed.

(** *** The best match is one of the keys *)

Lemma best_fold_key (q : string) (keys : list string) :
  forall acc k,
    snd (fold_left (best_step q) keys acc) = Some k ->
    snd acc = Some k \/ In k keys.
Proof.
  induction keys as [|x l IH]; intros acc k H; cbn in *; [now left|].
  apply IH in H. destruct H as [H|H]; [|now right; right].
  unfold best_step in H. destruct (fst acc <? _); cbn in H.
  - injection H as ->. right. now left.
  - now left.
Qed.

Lemma best_fuzzy_match_key (q : string) (d : list (string * value)) (t : Q) (k : string) :
  best_fuzzy_match q (VDict d) t = Ok (Some k) -> In k (map fst d).
Proof.
  unfold best_fuzzy_match. cbn [dict_keys bind].
  destruct (Qle_bool t _); [|discriminate].
  intros [= H]. apply best_fold_key in H. destruct H as [H|H]; [discriminate | exact H].
Qed.

Lemma best_fuzzy_match_dict (q : string) (d : list (string * value)) (t : Q) :
  exists k, best_fuzzy_match q (VDict d) t = Ok k.
Proof.
  unfold best_fuzzy_match. cbn [dict_keys bind].
  destruct (Qle_bool t _); eauto.
Qed.

Lemma key_truthy_some (k : option string) (s : string) :
  key_truthy k = Some s <-> k = Some s /\ s <> EmptyString.
Proof.
  unfold key_truthy. destruct k as [x|]; [|split; [discriminate | intros [[=] _]]].
  destruct (String.eqb_spec x EmptyString) as [->|Hne]; split.
  - discriminate.
  - intros [[= <-] H]. congruence.
  - intros [= ->]. auto.
  - intros [[= ->] _]. reflexivity.
Qed.

(** *** The fit of one pair *)

Lemma py_ge_num (a b : value) (p q : Q) :
  as_num a = Some p -> as_num b = Some q -> py_ge a b = Ok (Qle_bool q p).
Proof.
  destruct a; cbn; try discriminate; intros [= <-];
    destruct b; cbn; try discriminate; intros [= <-]; reflexivity.
Qed.

Lemma skill_fit_range (required actual : value) :
  level_in_range required -> level_in_range actual ->
  exists x, skill_fit required actual = Ok x /\ unit_score x.
Proof.
  intros [r [Hr [Hr0 Hr10]]] [a [Ha [Ha0 Ha10]]].
  unfold skill_fit. rewrite (py_ge_num _ _ _ _ Ha Hr). cbn [bind].
  destruct (Qle_bool r a) eqn:Hle.
  - eexists; split; [reflexivity | apply unit_score_1].
  - unfold py_sub. rewrite Hr, Ha. cbn [bind].
    eexists; split; [reflexivity|].
    assert (Hlt : ~ (r <= a)%Q) by (rewrite <- Qle_bool_iff, Hle; discriminate).
    destruct (ratio_range (r - a) 10) as [D0 D1]; [lra | reflexivity|].
    set (q := ((r - a) / 10)%Q) in *. unfold unit_score. lra.
Qed.

(** *** The matching loop *)

Lemma skill_fold_raise (cc : value) (items : list (string * value)) (e : exn) :
  fold_left (skill_match_step cc) items (Raise e) = Raise e.
Proof. induction items as [|i l IH]; [reflexivity | exact IH]. Qed.

Lemma skill_fold_spec (cc : list (string * value)) (items : list (string * value)) :
  levels_in_range cc -> levels_in_range items ->
  forall m0 d0, Forall pair_in_range m0 ->
  exists m d,
    fold_left (skill_match_step (VDict cc)) items (Ok (m0, d0)) = Ok (m, d)
    /\ Forall pair_in_range m
    /\ (List.length m0 <= List.length m <= List.length m0 + List.length items)%nat
    /\ (Exists (skill_matches cc) items -> m <> []).
Proof.
  intros Hcc. induction items as [|[p lv] l IH]; intros Hitems m0 d0 Hm0.
  - exists m0, d0. cbn. repeat split; auto; try lia.
    intros H. inversion H.
  - inversion Hitems as [|? ? Hlv Hl]; subst. cbn [snd] in Hlv.
    cbn [fold_left List.length]. unfold skill_match_step at 2. cbn [bind].
    destruct (best_fuzzy_match_dict p cc 70) as [k Hk]. rewrite Hk. cbn [bind].
    destruct (key_truthy k) as [k'|] eqn:Hkt.
    + apply key_truthy_some in Hkt as [-> Hne].
      pose proof (best_fuzzy_match_key _ _ _ _ Hk) as Hin.
      apply assoc_of_key in Hin as [act Hact].
      cbn [subscript]. rewrite Hact. cbn [bind].
      destruct (IH Hl (m0 ++ [(p, k', lv, act)])
                  (d0 ++ [Msg "  Match: Proj '{}'({}) with Emp '{}'({})"
                              [AStr p; AVal lv; AStr k'; AVal act]]))
        as [m [d [Hf [Hr [Hlen _]]]]].
      { apply Forall_app. split; [exact Hm0|]. constructor; [|constructor].
        split; cbn [fst snd]; [exact Hlv|].
        apply assoc_In in Hact.
        exact (proj1 (Forall_forall _ _) Hcc _ Hact). }
      exists m, d. rewrite length_app in Hlen. cbn in Hlen.
      repeat split; auto; try lia.
      intros _ ->. cbn in Hlen. lia.
    + destruct (IH Hl m0 (d0 ++ [Msg "  No Match: Proj '{}'({})" [AStr p; AVal lv]]) Hm0)
        as [m [d [Hf [Hr [Hlen Hex]]]]].
      exists m, d. repeat split; auto; try lia.
      intros H. apply Hex. inversion H as [? ? [k1 [Hk1 Hne]]|]; subst; [|assumption].
      cbn [fst] in Hk1. rewrite Hk in Hk1. injection Hk1 as ->.
      cbn in Hkt. destruct (String.eqb_spec k1 EmptyString); congruence.
Qed.

(** *** The fit loop *)

Lemma expertise_fold_spec (matched : list (string * string * value * value)) :
  Forall pair_in_range matched ->
  forall es0 d0, Forall unit_score es0 ->
  exists es d,
    fold_left expertise_step matched (Ok (es0, d0)) = Ok (es, d)
    /\ Forall unit_score es
    /\ List.length es = (List.length es0 + List.length matched)%nat.
Proof.
  induction 1 as [|[[[p k] req] act] l [Hreq Hact] _ IH]; intros es0 d0 Hes0.
  - exists es0, d0. cbn. repeat split; auto.
  - cbn [fst snd] in Hreq, Hact.
    destruct (skill_fit_range req act Hreq Hact) as [x [Hx Hux]].
    cbn [fold_left List.length]. unfold expertise_step at 2. cbn [bind].
    rewrite Hx. cbn [bind].
    destruct (IH (es0 ++ [x])
                 (d0 ++ [Msg "    Expertise Fit: ReqLvl={}, EmpLvl={}, Score={}"
                             [AVal req; AVal act; AFix 2 x]]))
      as [es [d [Hf [Hr Hlen]]]].
    { apply Forall_app. split; [exact Hes0 | constructor; [exact Hux | constructor]]. }
    exists es, d. rewrite length_app in Hlen. cbn in Hlen.
    repeat split; auto. lia.
Qed.

Lemma clamp_complexity_range (c : value) : (0 <= clamp_complexity c <= 10)%Q.
Proof.
  unfold clamp_complexity. split.
  - apply Q.le_max_l.
  - apply Q.max_lub; [lra | apply Q.le_min_l].
Qed.

Lemma len_or_zero_dict (d : list (string * value)) :
  exists n, len_or_zero (VDict d) = Ok n.
Proof. unfold len_or_zero. destruct (truthy (VDict d)); cbn; eauto. Qed.

Lemma len_or_zero_none : len_or_zero VNone = Ok 0.
Proof. reflexivity. Qed.

(** The last step of the skill scorer: capability against the target. *)
Lemma final_skill_score (capability target : Q) (log : text) :
  unit_score capability -> (0 <= target)%Q ->
  exists s d,
    (if Qle_bool target capability then
       Ok (1%Q, log ++ [Msg "Final Score: 1.0 (Capability {} >= Target {})"
                            [AFix 3 capability; AFix 2 target]])
     else
       raw_final_score_else <- py_div capability target ;;
       let final_score := py_round raw_final_score_else 2 in
       Ok (final_score, log ++
             [Msg "Final Score: {} (Capability {} / Target {}, Raw: {})"
                  [AFix 2 final_score; AFix 3 capability; AFix 2 target;
                   AFix 3 raw_final_score_else]])) = Ok (s, d)
    /\ unit_score s
    /\ ((target == 0)%Q -> s = 1%Q /\ reached_target d).
Proof.
  intros [Hc0 Hc1] Ht.
  destruct (Qle_bool target capability) eqn:Hle.
  - do 2 eexists. split; [reflexivity|]. split; [apply unit_score_1|].
    intros _. split; [reflexivity|].
    exists log, capability, target. split; [reflexivity|].
    apply Qle_bool_iff, Hle.
  - assert (Hlt : (capability < target)%Q).
    { apply Qnot_le_lt. rewrite <- Qle_bool_iff, Hle. discriminate. }
    unfold py_div. destruct (Qeq_bool target 0) eqn:Hz.
    + apply Qeq_bool_iff in Hz. lra.
    + cbn [bind]. do 2 eexists. split; [reflexivity|]. split.
      * apply unit_score_round, ratio_range; lra.
      * intros Hz'. lra.
Qed.

Lemma skill_dicts_spec (ps cc : list (string * value)) (c : value) :
  levels_in_range ps -> levels_in_range cc ->
  exists s d,
    skill_match_score_with_fuzzy_keys (VDict ps) c (VDict cc) = Ok (s, d)
    /\ unit_score s
    /\ ((clamp_complexity c == 0)%Q -> Exists (skill_matches cc) ps ->
        s = 1%Q /\ reached_target d).
Proof.
  intros Hps Hcc. unfold skill_match_score_with_fuzzy_keys.
  destruct (len_or_zero_dict ps) as [np ->].
  destruct (len_or_zero_dict cc) as [nc ->]. cbn [bind].
  set (log0 := _ ++ [Msg "Project Skills: {}, Emp Competencies: {}, Proj Complexity: {}" _]).
  destruct ps as [|p1 ps'].
  { cbn. do 2 eexists. split; [reflexivity|]. split; [apply unit_score_0|].
    intros _ H. inversion H. }
  destruct cc as [|c1 cc'].
  { cbn. do 2 eexists. split; [reflexivity|]. split; [apply unit_score_0|].
    intros _ H. exfalso. apply Exists_exists in H as [x [_ [k [Hk _]]]].
    apply best_fuzzy_match_key in Hk. inversion Hk. }
  remember (p1 :: ps') as ps eqn:Eps. remember (c1 :: cc') as cc eqn:Ecc.
  assert (Htp : truthy (VDict ps) = true) by (subst; reflexivity).
  assert (Htc : truthy (VDict cc) = true) by (subst; reflexivity).
  rewrite Htp, Htc. cbn [andb dict_items bind].
  destruct (skill_fold_spec cc ps Hcc Hps [] log0 (Forall_nil _))
    as [m [d [Hf [Hm [Hlen Hex]]]]].
  rewrite Hf.
  cbn [bind List.length Nat.add] in *.
  destruct m as [|m1 m'].
  { do 2 eexists. split; [reflexivity|]. split; [apply unit_score_0|].
    intros _ H. exfalso. now apply Hex. }
  remember (m1 :: m') as m eqn:Em. cbn [py_len bind].
  match goal with
  | |- context [fold_left expertise_step m (Ok ([], ?lg))] =>
      destruct (expertise_fold_spec m Hm [] lg (Forall_nil _))
        as [es [d' [Hf' [Hes Hes_len]]]]
  end.
  rewrite Hf'.
  cbn [bind List.length Nat.add] in *.
  match goal with
  | |- context [Qle_bool ?t ?cap] =>
      destruct (final_skill_score cap t
                  (((d' ++ [Msg "Avg Expertise Fit: {}" [AFix 2 (Qsum es / Qlen es)]])
                    ++ [Msg "Capability (Coverage * Expertise Fit): {}" [AFix 3 cap]])
                    ++ [Msg "Complexity Target: {}" [AFix 2 t]]))
        as [s [df [Hs [Hu Hz]]]]
  end.
  - apply unit_score_mult.
    + apply (coverage_range m ps); [subst; discriminate | lia].
    + apply mean_range; [|exact Hes].
      intros ->. subst m. cbn in Hes_len. lia.
  - pose proof (clamp_complexity_range c) as [H0 _].
    apply Qdiv_nonneg; [exact H0 | reflexivity].
  - exists s, df. split; [exact Hs|]. split; [exact Hu|].
    intros Hc _. apply Hz. rewrite Hc. reflexivity.
Qed.

(** One step through [score_employee_against_project]: a scorer that
    returned, or a pair taken apart. *)
Ltac step_scoring :=
  match goal with
  | |- context [bind ?c _] => destruct c; [cbn [bind] | discriminate]
  | |- context [let (_, _) := ?x in _] => destruct x eqn:?
  end.

(** *** Fuzzy matching of empty text (C10) *)

Lemma truthy_empty_or_none (v : value) : empty_or_none v -> truthy v = false.
Proof. intros [-> | ->]; reflexivity. Qed.

(** C10.  [fuzzy_match] answers [False] as soon as one of its two inputs
    is empty or [None], for every threshold and even when both inputs are
    the same empty string.  Hence a project that is on-site or hybrid and
    whose location is empty never matches the location of a candidate,
    and its location score is 0.0. *)
Theorem fuzzy_match_empty_never_matches
    (threshold : Q) (text1 text2 project_loc project_flex employee_loc employee_flex : value) :
  empty_or_none text1 \/ empty_or_none text2 ->
  empty_or_none project_loc ->
  normalize_flexibility project_flex = 2 \/ normalize_flexibility project_flex = 1 ->
  fuzzy_match text1 text2 threshold = false
  /\ fuzzy_match project_loc employee_loc fuzzy_match_threshold = false
  /\ fst (location_score project_loc project_flex employee_loc employee_flex) = 0%Q.
Proof.
  intros Hempty Hloc Hflex.
  assert (Hno : forall t, fuzzy_match project_loc employee_loc t = false).
  { intros t. unfold fuzzy_match. rewrite (truthy_empty_or_none _ Hloc). reflexivity. }
  split; [|split].
  - unfold fuzzy_match.
    destruct Hempty as [H|H]; rewrite (truthy_empty_or_none _ H); cbn [negb orb];
      [reflexivity | rewrite orb_true_r; reflexivity].
  - apply Hno.
  - unfold location_score. rewrite Hno.
    destruct Hflex as [-> | ->]; cbn [Z.eqb Pos.eqb];
      destruct (normalize_flexibility employee_flex =? 0); reflexivity.
Qed.

(** *** Skill scorer on an empty requirement (C5) *)

(** C5.  With an empty (or [None]) requirement mapping the skill scorer
    returns exactly 0.0, for every complexity and every candidate
    competency mapping, empty or not: the convention that an empty
    requirement scores 1.0 does not hold for this factor. *)
Theorem skill_empty_requirement_scores_zero
    (project_skills_dict project_complexity_int core_competency_dict : value) :
  project_skills_dict = VNone \/ project_skills_dict = VDict [] ->
  core_competency_dict = VNone \/ (exists d, core_competency_dict = VDict d) ->
  score_of (skill_match_score_with_fuzzy_keys project_skills_dict
              project_complexity_int core_competency_dict) = Ok 0%Q.
Proof.
  intros Hps Hcc. unfold skill_match_score_with_fuzzy_keys.
  assert (Hlen : exists n, len_or_zero core_competency_dict = Ok n).
  { destruct Hcc as [-> | [d ->]]; [exists 0; reflexivity | apply len_or_zero_dict]. }
  destruct Hlen as [n ->].
  destruct Hps as [-> | ->]; reflexivity.
Qed.

(** *** Skill scorer at complexity zero (C6) *)

(** C6.  At complexity 0 (target 0), with at least one required skill
    that finds a candidate key and all levels between 0 and 10, the skill
    scorer returns 1.0 through the branch taken when the capability
    reaches the target: the quotient capability / target is not
    computed, and no [ZeroDivisionError] is raised. *)
Theorem skill_zero_complexity_scores_one
    (project_skills core_competencies : list (string * value))
    (project_complexity_int : value) :
  (clamp_complexity project_complexity_int == 0)%Q ->
  levels_in_range project_skills ->
  levels_in_range core_competencies ->
  Exists (skill_matches core_competencies) project_skills ->
  exists explanation,
    skill_match_score_with_fuzzy_keys (VDict project_skills)
      project_complexity_int (VDict core_competencies) = Ok (1%Q, explanation)
    /\ reached_target explanation.
Proof.
  intros Hc Hps Hcc Hex.
  destruct (skill_dicts_spec project_skills core_competencies project_complexity_int
              Hps Hcc) as [s [d [-> [_ Hone]]]].
  destruct (Hone Hc Hex) as [-> Hd]. exists d. split; [reflexivity | exact Hd].
Qed.

(** *** Range of the factor scores (C8) *)




(** *** The weighted aggregate (C1) *)

Lemma weight_fold_spec (scores : list (string * value)) (weights : list (string * Q)) :
  forall a b,
    (fst (fold_left (weight_step scores) weights (a, b))
       == a + weighted_sum (applied_weights scores weights))%Q
    /\ (snd (fold_left (weight_step scores) weights (a, b))
       == b + weight_total (applied_weights scores weights))%Q.
Proof.
  induction weights as [|[name w] l IH]; intros a b.
  - cbn. unfold weighted_sum, weight_total, Qsum. cbn. split; lra.
  - cbn [fold_left applied_weights]. unfold weight_step at 2 4.
    destruct (assoc name scores) as [v|]; [destruct (as_num v) as [x|]|]; try apply IH.
    destruct (IH (a + x * w)%Q (b + w)%Q) as [-> ->].
    unfold weighted_sum, weight_total. cbn [map fst snd]. rewrite !Qsum_cons.
    split; lra.
Qed.

Lemma overall_weighted_score_spec (scores : list (string * value))
    (weights : list (string * Q)) :
  fst (fst (overall_weighted_score scores weights))
  = py_round (guarded_mean scores weights) 4.
Proof.
  unfold overall_weighted_score, guarded_mean.
  destruct (weight_fold_spec scores weights 0 0) as [Hs Ht].
  destruct (fold_left (weight_step scores) weights (0%Q, 0%Q)) as [s t].
  cbn [fst snd] in *. rewrite Qplus_0_l in Hs, Ht.
  apply py_round_comp. rewrite (Qleb_comp _ _ Ht _ _ (Qeq_refl 0)).
  destruct (Qle_bool _ 0); cbn [negb]; [reflexivity|].
  rewrite Hs, Ht. reflexivity.
Qed.

(** The report carries the aggregate of its own scores. *)
Lemma report_overall (now : datetime) (employee_record project_record : record)
    (custom_weights : option (list (string * Q))) (r : report) :
  score_employee_against_project now employee_record project_record custom_weights = Ok r ->
  OverallWeightedScore r
  = fst (fst (overall_weighted_score (Scores r) (active_weights custom_weights))).
Proof.
  unfold score_employee_against_project. repeat step_scoring.
  intros [= <-]. cbn [OverallWeightedScore Scores].
  unfold active_weights.
  match goal with H : overall_weighted_score _ _ = _ |- _ => rewrite H end.
  reflexivity.
Qed.


(** With non-negative weights the guard coincides with the wording of
    the specification: a zero total only arises with a zero sum. *)
Lemma weight_total_nonneg (l : list (Q * Q)) :
  Forall (fun xw => 0 <= snd xw)%Q l -> (0 <= weight_total l)%Q.
Proof.
  unfold weight_total. induction 1 as [|xw l H _ IH]; cbn [map].
  - unfold Qsum. cbn. lra.
  - rewrite Qsum_cons. lra.
Qed.

Lemma applied_weights_nonneg (scores : list (string * value)) (weights : list (string * Q)) :
  Forall (fun nw => 0 <= snd nw)%Q weights ->
  Forall (fun xw => 0 <= snd xw)%Q (applied_weights scores weights).
Proof.
  induction 1 as [|[name w] l H _ IH]; cbn [applied_weights]; [constructor|].
  destruct (assoc name scores) as [v|]; [destruct (as_num v)|]; auto.
Qed.

Lemma guarded_mean_nonneg_weights (scores : list (string * value))
    (weights : list (string * Q)) :
  Forall (fun nw => 0 <= snd nw)%Q weights ->
  (guarded_mean scores weights == renormalized_mean scores weights)%Q.
Proof.
  intros Hw. unfold guarded_mean, renormalized_mean.
  pose proof (weight_total_nonneg _ (applied_weights_nonneg scores _ Hw)) as Hnn.
  destruct (applied_weights scores weights) as [|xw l] eqn:E.
  - reflexivity.
  - destruct (Qle_bool (weight_total (xw :: l)) 0) eqn:Hle; cbn [negb]; [|reflexivity].
    apply Qle_bool_iff in Hle.
    assert (Hz : (weight_total (xw :: l) == 0)%Q) by lra.
    unfold Qdiv. rewrite Hz. change (/ 0)%Q with 0%Q. lra.
Qed.

(** *** The clock (C9) *)




(** *** Details of the availability score *)

Lemma assoc_dict_set_same {A : Type} (k : string) (v : A) (d : list (string * A)) :
  assoc k (dict_set k v d) = Some v.
Proof.
  induction d as [|[k' x] d IH]; cbn.
  - rewrite String.eqb_refl. reflexivity.
  - destruct (String.eqb_spec k k') as [->|Hne]; cbn.
    + rewrite String.eqb_refl. reflexivity.
    + destruct (String.eqb_spec k k'); [contradiction | exact IH].
Qed.

Lemma assoc_dict_set_other {A : Type} (k k' : string) (v : A) (d : list (string * A)) :
  k <> k' -> assoc k (dict_set k' v d) = assoc k d.
Proof.
  intros Hne. induction d as [|[k'' x] d IH]; cbn.
  - destruct (String.eqb_spec k k'); [contradiction | reflexivity].
  - destruct (String.eqb_spec k' k'') as [->|Hne']; cbn.
    + destruct (String.eqb_spec k k''); [contradiction | reflexivity].
    + destruct (String.eqb_spec k k''); [reflexivity | exact IH].
Qed.






Lemma deadline_resolves_end (now : datetime) (pe : value) (d : details_dict) :
  deadline_resolves now pe ->
  exists t d', availability_project_end now pe d = (Ok t, d').
Proof.
  unfold deadline_resolves, availability_project_end.
  destruct (parse_date_input now pe) as [r|] eqn:Hp.
  - intros [t ->]. destruct pe; cbn in Hp; try discriminate; eauto.
  - intros [t ->]. destruct pe; eauto.
Qed.

(** *** Zero effort (C2) *)

(** C2, as amended.  When the required effort is zero or missing, the
    availability score is 1.0 provided the employee's availability date
    is given and parses, the weekly capacity is a positive number and the
    requested end date, if given as text or number, parses. *)
Theorem zero_effort_scores_one (now : datetime)
    (project_effort_input_hours project_end_input employee_available_from_input
       employee_weekly_capacity : value)
    (effort capacity : Q) (available : datetime) :
  float_or_zero project_effort_input_hours = Ok effort -> (effort <= 0)%Q ->
  deadline_resolves now project_end_input ->
  parse_date_input now employee_available_from_input = Some (Ok available) ->
  float_or_zero employee_weekly_capacity = Ok capacity -> (0 < capacity)%Q ->
  fst (availability_score now project_effort_input_hours project_end_input
         employee_available_from_input employee_weekly_capacity) = 1%Q.
Proof.
  intros Heff Hle Hend Hav Hcap Hpos.
  unfold availability_score, availability_try.
  destruct (deadline_resolves_end now project_end_input
              (initial_details project_effort_input_hours project_end_input
                 employee_available_from_input employee_weekly_capacity) Hend)
    as [t [d' ->]].
  assert (Hgo : forall d,
    availability_numbers project_effort_input_hours employee_weekly_capacity t available d
    = (leave 1 (Msg "Project effort is zero or not specified (considered fully available)." [])
         (dict_set "project_effort_calculated_days" (DNum (effort / HOURS_PER_WORKDAY)%Q)
            (dict_set "raw_project_effort_hours" (DVal (VFloat effort))
               (dict_set "employee_weekly_capacity_hours" (DNum capacity) d))),
       VFloat capacity)).
  { intros d. unfold availability_numbers, availability_project.
    rewrite Hcap, Heff.
    assert (Hc : Qle_bool capacity 0 = false).
    { destruct (Qle_bool capacity 0) eqn:E; [|reflexivity].
      apply Qle_bool_iff in E. lra. }
    rewrite Hc. rewrite (proj2 (Qle_bool_iff effort 0) Hle). reflexivity. }
  assert (E : forall (A : Type) (a b : A),
            match employee_available_from_input with VNone => a | _ => b end = b)
    by (intros; destruct employee_available_from_input; try reflexivity; discriminate).
  rewrite E, Hav, Hgo. reflexivity.
Qed.

(** *** Numeric dates (C3) *)


(** *** Language levels (C7) *)

Lemma cefr_lookup_nonneg (level : value) : 0 <= cefr_lookup level.
Proof.
  unfold cefr_lookup.
  destruct (assoc _ cefr_scale) as [n|] eqn:H; [|lia].
  apply assoc_In in H. cbn in H.
  repeat (destruct H as [[= _ <-] | H]; [lia|]). contradiction.
Qed.

(** On the numeric levels the fit is the formula of the specification. *)
Lemma level_fit_formula (p_level_str e_level_str : value) :
  level_fit p_level_str e_level_str
  = proficiency_fit (cefr_lookup p_level_str) (cefr_lookup e_level_str).
Proof.
  unfold level_fit, proficiency_fit.
  destruct (cefr_lookup p_level_str <=? cefr_lookup e_level_str) eqn:Hle; [reflexivity|].
  apply Z.leb_gt in Hle. pose proof (cefr_lookup_nonneg e_level_str).
  destruct (0 <? cefr_lookup p_level_str) eqn:Hp; [reflexivity|].
  apply Z.ltb_ge in Hp. lia.
Qed.

(** The six CEFR levels get the numbers 1 to 6, in any letter case. *)
Lemma cefr_levels :
  map (fun s => cefr_lookup (VStr s)) ["A1"; "A2"; "B1"; "B2"; "C1"; "C2"; "c1"]
  = [1; 2; 3; 4; 5; 6; 5].
Proof. reflexivity. Qed.

(** *** Decoded fields *)





(** *** Each scorer returns *)

Lemma overlap_score_total (labels : overlap_labels) (p e : list value) :
  exists s d, overlap_score labels (VList p) (VList e) = Ok (s, d).
Proof.
  unfold overlap_score.
  destruct (negb (truthy (VList p))); [eauto|].
  destruct (negb (truthy (VList e))); [eauto|].
  cbn [as_list iterate bind].
  destruct (fold_left (overlap_step labels e) p (0, [])). eauto.
Qed.


Lemma lang_fold_total (el : list (string * value)) (items : list (string * value)) :
  forall m0 d0, exists m d,
    fold_left (lang_match_step (VDict el)) items (Ok (m0, d0)) = Ok (m, d).
Proof.
  induction items as [|[p lv] l IH]; intros m0 d0; [cbn; eauto|].
  cbn [fold_left]. unfold lang_match_step at 2. cbn [bind].
  destruct (best_fuzzy_match_dict p el 70) as [k Hk]. rewrite Hk. cbn [bind].
  destruct (key_truthy k) as [k'|] eqn:Hkt; [|apply IH].
  apply key_truthy_some in Hkt as [-> _].
  apply best_fuzzy_match_key, assoc_of_key in Hk as [x Hx].
  cbn [subscript]. rewrite Hx. cbn [bind]. apply IH.
Qed.




(** *** The whole report *)


(** *** The language formula (C7) *)

Lemma lang_fold_levels (known : list (string * value)) (items : list (string * value)) :
  forall m0 d0 m d,
    fold_left (lang_match_step (VDict known)) items (Ok (m0, d0)) = Ok (m, d) ->
    map levels_of m = map levels_of m0 ++ matched_levels items known.
Proof.
  induction items as [|[p lv] l IH]; intros m0 d0 m d H.
  - cbn in H. injection H as <- <-. cbn. rewrite app_nil_r. reflexivity.
  - cbn [fold_left] in H. unfold lang_match_step at 2 in H. cbn [bind] in H.
    unfold matched_levels. cbn [flat_map fst snd]. fold (matched_levels l known).
    destruct (best_fuzzy_match p (VDict known) 70) as [[k|]|e]; cbn [bind key_truthy] in H.
    + destruct (String.eqb k EmptyString).
      * apply IH in H. exact H.
      * cbn [subscript] in H. destruct (assoc k known) as [x|]; cbn [bind] in H.
        -- apply IH in H. rewrite H, map_app, <- app_assoc. reflexivity.
        -- rewrite lang_fold_raise in H. discriminate.
    + apply IH in H. exact H.
    + rewrite lang_fold_raise in H. discriminate.
Qed.

(** For non-empty mappings the language score is coverage times average
    fit, each fit being the formula on the numeric levels, rounded to
    three decimals. *)
Theorem language_score_formula (required known : list (string * value)) :
  required <> [] -> known <> [] ->
  score_of (language_score (VDict required) (VDict known))
  = Ok (language_formula required known).
Proof.
  intros Hr Hk. unfold language_score, calculate_language_coverage.
  destruct required as [|r1 rs]; [congruence|].
  destruct known as [|k1 ks]; [congruence|].
  remember (r1 :: rs) as required eqn:Er. remember (k1 :: ks) as known eqn:Ek.
  assert (Htr : truthy (VDict required) = true) by (subst; reflexivity).
  assert (Htk : truthy (VDict known) = true) by (subst; reflexivity).
  rewrite Htr, Htk. cbn [negb dict_items bind].
  destruct (lang_fold_total known required [] []) as [m [d Hf]].
  rewrite Hf. cbn [bind].
  apply lang_fold_levels in Hf. cbn [map app] in Hf.
  unfold language_formula. rewrite <- Hf.
  destruct m as [|m1 m'].
  - cbn. reflexivity.
  - remember (m1 :: m') as m eqn:Em.
    destruct (fold_left level_step m _) as [ls log] eqn:Hlv.
    apply level_fold_scores in Hlv. cbn [app] in Hlv.
    cbn [score_of]. f_equal. apply py_round_comp.
    assert (Hfits : map (fun rl => proficiency_fit (cefr_lookup (fst rl))
                                     (cefr_lookup (snd rl))) (map levels_of m) = ls).
    { rewrite Hlv, map_map. apply map_ext. intros x. unfold levels_of. cbn [fst snd].
      symmetry. apply level_fit_formula. }
    rewrite Hfits.
    assert (Hlen : Qlen (map levels_of m) = Qlen m)
      by (unfold Qlen; rewrite length_map; reflexivity).
    rewrite Hlen.
    destruct ls as [|x ls']; [|reflexivity].
    subst m. discriminate Hlv.
Qed.

End Properties.

(** ** Further properties of the scorers *)

(** *** Rounding keeps the order *)

Lemma round_half_even_monotone (x y : Q) :
  (x <= y)%Q -> round_half_even x <= round_half_even y.
Proof.
  intros H.
  pose proof (Qfloor_resp_le _ _ H) as F.
  pose proof (round_half_even_bounds x) as [_ Hx].
  pose proof (round_half_even_bounds y) as [Hy _].
  destruct (Z.eq_dec (Qfloor x) (Qfloor y)) as [E|NE]; [|lia].
  unfold round_half_even. rewrite E.
  destruct (Qcompare (x - inject_Z (Qfloor y)) (1 # 2)) eqn:Cx;
    destruct (Qcompare (y - inject_Z (Qfloor y)) (1 # 2)) eqn:Cy;
    try (destruct (Z.even (Qfloor y))); try lia; exfalso;
    repeat match goal with
           | C : Qcompare _ _ = Eq |- _ => apply Qeq_alt in C
           | C : Qcompare _ _ = Lt |- _ => apply Qlt_alt in C
           | C : Qcompare _ _ = Gt |- _ => apply Qgt_alt in C
           end; lra.
Qed.

Lemma py_round_monotone (x y : Q) (n : nat) :
  (x <= y)%Q -> (py_round x n <= py_round y n)%Q.
Proof.
  intros H. unfold py_round. rewrite !Qred_correct.
  assert (M : round_half_even (x * inject_Z (Z.pos (pow10 n)))
              <= round_half_even (y * inject_Z (Z.pos (pow10 n)))).
  { apply round_half_even_monotone.
    assert (0 < inject_Z (Z.pos (pow10 n)))%Q by (unfold Qlt; simpl; lia).
    nra. }
  unfold Qle; simpl. nia.
Qed.

Section Matching.

Context {L : PyLib}.

(** *** The best fuzzy match *)

(** The loop of [best_fuzzy_match] keeps the first key of the highest
    similarity above its starting value. *)
Lemma best_fold_spec (q : string) (keys : list string) :
  forall (b : Z) (ko : option string),
    (fold_left (best_step q) keys (b, ko) = (b, ko)
     /\ Forall (fun k => key_ratio q k <= b) keys)
    \/ (exists pre k post,
          keys = pre ++ k :: post
          /\ fold_left (best_step q) keys (b, ko) = (key_ratio q k, Some k)
          /\ b < key_ratio q k
          /\ Forall (fun k' => key_ratio q k' < key_ratio q k) pre
          /\ Forall (fun k' => key_ratio q k' <= key_ratio q k) post).
Proof.
  induction keys as [|k0 keys IH]; intros b ko.
  - left. split; [reflexivity | constructor].
  - cbn [fold_left].
    replace (best_step q (b, ko) k0)
      with (if b <? key_ratio q k0 then (key_ratio q k0, Some k0) else (b, ko))
      by reflexivity.
    destruct (Z.ltb_spec b (key_ratio q k0)) as [Hlt|Hge].
    + destruct (IH (key_ratio q k0) (Some k0)) as [[E A]|(pre & k & post & Ek & E & Hb & Hpre & Hpost)].
      * right. exists [], k0, keys.
        split; [reflexivity|]. split; [exact E|]. split; [exact Hlt|].
        split; [constructor | exact A].
      * right. exists (k0 :: pre), k, post. subst keys.
        split; [reflexivity|]. split; [exact E|]. split; [lia|]. split; [|exact Hpost].
        constructor; [lia | exact Hpre].
    + destruct (IH b ko) as [[E A]|(pre & k & post & Ek & E & Hb & Hpre & Hpost)].
      * left. split; [exact E | constructor; [lia | exact A]].
      * right. exists (k0 :: pre), k, post. subst keys.
        split; [reflexivity|]. split; [exact E|]. split; [lia|]. split; [|exact Hpost].
        constructor; [lia | exact Hpre].
Qed.

(** X1. The key [best_fuzzy_match] returns is a key of the mapping whose
    similarity to the query reaches the threshold and is positive; no
    key is more similar, and every key before it is strictly less
    similar: among equally similar keys the first one wins. *)
Theorem best_fuzzy_match_returns_first_most_similar_key
    (query_lang : string) (employee_langs : list (string * value))
    (threshold : Q) (k : string) :
  best_fuzzy_match query_lang (VDict employee_langs) threshold = Ok (Some k) ->
  exists earlier later,
    map fst employee_langs = earlier ++ k :: later
    /\ (threshold <= inject_Z (key_ratio query_lang k))%Q
    /\ 0 < key_ratio query_lang k
    /\ Forall (fun k' => key_ratio query_lang k' < key_ratio query_lang k) earlier
    /\ Forall (fun k' => key_ratio query_lang k' <= key_ratio query_lang k) later.
Proof.
  unfold best_fuzzy_match. cbn [dict_keys bind].
  destruct (best_fold_spec query_lang (map fst employee_langs) 0 None)
    as [[E A]|(pre & k' & post & Ek & E & Hb & Hpre & Hpost)]; rewrite E; cbn [fst snd].
  - destruct (Qle_bool threshold (inject_Z 0)); discriminate.
  - destruct (Qle_bool threshold (inject_Z (key_ratio query_lang k'))) eqn:T; [|discriminate].
    intros H. injection H as ->. apply Qle_bool_iff in T.
    exists pre, post. auto.
Qed.

(** X2. With a positive threshold [best_fuzzy_match] returns no key
    exactly when every key of the mapping is less similar to the query
    than the threshold; an empty mapping never matches. *)
Theorem best_fuzzy_match_none_iff_all_below_threshold
    (query_lang : string) (employee_langs : list (string * value)) (threshold : Q) :
  (0 < threshold)%Q ->
  (best_fuzzy_match query_lang (VDict employee_langs) threshold = Ok None
   <-> Forall (fun k => (inject_Z (key_ratio query_lang k) < threshold)%Q)
              (map fst employee_langs)).
Proof.
  intros Ht. unfold best_fuzzy_match. cbn [dict_keys bind].
  destruct (best_fold_spec query_lang (map fst employee_langs) 0 None)
    as [[E A]|(pre & k' & post & Ek & E & Hb & Hpre & Hpost)]; rewrite E; cbn [fst snd].
  - split.
    + intros _. eapply Forall_impl; [|exact A]. cbv beta. intros k Hk.
      apply Qle_lt_trans with (inject_Z 0); [rewrite <- Zle_Qle; exact Hk | exact Ht].
    + intros _. destruct (Qle_bool threshold (inject_Z 0)); reflexivity.
  - destruct (Qle_bool threshold (inject_Z (key_ratio query_lang k'))) eqn:T.
    + apply Qle_bool_iff in T. split; [discriminate|].
      intros All. rewrite Ek in All. apply Forall_app in All as [_ All].
      inversion All as [|? ? Hk _]. lra.
    + split; [|reflexivity]. intros _.
      assert (Hk : (inject_Z (key_ratio query_lang k') < threshold)%Q).
      { destruct (Qlt_le_dec (inject_Z (key_ratio query_lang k')) threshold) as [H|H];
          [exact H|]. apply Qle_bool_iff in H. congruence. }
      rewrite Ek. apply Forall_app. split; [|constructor; [exact Hk|]].
      * eapply Forall_impl; [|exact Hpre]. cbv beta. intros k Hlt.
        apply Qlt_trans with (inject_Z (key_ratio query_lang k')); [|exact Hk].
        rewrite <- Zlt_Qlt. exact Hlt.
      * eapply Forall_impl; [|exact Hpost]. cbv beta. intros k Hle.
        apply Qle_lt_trans with (inject_Z (key_ratio query_lang k')); [|exact Hk].
        rewrite <- Zle_Qle. exact Hle.
Qed.

(** *** Normalisation of a rating *)

(** X3. Between distinct bounds [normalize] is the linear map of
    [min_val .. max_val] onto [0 .. 1], cut off outside: 0.0 at or below
    the lower bound, 1.0 at or above the upper one. *)
Theorem normalize_is_linear_and_clamped (v : value) (x min_val max_val : Q) :
  as_num v = Some x -> (min_val < max_val)%Q ->
  exists r,
    normalize v min_val max_val = Ok r
    /\ ((x <= min_val)%Q -> (r == 0)%Q)
    /\ ((max_val <= x)%Q -> (r == 1)%Q)
    /\ ((min_val <= x <= max_val)%Q -> (r == (x - min_val) / (max_val - min_val))%Q).
Proof.
  intros Hv Hlt. unfold normalize. rewrite Hv.
  destruct (Qeq_bool max_val min_val) eqn:E.
  { apply Qeq_bool_iff in E. lra. }
  eexists. split; [reflexivity|].
  assert (Hd : (0 < max_val - min_val)%Q) by lra.
  set (y := ((x - min_val) / (max_val - min_val))%Q).
  assert (Hlo : (min_val <= x)%Q -> (0 <= y)%Q).
  { intros. apply Qle_shift_div_l; lra. }
  assert (Hhi : (x <= max_val)%Q -> (y <= 1)%Q).
  { intros. apply Qle_shift_div_r; lra. }
  assert (Hlo' : (x <= min_val)%Q -> (y <= 0)%Q).
  { intros. apply Qle_shift_div_r; lra. }
  assert (Hhi' : (max_val <= x)%Q -> (1 <= y)%Q).
  { intros. apply Qle_shift_div_l; lra. }
  repeat split.
  - intros H. specialize (Hlo' H).
    rewrite Q.max_l; [reflexivity|].
    apply Qle_trans with y; [apply Q.le_min_r | exact Hlo'].
  - intros H. specialize (Hhi' H).
    rewrite (Q.min_l 1 y Hhi'). rewrite Q.max_r; [reflexivity | lra].
  - intros [H1 H2]. specialize (Hlo H1). specialize (Hhi H2).
    rewrite (Q.min_r 1 y Hhi). rewrite Q.max_r; [reflexivity | exact Hlo].
Qed.

(** X4. [normalize] keeps the order of the ratings for every pair of
    bounds with [min_val <= max_val], equal bounds included. *)
Theorem normalize_is_monotone (a b : value) (x y min_val max_val : Q) :
  as_num a = Some x -> as_num b = Some y ->
  (x <= y)%Q -> (min_val <= max_val)%Q ->
  exists r s,
    normalize a min_val max_val = Ok r
    /\ normalize b min_val max_val = Ok s
    /\ (r <= s)%Q.
Proof.
  intros Ha Hb Hxy Hmm. unfold normalize. rewrite Ha, Hb.
  destruct (Qeq_bool max_val min_val) eqn:E.
  - do 2 eexists. split; [reflexivity|]. split; [reflexivity|].
    destruct (Qle_bool x min_val) eqn:X; destruct (Qle_bool y min_val) eqn:Y; try lra.
    apply Qle_bool_iff in Y.
    assert (Qle_bool x min_val = true) by (apply Qle_bool_iff; lra). congruence.
  - do 2 eexists. split; [reflexivity|]. split; [reflexivity|].
    assert (Hne : ~ (max_val == min_val)%Q).
    { intros H. apply Qeq_bool_iff in H. congruence. }
    assert (Hd : (0 < max_val - min_val)%Q) by lra.
    apply Q.max_le_compat_l. apply Q.min_le_compat_l.
    unfold Qdiv. apply Qmult_le_compat_r; [lra|].
    apply Qinv_le_0_compat. lra.
Qed.

(** *** Location *)

(** X5. The decision table of [location_score]: the score is 1.0 exactly
    for a remote project, or matching locations with an on-site project
    and an on-site employee, or with a hybrid project and a hybrid or
    on-site employee; it is 0.5 exactly for an on-site project, matching
    locations and a hybrid employee; it is 0.0 otherwise. *)
Theorem location_score_decision_table
    (project_loc project_flex employee_loc employee_flex : value) :
  let s := fst (location_score project_loc project_flex employee_loc employee_flex) in
  let p := normalize_flexibility project_flex in
  let e := normalize_flexibility employee_flex in
  let same := fuzzy_match project_loc employee_loc fuzzy_match_threshold in
  (s = 1%Q <-> p = 0 \/ (same = true /\ ((p = 2 /\ e = 2) \/ (p = 1 /\ (e = 1 \/ e = 2)))))
  /\ (s = (1 # 2)%Q <-> p = 2 /\ same = true /\ e = 1)
  /\ (s = 0%Q \/ s = (1 # 2)%Q \/ s = 1%Q).
Proof.
  cbv zeta. unfold location_score.
  destruct (Z.eqb_spec (normalize_flexibility project_flex) 0) as [P0|P0];
    destruct (Z.eqb_spec (normalize_flexibility project_flex) 1) as [P1|P1];
    destruct (Z.eqb_spec (normalize_flexibility project_flex) 2) as [P2|P2];
    try lia;
    destruct (Z.eqb_spec (normalize_flexibility employee_flex) 0) as [E0|E0];
    destruct (Z.eqb_spec (normalize_flexibility employee_flex) 1) as [E1|E1];
    destruct (Z.eqb_spec (normalize_flexibility employee_flex) 2) as [E2|E2];
    try lia;
    destruct (fuzzy_match project_loc employee_loc fuzzy_match_threshold);
    cbn [fst]; repeat split; intros; try discriminate; try tauto; try lia;
    intuition (try discriminate; try lia).
Qed.

(** *** The list-overlap scorers *)

Lemma existsb_find {A : Type} (f : A -> bool) (l : list A) :
  existsb f l = match find f l with Some _ => true | None => false end.
Proof.
  induction l as [|x l IH]; [reflexivity|]. cbn. destruct (f x); [reflexivity | exact IH].
Qed.

Lemma satisfied_count_cons (e : list value) (x : value) (p : list value) :
  satisfied_count (x :: p) e
  = (if item_satisfied e x then 1 else 0) + satisfied_count p e.
Proof.
  unfold satisfied_count. cbn [filter].
  destruct (item_satisfied e x); cbn [List.length]; lia.
Qed.

Lemma satisfied_count_range (p e : list value) :
  0 <= satisfied_count p e <= Z.of_nat (List.length p).
Proof.
  induction p as [|x p IH].
  - unfold satisfied_count. cbn. lia.
  - rewrite satisfied_count_cons. cbn [List.length].
    destruct (item_satisfied e x); lia.
Qed.

Lemma overlap_fold_satisfied (labels : overlap_labels) (e p : list value) :
  forall acc,
    fst (fold_left (overlap_step labels e) p acc) = fst acc + satisfied_count p e.
Proof.
  induction p as [|x p IH]; intros [matches details].
  - unfold satisfied_count. cbn. lia.
  - cbn [fold_left]. rewrite IH, satisfied_count_cons.
    unfold overlap_step, item_satisfied. rewrite existsb_find.
    destruct (find _ e); cbn [fst]; lia.
Qed.

Lemma overlap_score_lists (labels : overlap_labels) (p e : list value) :
  p <> [] -> e <> [] ->
  score_of (overlap_score labels (VList p) (VList e))
  = Ok (py_round (inject_Z (satisfied_count p e) / Qlen p) 3).
Proof.
  intros Hp He. unfold overlap_score.
  destruct p as [|x p]; [congruence|]. destruct e as [|y e]; [congruence|].
  cbn [truthy negb as_list iterate bind].
  pose proof (overlap_fold_satisfied labels (y :: e) (x :: p) (0, [])) as F.
  destruct (fold_left _ _ _) as [matches details]. cbn [fst] in F. subst matches.
  cbn [score_of]. rewrite Z.add_0_l. reflexivity.
Qed.




Lemma item_satisfied_more (e e' : list value) (x : value) :
  item_satisfied e x = true -> item_satisfied (e ++ e') x = true.
Proof.
  unfold item_satisfied. rewrite existsb_app. intros ->. reflexivity.
Qed.

Lemma satisfied_count_more (p e e' : list value) :
  satisfied_count p e <= satisfied_count p (e ++ e').
Proof.
  induction p as [|x p IH].
  - reflexivity.
  - rewrite !satisfied_count_cons.
    destruct (item_satisfied e x) eqn:Hx.
    + rewrite (item_satisfied_more e e' x Hx). lia.
    + destruct (item_satisfied (e ++ e') x); lia.
Qed.

(** X7. Experience added to a candidate never lowers an overlap score:
    on lists the scorer returns for the shorter and for the extended
    candidate list, and the second score is at least the first. *)
Theorem overlap_score_grows_with_candidate_items
    (labels : overlap_labels) (project_items employee_items more_items : list value) :
  exists s s',
    score_of (overlap_score labels (VList project_items) (VList employee_items)) = Ok s
    /\ score_of (overlap_score labels (VList project_items)
                   (VList (employee_items ++ more_items))) = Ok s'
    /\ (s <= s')%Q.
Proof.
  destruct project_items as [|x p].
  { exists 1%Q, 1%Q. repeat split; lra. }
  assert (Hp : x :: p <> []) by discriminate.
  destruct employee_items as [|y e].
  - cbn [app].
    destruct (overlap_score_total labels (x :: p) more_items) as (s' & d' & E').
    exists 0%Q, s'. split; [reflexivity|]. rewrite E'. split; [reflexivity|].
    apply overlap_score_range in E'. apply E'.
  - assert (He : y :: e <> []) by discriminate.
    assert (He' : (y :: e) ++ more_items <> []) by discriminate.
    rewrite (overlap_score_lists labels _ _ Hp He), (overlap_score_lists labels _ _ Hp He').
    do 2 eexists. split; [reflexivity|]. split; [reflexivity|].
    apply py_round_monotone.
    pose proof (Qlen_pos (x :: p) Hp) as Hl.
    pose proof (satisfied_count_more (x :: p) (y :: e) more_items) as M.
    unfold Qdiv. apply Qmult_le_compat_r.
    + rewrite <- Zle_Qle. exact M.
    + apply Qinv_le_0_compat. lra.
Qed.

(** *** Industry *)

(** X9. With an industry asked for and a non-empty list of text entries
    [industry_score] is 1.0 when some entry matches the industry and 0.0
    when none does. *)
Theorem industry_score_is_one_iff_some_entry_matches
    (project_industry : value) (employee_industries : list value) :
  truthy project_industry = true ->
  employee_industries <> [] ->
  forallb is_str employee_industries = true ->
  score_of (industry_score project_industry (VList employee_industries))
  = Ok (if existsb (fun e_ind => fuzzy_match project_industry e_ind fuzzy_match_threshold)
                   employee_industries
        then 1%Q else 0%Q).
Proof.
  intros Hp He Hs. unfold industry_score, join_items. rewrite Hp.
  destruct employee_industries as [|y e]; [congruence|].
  cbn [negb truthy as_list iterate bind]. rewrite Hs. cbn [bind].
  rewrite existsb_find. destruct (find _ (y :: e)); reflexivity.
Qed.

(** X10. One entry of the industry list that is not text makes
    [industry_score] raise [TypeError], whatever the other entries are:
    the entries are joined into the explanation before any is compared. *)
Theorem industry_score_rejects_an_entry_that_is_not_text
    (project_industry : value) (employee_industries : list value) :
  truthy project_industry = true ->
  forallb is_str employee_industries = false ->
  industry_score project_industry (VList employee_industries) = Raise TypeError.
Proof.
  intros Hp Hs. unfold industry_score, join_items. rewrite Hp.
  destruct employee_industries as [|y e]; [discriminate|].
  cbn [negb truthy as_list iterate bind]. rewrite Hs. reflexivity.
Qed.

End Matching.

(** *** Availability *)

Lemma dict_set_names {A : Type} (names : list string) (k : string) (v : A)
    (d : list (string * A)) :
  map fst d = names -> In k names -> map fst (dict_set k v d) = names.
Proof.
  intros <- Hin. induction d as [|[k' x] r IH]; [destruct Hin|].
  cbn [dict_set]. destruct (String.eqb_spec k k') as [->|NE]; [reflexivity|].
  cbn [map fst] in *. f_equal. apply IH.
  destruct Hin as [E|Hin]; [congruence | exact Hin].
Qed.

Ltac in_names := cbn; repeat (first [left; reflexivity | right]).

Ltac keep_names H :=
  repeat first [exact H | apply dict_set_names; [| in_names]].

Lemma lateness_score_range (finish deadline : datetime) :
  unit_score (lateness_score finish deadline).
Proof.
  unfold lateness_score. destruct (Z.leb_spec finish deadline) as [Hle|Hgt].
  - apply unit_score_round, unit_score_1.
  - apply unit_score_round, Qmax0_unit, one_minus_ratio_le; [|reflexivity].
    apply inject_Z_nonneg. unfold days_between.
    apply Z.div_pos; [lia | reflexivity].
Qed.


Section Availability.

Context {L : PyLib}.

Lemma availability_score_outcome (now : datetime) (eff pe av cap : value) :
  fst (availability_score now eff pe av cap)
  = outcome_score (fst (fst (availability_try now eff pe av cap
                               (initial_details eff pe av cap)))).
Proof.
  unfold availability_score.
  destruct (availability_try _ _ _ _ _ _) as [[[s|e] d] c]; reflexivity.
Qed.

Lemma availability_project_value (E A : datetime) (c h : Q) (d : details_dict) :
  fst (availability_project E A c h d)
  = if Qle_bool c 0 then Ok 0%Q
    else if Qle_bool h 0 then Ok 1%Q
    else finish <- projected_finish A c h ;; Ok (lateness_score finish E).
Proof.
  unfold availability_project, projected_finish, lateness_score, leave.
  destruct (Qle_bool c 0); [reflexivity|].
  destruct (Qle_bool h 0); [reflexivity|].
  destruct (timedelta_days (h / c * 7)) as [delta|e]; cbn [bind]; [|reflexivity].
  destruct (datetime_add A delta) as [F|e]; cbn [bind]; [|reflexivity].
  destruct (F <=? E); reflexivity.
Qed.

Lemma availability_numbers_value (eff cap : value) (E A : datetime) (d : details_dict) :
  fst (fst (availability_numbers eff cap E A d))
  = (capacity <- float_or_zero cap ;;
     effort <- float_or_zero eff ;;
     if Qle_bool capacity 0 then Ok 0%Q
     else if Qle_bool effort 0 then Ok 1%Q
     else finish <- projected_finish A capacity effort ;; Ok (lateness_score finish E)).
Proof.
  unfold availability_numbers.
  destruct (float_or_zero cap) as [c|e]; cbn [bind]; [|reflexivity].
  destruct (float_or_zero eff) as [h|e]; cbn [bind fst]; [|reflexivity].
  apply availability_project_value.
Qed.

Lemma availability_project_end_value (now : datetime) (pe : value) (d : details_dict) :
  fst (availability_project_end now pe d) = requested_deadline now pe.
Proof.
  unfold availability_project_end, requested_deadline.
  destruct pe; cbn [parse_date_input as_num];
    repeat match goal with
           | |- context [match ?x with _ => _ end] => destruct x
           end; reflexivity.
Qed.

Lemma availability_try_value (now : datetime) (eff pe av cap : value) (d : details_dict) :
  fst (fst (availability_try now eff pe av cap d))
  = availability_value now eff pe av cap.
Proof.
  unfold availability_try, availability_value.
  rewrite <- (availability_project_end_value now pe d).
  destruct (availability_project_end now pe d) as [[E|e] d1]; cbn [fst bind]; [|reflexivity].
  destruct av; cbn [parse_date_input as_num leave fst]; try reflexivity;
    match goal with
    | |- context [match ?x with Some _ => _ | None => _ end] => destruct x as [A|]
    end; cbn [bind fst]; try reflexivity; apply availability_numbers_value.
Qed.

Lemma availability_score_value (now : datetime) (eff pe av cap : value) :
  fst (availability_score now eff pe av cap)
  = outcome_score (availability_value now eff pe av cap).
Proof. rewrite availability_score_outcome, availability_try_value. reflexivity. Qed.

Lemma deadline_resolves_requested (now : datetime) (pe : value) :
  deadline_resolves now pe <-> exists t, requested_deadline now pe = Ok t.
Proof.
  unfold deadline_resolves, requested_deadline.
  destruct (parse_date_input now pe); reflexivity.
Qed.

(** X11. [availability_score] is above 0.0 only if the deadline, the
    start date and both numbers could be read and the weekly capacity is
    positive: a missing or unreadable start date, a capacity that is
    missing, zero or not a number, or any error on the way all give 0.0. *)
Theorem availability_above_zero_needs_start_and_capacity (now : datetime)
    (project_effort_input_hours project_end_input employee_available_from_input
       employee_weekly_capacity : value) :
  ~ (fst (availability_score now project_effort_input_hours project_end_input
            employee_available_from_input employee_weekly_capacity) == 0)%Q ->
  deadline_resolves now project_end_input
  /\ (exists start, parse_date_input now employee_available_from_input = Some (Ok start))
  /\ (exists capacity,
        float_or_zero employee_weekly_capacity = Ok capacity /\ (0 < capacity)%Q)
  /\ (exists effort, float_or_zero project_effort_input_hours = Ok effort).
Proof.
  rewrite availability_score_value, deadline_resolves_requested.
  unfold availability_value.
  destruct (requested_deadline now project_end_input) as [E|e]; cbn [bind outcome_score];
    [|intros H; exfalso; apply H; reflexivity].
  destruct (parse_date_input now employee_available_from_input) as [[A|e]|];
    cbn [bind outcome_score]; try (intros H; exfalso; apply H; reflexivity).
  destruct (float_or_zero employee_weekly_capacity) as [c|e];
    cbn [bind outcome_score]; try (intros H; exfalso; apply H; reflexivity).
  destruct (float_or_zero project_effort_input_hours) as [h|e];
    cbn [bind outcome_score]; try (intros H; exfalso; apply H; reflexivity).
  destruct (Qle_bool c 0) eqn:C; cbn [outcome_score];
    try (intros H; exfalso; apply H; reflexivity).
  intros _. split; [eauto|]. split; [eauto|]. split; [|eauto].
  exists c. split; [reflexivity|].
  destruct (Qlt_le_dec 0 c) as [H|H]; [exact H|].
  apply Qle_bool_iff in H. congruence.
Qed.

Lemma availability_value_planned (now : datetime) (eff pe av cap : value)
    (deadline start finish : datetime) (capacity effort : Q) :
  requested_deadline now pe = Ok deadline ->
  parse_date_input now av = Some (Ok start) ->
  float_or_zero cap = Ok capacity -> (0 < capacity)%Q ->
  float_or_zero eff = Ok effort -> (0 < effort)%Q ->
  projected_finish start capacity effort = Ok finish ->
  fst (availability_score now eff pe av cap) = lateness_score finish deadline.
Proof.
  intros HE HA Hc Hc0 Hh Hh0 HF.
  rewrite availability_score_value. unfold availability_value.
  rewrite HE, HA, Hc, Hh. cbn [bind].
  assert (C : Qle_bool capacity 0 = false).
  { destruct (Qle_bool capacity 0) eqn:C; [apply Qle_bool_iff in C; lra | reflexivity]. }
  assert (H : Qle_bool effort 0 = false).
  { destruct (Qle_bool effort 0) eqn:H; [apply Qle_bool_iff in H; lra | reflexivity]. }
  rewrite C, H, HF. reflexivity.
Qed.


(** X13. A projected finish thirty days or more after the deadline
    scores 0.0. *)
Theorem availability_finish_a_month_late_scores_zero (now : datetime)
    (project_effort_input_hours project_end_input employee_available_from_input
       employee_weekly_capacity : value)
    (deadline start finish : datetime) (capacity effort : Q) :
  requested_deadline now project_end_input = Ok deadline ->
  parse_date_input now employee_available_from_input = Some (Ok start) ->
  float_or_zero employee_weekly_capacity = Ok capacity -> (0 < capacity)%Q ->
  float_or_zero project_effort_input_hours = Ok effort -> (0 < effort)%Q ->
  projected_finish start capacity effort = Ok finish ->
  deadline + 30 * MICROSECONDS_PER_DAY <= finish ->
  fst (availability_score now project_effort_input_hours project_end_input
         employee_available_from_input employee_weekly_capacity) = 0%Q.
Proof.
  intros HE HA Hc Hc0 Hh Hh0 HF Hlate.
  rewrite (availability_value_planned _ _ _ _ _ _ _ _ _ _ HE HA Hc Hc0 Hh Hh0 HF).
  unfold lateness_score.
  destruct (Z.leb_spec finish deadline) as [Hle|Hgt];
    [unfold MICROSECONDS_PER_DAY in *; lia|].
  assert (D : 30 <= days_between finish deadline).
  { unfold days_between. apply Z.div_le_lower_bound; [reflexivity|].
    unfold MICROSECONDS_PER_DAY in *. lia. }
  rewrite (py_round_comp _ 0 3); [reflexivity|].
  apply Q.max_l. rewrite Zle_Qle in D.
  assert (M : (1 <= inject_Z (days_between finish deadline) / 30)%Q).
  { apply Qle_shift_div_l; [reflexivity|]. change (inject_Z 30) with 30%Q in D. lra. }
  set (a := (inject_Z (days_between finish deadline) / 30)%Q) in *. lra.
Qed.




(** *** The details of the availability score *)

Lemma leave_names (s : Q) (m : message) (d : details_dict) :
  map fst d = AVAILABILITY_DETAIL_NAMES ->
  map fst (snd (leave s m d)) = AVAILABILITY_DETAIL_NAMES.
Proof. intros H. unfold leave. cbn [snd]. keep_names H. Qed.

Lemma availability_project_names (E A : datetime) (c h : Q) (d : details_dict) :
  map fst d = AVAILABILITY_DETAIL_NAMES ->
  map fst (snd (availability_project E A c h d)) = AVAILABILITY_DETAIL_NAMES.
Proof.
  intros H. unfold availability_project.
  destruct (Qle_bool c 0); [apply leave_names, H|].
  destruct (Qle_bool h 0); [apply leave_names, H|].
  destruct (bind _ _) as [F|e]; [|exact H].
  destruct (F <=? E); cbn [snd]; keep_names H.
Qed.

Lemma availability_numbers_names (eff cap : value) (E A : datetime) (d : details_dict) :
  map fst d = AVAILABILITY_DETAIL_NAMES ->
  map fst (snd (fst (availability_numbers eff cap E A d))) = AVAILABILITY_DETAIL_NAMES.
Proof.
  intros H. unfold availability_numbers.
  destruct (float_or_zero cap) as [c|e]; [|exact H].
  destruct (float_or_zero eff) as [h|e]; cbn [fst snd]; [|keep_names H].
  apply availability_project_names. keep_names H.
Qed.

Lemma availability_project_end_names (now : datetime) (pe : value) (d : details_dict) :
  map fst d = AVAILABILITY_DETAIL_NAMES ->
  map fst (snd (availability_project_end now pe d)) = AVAILABILITY_DETAIL_NAMES.
Proof.
  intros H. unfold availability_project_end.
  destruct pe; cbn [parse_date_input as_num];
    repeat match goal with
           | |- context [match ?x with _ => _ end] => destruct x
           end; cbn [snd]; keep_names H.
Qed.

Lemma availability_try_names (now : datetime) (eff pe av cap : value) (d : details_dict) :
  map fst d = AVAILABILITY_DETAIL_NAMES ->
  map fst (snd (fst (availability_try now eff pe av cap d))) = AVAILABILITY_DETAIL_NAMES.
Proof.
  intros H. unfold availability_try.
  pose proof (availability_project_end_names now pe d H) as H1.
  destruct (availability_project_end now pe d) as [[E|e] d1]; cbn [snd fst] in *;
    [|exact H1].
  destruct av; cbn [parse_date_input as_num fst];
    try (apply leave_names, H1);
    match goal with
    | |- context [match ?x with Some _ => _ | None => _ end] => destruct x
    end; cbn [fst snd];
    try (apply leave_names, H1); try exact H1;
    apply availability_numbers_names; keep_names H1.
Qed.

(** X15. Whatever the inputs, and on every exit including the error
    handler, the details returned by [availability_score] hold exactly
    the twelve entries they are created with, in the same order. *)
Theorem availability_details_keep_their_twelve_entries (now : datetime)
    (project_effort_input_hours project_end_input employee_available_from_input
       employee_weekly_capacity : value) :
  map fst (snd (availability_score now project_effort_input_hours project_end_input
                  employee_available_from_input employee_weekly_capacity))
  = AVAILABILITY_DETAIL_NAMES.
Proof.
  unfold availability_score.
  pose proof (availability_try_names now project_effort_input_hours project_end_input
                employee_available_from_input employee_weekly_capacity
                (initial_details project_effort_input_hours project_end_input
                   employee_available_from_input employee_weekly_capacity)
                eq_refl) as H.
  destruct (availability_try _ _ _ _ _ _) as [[[s|e] d] c]; cbn [fst snd] in *;
    keep_names H.
Qed.

End Availability.

(** *** Sums of equal or of negative terms *)

Lemma Qsum_all_one (l : list Q) : Forall (fun s => s = 1%Q) l -> (Qsum l == Qlen l)%Q.
Proof.
  induction 1 as [|x l Hx _ IH].
  - reflexivity.
  - rewrite Qsum_cons, Qlen_cons, IH, Hx. reflexivity.
Qed.

Lemma Qsum_all_negative (l : list Q) :
  l <> [] -> Forall (fun s => s < 0)%Q l -> (Qsum l < 0)%Q.
Proof.
  intros Hne H. induction H as [|x l Hx Hl IH]; [congruence|].
  rewrite Qsum_cons. destruct l as [|y l'].
  - unfold Qsum. cbn. lra.
  - assert (Qsum (y :: l') < 0)%Q by (apply IH; discriminate). lra.
Qed.

Lemma Qlen_length {A B : Type} (l : list A) (l' : list B) :
  List.length l = List.length l' -> Qlen l = Qlen l'.
Proof. unfold Qlen. intros ->. reflexivity. Qed.

Section SkillsAndLanguages.

Context {L : PyLib}.

(** *** The skill scorer on fully matched requirements *)

(** The matching loop when every required skill finds a competency whose
    levels satisfy [P]. *)
Lemma skill_fold_all (cc : list (string * value)) (P : Q -> Q -> Prop)
    (items : list (string * value)) :
  Forall (fun item => exists x y, skill_pairing cc item x y /\ P x y) items ->
  forall m0 d0,
    Forall (fun m => exists x y, as_num (snd (fst m)) = Some x
                                 /\ as_num (snd m) = Some y /\ P x y) m0 ->
    exists m d,
      fold_left (skill_match_step (VDict cc)) items (Ok (m0, d0)) = Ok (m, d)
      /\ Forall (fun m => exists x y, as_num (snd (fst m)) = Some x
                                      /\ as_num (snd m) = Some y /\ P x y) m
      /\ List.length m = (List.length m0 + List.length items)%nat.
Proof.
  induction 1 as [|[p lv] l Hitem _ IH]; intros m0 d0 Hm0.
  - exists m0, d0. cbn. repeat split; auto.
  - destruct Hitem as (x & y & (k & level & Hk & Hne & Hlevel & Hx & Hy) & HP).
    cbn [fst snd] in *.
    cbn [fold_left]. unfold skill_match_step at 2. cbn [bind].
    rewrite Hk. cbn [bind].
    assert (Hkt : key_truthy (Some k) = Some k) by (apply key_truthy_some; auto).
    rewrite Hkt. cbn [subscript]. rewrite Hlevel. cbn [bind].
    destruct (IH (m0 ++ [(p, k, lv, level)])
                (d0 ++ [Msg "  Match: Proj '{}'({}) with Emp '{}'({})"
                            [AStr p; AVal lv; AStr k; AVal level]]))
      as (m & d & Hf & Hm & Hlen).
    { apply Forall_app. split; [exact Hm0|]. constructor; [|constructor].
      exists x, y. cbn [fst snd]. auto. }
    exists m, d. split; [exact Hf|]. split; [exact Hm|].
    rewrite Hlen, length_app. cbn [List.length]. lia.
Qed.

(** The fit loop when the fit of every pair satisfies [G]. *)
Lemma expertise_fold_all (P : Q -> Q -> Prop) (G : Q -> Prop)
    (matched : list (string * string * value * value)) :
  (forall required actual x y,
     as_num required = Some x -> as_num actual = Some y -> P x y ->
     exists s, skill_fit required actual = Ok s /\ G s) ->
  Forall (fun m => exists x y, as_num (snd (fst m)) = Some x
                               /\ as_num (snd m) = Some y /\ P x y) matched ->
  forall es0 d0, Forall G es0 ->
  exists es d,
    fold_left expertise_step matched (Ok (es0, d0)) = Ok (es, d)
    /\ Forall G es
    /\ List.length es = (List.length es0 + List.length matched)%nat.
Proof.
  intros Hfit. induction 1 as [|[[[p k] required] actual] l Hm _ IH]; intros es0 d0 Hes0.
  - exists es0, d0. cbn. repeat split; auto.
  - destruct Hm as (x & y & Hx & Hy & HP). cbn [fst snd] in *.
    destruct (Hfit required actual x y Hx Hy HP) as (s & Hs & HG).
    cbn [fold_left]. unfold expertise_step at 2. cbn [bind]. rewrite Hs. cbn [bind].
    destruct (IH (es0 ++ [s])
                (d0 ++ [Msg "    Expertise Fit: ReqLvl={}, EmpLvl={}, Score={}"
                            [AVal required; AVal actual; AFix 2 s]]))
      as (es & d & Hf & Hes & Hlen).
    { apply Forall_app. split; [exact Hes0 | constructor; [exact HG | constructor]]. }
    exists es, d. split; [exact Hf|]. split; [exact Hes|].
    rewrite Hlen, length_app. cbn [List.length]. lia.
Qed.

Lemma skill_fit_met (required actual : value) (x y : Q) :
  as_num required = Some x -> as_num actual = Some y -> (x <= y)%Q ->
  exists s, skill_fit required actual = Ok s /\ s = 1%Q.
Proof.
  intros Hx Hy Hle. unfold skill_fit. rewrite (py_ge_num actual required y x Hy Hx).
  cbn [bind]. assert (E : Qle_bool x y = true) by (apply Qle_bool_iff; exact Hle).
  rewrite E. eauto.
Qed.

Lemma skill_fit_far_below (required actual : value) (x y : Q) :
  as_num required = Some x -> as_num actual = Some y -> (y + 10 < x)%Q ->
  exists s, skill_fit required actual = Ok s /\ (s < 0)%Q.
Proof.
  intros Hx Hy Hlt. unfold skill_fit. rewrite (py_ge_num actual required y x Hy Hx).
  cbn [bind].
  assert (E : Qle_bool x y = false).
  { destruct (Qle_bool x y) eqn:E; [apply Qle_bool_iff in E; lra | reflexivity]. }
  rewrite E. unfold py_sub. rewrite Hx, Hy. cbn [bind].
  eexists. split; [reflexivity|].
  assert (1 < (x - y) / 10)%Q by (apply Qlt_shift_div_l; lra).
  set (q := ((x - y) / 10)%Q) in *. lra.
Qed.

(** The scorer up to the comparison of capability and target, when every
    required skill is matched and every fit satisfies [G]. *)
Lemma skill_score_all_matched (P : Q -> Q -> Prop) (G : Q -> Prop)
    (ps cc : list (string * value)) (c : value) :
  (forall required actual x y,
     as_num required = Some x -> as_num actual = Some y -> P x y ->
     exists s, skill_fit required actual = Ok s /\ G s) ->
  ps <> [] ->
  Forall (fun item => exists x y, skill_pairing cc item x y /\ P x y) ps ->
  exists es log capability,
    skill_match_score_with_fuzzy_keys (VDict ps) c (VDict cc)
    = (let complexity_target := (clamp_complexity c / 10)%Q in
       if Qle_bool complexity_target capability then
         Ok (1%Q, log ++
                  [Msg "Final Score: 1.0 (Capability {} >= Target {})"
                       [AFix 3 capability; AFix 2 complexity_target]])
       else
         raw_final_score_else <- py_div capability complexity_target ;;
         let final_score := py_round raw_final_score_else 2 in
         Ok (final_score, log ++
               [Msg "Final Score: {} (Capability {} / Target {}, Raw: {})"
                    [AFix 2 final_score; AFix 3 capability; AFix 2 complexity_target;
                     AFix 3 raw_final_score_else]]))
    /\ es <> [] /\ Forall G es
    /\ (capability == Qsum es / Qlen es)%Q.
Proof.
  intros Hfit Hne Hall. unfold skill_match_score_with_fuzzy_keys.
  destruct (len_or_zero_dict ps) as [np ->].
  destruct (len_or_zero_dict cc) as [nc ->]. cbn [bind].
  set (log0 := _ ++ [Msg "Project Skills: {}, Emp Competencies: {}, Proj Complexity: {}" _]).
  destruct ps as [|p1 ps']; [congruence|].
  assert (Hcc : cc <> []).
  { inversion Hall as [|? ? (x & y & (k & level & _ & _ & Hlevel & _) & _) _]; subst.
    intros ->. discriminate Hlevel. }
  destruct cc as [|c1 cc']; [congruence|].
  remember (p1 :: ps') as ps eqn:Eps. remember (c1 :: cc') as cc eqn:Ecc.
  assert (Htp : truthy (VDict ps) = true) by (subst; reflexivity).
  assert (Htc : truthy (VDict cc) = true) by (subst; reflexivity).
  rewrite Htp, Htc. cbn [andb dict_items bind].
  destruct (skill_fold_all cc P ps Hall [] log0 (Forall_nil _)) as (m & d & Hf & Hm & Hlen).
  rewrite Hf. cbn [bind List.length Nat.add] in *.
  destruct m as [|m1 m']; [subst ps; discriminate Hlen|].
  remember (m1 :: m') as m eqn:Em. cbn [py_len bind].
  match goal with
  | |- context [fold_left expertise_step m (Ok ([], ?lg))] =>
      destruct (expertise_fold_all P G m Hfit Hm [] lg (Forall_nil _))
        as (es & d' & Hf' & Hes & Hes_len)
  end.
  rewrite Hf'. cbn [bind List.length Nat.add] in *.
  exists es. do 2 eexists. split; [reflexivity|].
  assert (Hes_ne : es <> []).
  { intros ->. subst m. discriminate Hes_len. }
  split; [exact Hes_ne|]. split; [exact Hes|].
  assert (Hcov : (Qlen m / inject_Z (Z.of_nat (List.length ps)) == 1)%Q).
  { fold (Qlen ps). rewrite (Qlen_length m ps Hlen).
    assert (0 < Qlen ps)%Q by (apply Qlen_pos; subst ps; discriminate).
    field. lra. }
  rewrite Hcov. ring.
Qed.

(** X16. When every required skill is matched by a competency rated at
    the required level or above, the skill score is 1.0, whatever the
    project complexity. *)
Theorem skill_score_is_one_when_every_requirement_is_met
    (project_skills core_competencies : list (string * value))
    (project_complexity_int : value) :
  project_skills <> [] ->
  Forall (skill_met core_competencies) project_skills ->
  exists explanation,
    skill_match_score_with_fuzzy_keys (VDict project_skills) project_complexity_int
      (VDict core_competencies) = Ok (1%Q, explanation).
Proof.
  intros Hne Hall.
  destruct (skill_score_all_matched (fun x y => x <= y)%Q (fun s => s = 1%Q)
              project_skills core_competencies project_complexity_int)
    as (es & log & capability & -> & Hes_ne & Hes & Hcap).
  - intros required actual x y. apply skill_fit_met.
  - exact Hne.
  - exact Hall.
  - cbv zeta.
    assert (Hone : (capability == 1)%Q).
    { rewrite Hcap, (Qsum_all_one es Hes).
      assert (0 < Qlen es)%Q by (apply Qlen_pos; exact Hes_ne). field. lra. }
    assert (Ht : Qle_bool (clamp_complexity project_complexity_int / 10) capability = true).
    { apply Qle_bool_iff. rewrite Hone.
      pose proof (clamp_complexity_range project_complexity_int) as [_ H10].
      apply Qle_shift_div_r; [reflexivity | lra]. }
    rewrite Ht. eauto.
Qed.

(** X17. The division by zero the source warns of is reachable: when the
    complexity is 0 and every required skill is matched by a competency
    rated more than ten levels below the requirement, the capability is
    negative and the scorer raises [ZeroDivisionError]. *)
Theorem skill_score_divides_by_zero_below_the_rating_scale
    (project_skills core_competencies : list (string * value))
    (project_complexity_int : value) :
  (clamp_complexity project_complexity_int == 0)%Q ->
  project_skills <> [] ->
  Forall (skill_far_below core_competencies) project_skills ->
  skill_match_score_with_fuzzy_keys (VDict project_skills) project_complexity_int
    (VDict core_competencies) = Raise ZeroDivisionError.
Proof.
  intros Hc Hne Hall.
  destruct (skill_score_all_matched (fun x y => y + 10 < x)%Q (fun s => s < 0)%Q
              project_skills core_competencies project_complexity_int)
    as (es & log & capability & -> & Hes_ne & Hes & Hcap).
  - intros required actual x y. apply skill_fit_far_below.
  - exact Hne.
  - exact Hall.
  - cbv zeta.
    assert (Hneg : (capability < 0)%Q).
    { rewrite Hcap. pose proof (Qsum_all_negative es Hes_ne Hes) as Hs.
      assert (Hl : (0 < Qlen es)%Q) by (apply Qlen_pos; exact Hes_ne).
      apply Qlt_shift_div_r; [exact Hl | lra]. }
    assert (Ht0 : (clamp_complexity project_complexity_int / 10 == 0)%Q).
    { rewrite Hc. reflexivity. }
    assert (Ht : Qle_bool (clamp_complexity project_complexity_int / 10) capability = false).
    { destruct (Qle_bool _ capability) eqn:E; [|reflexivity].
      apply Qle_bool_iff in E. lra. }
    rewrite Ht. unfold py_div.
    assert (Hz : Qeq_bool (clamp_complexity project_complexity_int / 10) 0 = true)
      by (apply Qeq_bool_iff; exact Ht0).
    rewrite Hz. reflexivity.
Qed.

(** *** The language scorer *)

Lemma matched_levels_all_met (known required : list (string * value)) :
  Forall (language_met known) required ->
  List.length (matched_levels required known) = List.length required
  /\ Forall (fun rl => cefr_lookup (fst rl) <= cefr_lookup (snd rl))
            (matched_levels required known).
Proof.
  induction 1 as [|item l (k & level & Hk & Hne & Hlevel & Hle) _ [IHlen IHall]].
  - split; [reflexivity | constructor].
  - unfold matched_levels in *. cbn [flat_map]. rewrite Hk.
    destruct (String.eqb_spec k EmptyString) as [E|_]; [contradiction|].
    rewrite Hlevel. cbn [app List.length]. split; [rewrite IHlen; reflexivity|].
    constructor; [exact Hle | exact IHall].
Qed.

(** X18. When every required language is matched by a language the
    employee speaks at the required level or above, the language score
    is 1.0. *)
Theorem language_score_is_one_when_every_requirement_is_met
    (required known : list (string * value)) :
  required <> [] ->
  Forall (language_met known) required ->
  score_of (language_score (VDict required) (VDict known)) = Ok 1%Q.
Proof.
  intros Hne Hall.
  assert (Hk : known <> []).
  { destruct required as [|item l]; [congruence|].
    inversion Hall as [|? ? (k & level & _ & _ & Hlevel & _) _]; subst.
    intros ->. discriminate Hlevel. }
  rewrite (language_score_formula required known Hne Hk).
  destruct (matched_levels_all_met known required Hall) as [Hlen Hfit].
  unfold language_formula.
  set (pairs := matched_levels required known) in *.
  set (fits := map _ pairs).
  assert (Hones : Forall (fun s => s = 1%Q) fits).
  { subst fits. apply Forall_map. eapply Forall_impl; [|exact Hfit].
    cbv beta. intros rl Hle. unfold proficiency_fit.
    apply Z.leb_le in Hle. rewrite Hle. reflexivity. }
  assert (Hfl : List.length fits = List.length required).
  { subst fits. rewrite length_map. exact Hlen. }
  rewrite (py_round_comp _ 1 3); [reflexivity|].
  rewrite (Qsum_all_one fits Hones), (Qlen_length pairs required Hlen),
    (Qlen_length fits required Hfl).
  assert (0 < Qlen required)%Q by (apply Qlen_pos; exact Hne).
  field. lra.
Qed.

(** X19. A language field that holds text which is not a mapping (not
    decoded, or free text) makes the language scorer raise
    [AttributeError] as soon as the project asks for a language. *)
Theorem language_score_rejects_text_for_the_known_languages
    (required : list (string * value)) (known : value) :
  required <> [] ->
  truthy known = true ->
  (forall d, known <> VDict d) ->
  language_score (VDict required) known = Raise AttributeError.
Proof.
  intros Hne Ht Hnd. unfold language_score, calculate_language_coverage.
  destruct required as [|[p lv] l]; [congruence|].
  rewrite Ht. cbn [truthy negb dict_items bind fold_left].
  unfold lang_match_step at 2. cbn [bind].
  assert (E : best_fuzzy_match p known 70 = Raise AttributeError).
  { unfold best_fuzzy_match. destruct known; try reflexivity. exfalso. eapply Hnd. reflexivity. }
  rewrite E. cbn [bind]. rewrite lang_fold_raise. reflexivity.
Qed.

End SkillsAndLanguages.

(** *** The weighted aggregate *)

Lemma weighted_sum_cons (x w : Q) (l : list (Q * Q)) :
  (weighted_sum ((x, w) :: l) == x * w + weighted_sum l)%Q.
Proof. unfold weighted_sum. cbn [map fst snd]. apply Qsum_cons. Qed.

Lemma weight_total_cons (x w : Q) (l : list (Q * Q)) :
  (weight_total ((x, w) :: l) == w + weight_total l)%Q.
Proof. unfold weight_total. cbn [map snd]. apply Qsum_cons. Qed.

Lemma weighted_sum_app (l1 l2 : list (Q * Q)) :
  (weighted_sum (l1 ++ l2) == weighted_sum l1 + weighted_sum l2)%Q.
Proof. unfold weighted_sum. rewrite map_app. apply Qsum_app. Qed.

Lemma weight_total_app (l1 l2 : list (Q * Q)) :
  (weight_total (l1 ++ l2) == weight_total l1 + weight_total l2)%Q.
Proof. unfold weight_total. rewrite map_app. apply Qsum_app. Qed.

Lemma applied_weights_app (scores : list (string * value)) (w1 w2 : list (string * Q)) :
  applied_weights scores (w1 ++ w2)
  = applied_weights scores w1 ++ applied_weights scores w2.
Proof.
  induction w1 as [|[name w] rest IH]; [reflexivity|].
  cbn [app applied_weights]. destruct (assoc name scores) as [v|]; [|exact IH].
  destruct (as_num v); [|exact IH]. cbn [app]. rewrite IH. reflexivity.
Qed.




(** The guarded mean of two lists of pairs with equal sums. *)
Lemma guarded_ratio_comp (s t s' t' : Q) :
  (s == s')%Q -> (t == t')%Q ->
  ((if negb (Qle_bool t 0) then s / t else 0)
   == (if negb (Qle_bool t' 0) then s' / t' else 0))%Q.
Proof.
  intros Hs Ht. rewrite (Qleb_comp t t' Ht 0%Q 0%Q (Qeq_refl 0%Q)).
  destruct (Qle_bool t' 0); cbn [negb]; [reflexivity|].
  rewrite Hs, Ht. reflexivity.
Qed.





Lemma guarded_mean_drops_idle_weight (scores : list (string * value))
    (before after : list (string * Q)) (entry : string * Q) :
  idle_weight scores entry ->
  (guarded_mean scores (before ++ entry :: after)
   == guarded_mean scores (before ++ after))%Q.
Proof.
  intros Hidle. unfold guarded_mean. rewrite !applied_weights_app.
  destruct entry as [name w]. cbn [applied_weights].
  unfold idle_weight in Hidle. cbn [fst snd] in Hidle.
  destruct (assoc name scores) as [v|]; [|reflexivity].
  destruct (as_num v) as [x|]; [|reflexivity].
  destruct Hidle as [Hw|Hn]; [|discriminate].
  apply guarded_ratio_comp.
  - rewrite !weighted_sum_app, weighted_sum_cons, Hw. ring.
  - rewrite !weight_total_app, weight_total_cons, Hw. ring.
Qed.

(** X21. An entry of the weight table whose weight is zero, or whose
    factor has no numeric score, has no influence on the overall score:
    the table without it gives the same result. *)
Theorem overall_score_ignores_idle_weights
    (scores : list (string * value)) (before after : list (string * Q))
    (entry : string * Q) :
  idle_weight scores entry ->
  fst (fst (overall_weighted_score scores (before ++ entry :: after)))
  = fst (fst (overall_weighted_score scores (before ++ after))).
Proof.
  intros Hidle. rewrite !overall_weighted_score_spec.
  apply py_round_comp, guarded_mean_drops_idle_weight, Hidle.
Qed.

Lemma applied_weights_agree (scores scores' : list (string * value))
    (weights : list (string * Q)) :
  Forall (fun nw => assoc (fst nw) scores' = assoc (fst nw) scores) weights ->
  applied_weights scores' weights = applied_weights scores weights.
Proof.
  induction 1 as [|[name w] rest Hname _ IH]; [reflexivity|].
  cbn [applied_weights fst] in *. rewrite Hname, IH. reflexivity.
Qed.

(** One step through [score_employee_against_project]. *)
Ltac step_report :=
  match goal with
  | |- context [bind ?c _] => destruct c; [cbn [bind] | discriminate]
  | |- context [let (_, _) := ?x in _] => destruct x eqn:?
  end.

Section Reports.

Context {L : PyLib}.



(** X23. Every report holds the same thirteen factor scores and the same
    thirteen explanations, in a fixed order, and the identifiers of the
    two records; [IsFullyAvailable] is 1 exactly when the availability
    score equals 1.0. *)
Theorem report_has_a_fixed_layout (now : datetime)
    (employee_record project_record : record)
    (custom_weights : option (list (string * Q))) (r : report) :
  score_employee_against_project now employee_record project_record custom_weights = Ok r ->
  map fst (Scores r) = SCORE_NAMES
  /\ map fst (Details r) = DETAIL_NAMES
  /\ EmployeeID r = get employee_record "EmployeeID"
  /\ ProjectID r = get project_record "ProjectID"
  /\ exists a,
       assoc "AvailabilityScore" (Scores r) = Some (VFloat a)
       /\ assoc "IsFullyAvailable" (Scores r)
          = Some (VInt (if Qeq_bool a 1 then 1 else 0)).
Proof.
  unfold score_employee_against_project. repeat step_report.
  intros [= <-]. cbn [Scores Details EmployeeID ProjectID map fst].
  repeat split. eexists. split; reflexivity.
Qed.

(** *** Scoring a list of candidates *)

Lemma generate_from_reports (clock : nat -> datetime) (project_record : record)
    (custom_weights : option (list (string * Q))) (candidates : list record) :
  forall (i0 : nat) (reports : list report),
    generate_detailed_scores_from i0 clock project_record candidates custom_weights
    = Ok reports ->
    List.length reports = List.length candidates
    /\ forall i emp_record,
         nth_error candidates i = Some emp_record ->
         exists r,
           nth_error reports i = Some r
           /\ score_employee_against_project (clock (i0 + i)%nat) emp_record
                project_record custom_weights = Ok r.
Proof.
  induction candidates as [|e rest IH]; intros i0 reports.
  - intros [= <-]. split; [reflexivity|]. intros [|i] x H; discriminate H.
  - cbn [generate_detailed_scores_from].
    destruct (score_employee_against_project (clock i0) e project_record custom_weights)
      as [r|x] eqn:Er; [|discriminate]. cbn [bind].
    destruct (generate_detailed_scores_from (S i0) clock project_record rest custom_weights)
      as [others|x] eqn:Eo; [|discriminate]. cbn [bind].
    intros [= <-]. destruct (IH (S i0) others Eo) as [Hlen Hnth].
    split; [cbn [List.length]; rewrite Hlen; reflexivity|].
    intros [|i] emp H.
    + injection H as <-. exists r. rewrite Nat.add_0_r. split; [reflexivity | exact Er].
    + cbn [nth_error] in *. destruct (Hnth i emp H) as (r' & Hr' & Hs).
      exists r'. split; [exact Hr'|].
      replace (i0 + S i)%nat with (S i0 + i)%nat by lia. exact Hs.
Qed.

(** X24. When [generate_detailed_scores_for_candidates] returns, it
    returns one report per candidate, in the order of the candidates,
    and the i-th report is the report of scoring the i-th candidate
    alone against the project. *)
Theorem candidates_are_scored_one_by_one_in_order (clock : nat -> datetime)
    (project_record : record) (candidate_employee_records : list record)
    (custom_weights : option (list (string * Q))) (reports : list report) :
  generate_detailed_scores_for_candidates clock project_record
    candidate_employee_records custom_weights = Ok reports ->
  List.length reports = List.length candidate_employee_records
  /\ forall i emp_record,
       nth_error candidate_employee_records i = Some emp_record ->
       exists r,
         nth_error reports i = Some r
         /\ score_employee_against_project (clock i) emp_record project_record
              custom_weights = Ok r.
Proof.
  intros H. exact (generate_from_reports clock project_record custom_weights
                     candidate_employee_records 0%nat reports H).
Qed.

Lemma generate_from_raises (clock : nat -> datetime) (project_record : record)
    (custom_weights : option (list (string * Q))) (candidates : list record) :
  forall (i0 i : nat) (emp_record : record) (e : exn),
    nth_error candidates i = Some emp_record ->
    score_employee_against_project (clock (i0 + i)%nat) emp_record project_record
      custom_weights = Raise e ->
    exists e',
      generate_detailed_scores_from i0 clock project_record candidates custom_weights
      = Raise e'.
Proof.
  induction candidates as [|c rest IH]; intros i0 [|i] emp e Hn Hr; try discriminate Hn.
  - injection Hn as ->. rewrite Nat.add_0_r in Hr.
    cbn [generate_detailed_scores_from]. rewrite Hr. cbn [bind]. eauto.
  - cbn [nth_error] in Hn. cbn [generate_detailed_scores_from].
    destruct (score_employee_against_project (clock i0) c project_record custom_weights)
      as [r|x]; cbn [bind]; [|eauto].
    replace (i0 + S i)%nat with (S i0 + i)%nat in Hr by lia.
    destruct (IH (S i0) i emp e Hn Hr) as [e' ->]. cbn [bind]. eauto.
Qed.

(** X25. One candidate for whom the scorer raises makes
    [generate_detailed_scores_for_candidates] raise: no report is
    returned for any candidate of the list. *)
Theorem one_failing_candidate_fails_the_whole_list (clock : nat -> datetime)
    (project_record : record) (candidate_employee_records : list record)
    (custom_weights : option (list (string * Q)))
    (i : nat) (emp_record : record) (e : exn) :
  nth_error candidate_employee_records i = Some emp_record ->
  score_employee_against_project (clock i) emp_record project_record custom_weights
  = Raise e ->
  exists e',
    generate_detailed_scores_for_candidates clock project_record
      candidate_employee_records custom_weights = Raise e'.
Proof.
  intros Hn Hr.
  exact (generate_from_raises clock project_record custom_weights
           candidate_employee_records 0%nat i emp_record e Hn Hr).
Qed.

End Reports.

(** *** Stored metadata and its decoding *)

Lemma assoc_absent {A : Type} (k : string) (d : list (string * A)) :
  ~ In k (map fst d) -> assoc k d = None.
Proof.
  induction d as [|[k' x] r IH]; [reflexivity|]. cbn [map fst In assoc]. intros H.
  destruct (String.eqb_spec k k') as [->|NE]; [exfalso; apply H; left; reflexivity|].
  apply IH. intros Hin. apply H. right. exact Hin.
Qed.

Lemma dict_set_Forall {A : Type} (P : string * A -> Prop) (k : string) (v : A)
    (d : list (string * A)) :
  P (k, v) -> Forall P d -> Forall P (dict_set k v d).
Proof.
  intros Hkv. induction 1 as [|[k' x] r Hx Hr IH]; cbn [dict_set].
  - constructor; [exact Hkv | constructor].
  - destruct (String.eqb k k'); constructor; assumption.
Qed.

Lemma dict_set_new_key {A : Type} (k : string) (v : A) (d : list (string * A)) :
  ~ In k (map fst d) -> map fst (dict_set k v d) = map fst d ++ [k].
Proof.
  induction d as [|[k' x] r IH]; [reflexivity|]. cbn [map fst In dict_set]. intros H.
  destruct (String.eqb_spec k k') as [->|NE]; [exfalso; apply H; left; reflexivity|].
  cbn [map fst app]. f_equal. apply IH. intros Hin. apply H. right. exact Hin.
Qed.

Section StoredMetadata.

Context {L : PyLib}.

Variable json_dumps : value -> string.

Lemma prepared_value_scalar (v : value) : is_scalar (prepared_value json_dumps v) = true.
Proof. destruct v; reflexivity. Qed.

Lemma prepare_fold_scalar (rec acc : record) :
  Forall (fun kv => is_scalar (snd kv) = true) acc ->
  Forall (fun kv => is_scalar (snd kv) = true)
         (fold_left (fun processed_metadata kv =>
                       dict_set (fst kv) (prepared_value json_dumps (snd kv))
                                processed_metadata) rec acc).
Proof.
  revert acc. induction rec as [|[k v] rest IH]; intros acc Hacc; [exact Hacc|].
  cbn [fold_left fst snd]. apply IH. apply dict_set_Forall; [|exact Hacc].
  apply prepared_value_scalar.
Qed.

Lemma prepare_fold_keys (rec acc : record) :
  NoDup (map fst acc ++ map fst rec) ->
  map fst (fold_left (fun processed_metadata kv =>
                        dict_set (fst kv) (prepared_value json_dumps (snd kv))
                                 processed_metadata) rec acc)
  = map fst acc ++ map fst rec.
Proof.
  revert acc. induction rec as [|[k v] rest IH]; intros acc Hnd.
  - cbn. rewrite app_nil_r. reflexivity.
  - cbn [fold_left fst snd map] in *.
    assert (Hk : ~ In k (map fst acc)).
    { apply NoDup_remove_2 in Hnd. intros Hin. apply Hnd.
      apply in_or_app. left. exact Hin. }
    rewrite IH; rewrite (dict_set_new_key _ _ _ Hk).
    + rewrite <- app_assoc. reflexivity.
    + rewrite <- app_assoc. exact Hnd.
Qed.

Lemma prepare_fold_assoc (field : string) (rec : record) :
  NoDup (map fst rec) ->
  forall acc,
    assoc field (fold_left (fun processed_metadata kv =>
                              dict_set (fst kv) (prepared_value json_dumps (snd kv))
                                       processed_metadata) rec acc)
    = match assoc field rec with
      | Some v => Some (prepared_value json_dumps v)
      | None => assoc field acc
      end.
Proof.
  induction rec as [|[k v] rest IH]; intros Hnd acc; [reflexivity|].
  cbn [map fst] in Hnd. inversion Hnd as [|? ? Hk Hrest]; subst.
  cbn [fold_left fst snd assoc]. rewrite (IH Hrest).
  destruct (String.eqb_spec field k) as [->|NE].
  - rewrite (assoc_absent k rest Hk). apply assoc_dict_set_same.
  - destruct (assoc field rest); [reflexivity|]. apply assoc_dict_set_other. exact NE.
Qed.

Lemma prepared_assoc (field : string) (rec : record) :
  NoDup (map fst rec) ->
  assoc field (_prepare_metadata_for_chroma json_dumps rec)
  = option_map (prepared_value json_dumps) (assoc field rec).
Proof.
  intros Hnd. unfold _prepare_metadata_for_chroma.
  rewrite (prepare_fold_assoc field rec Hnd []).
  destruct (assoc field rec); reflexivity.
Qed.

(** X26. The metadata prepared for the document store keeps the keys of
    the record, in their order, and holds only text, numbers and truth
    values: every list and mapping has become text, every [None] the
    empty text. *)
Theorem prepared_metadata_holds_only_scalars (employee_record : record) :
  NoDup (map fst employee_record) ->
  map fst (_prepare_metadata_for_chroma json_dumps employee_record)
  = map fst employee_record
  /\ Forall (fun kv => is_scalar (snd kv) = true)
            (_prepare_metadata_for_chroma json_dumps employee_record).
Proof.
  intros Hnd. unfold _prepare_metadata_for_chroma. split.
  - apply (prepare_fold_keys employee_record []). exact Hnd.
  - apply prepare_fold_scalar. constructor.
Qed.

(** X27. Reading a field back from the prepared metadata with
    [_safely_get_and_parse_json_field] gives what reading it from the
    original record gives, for every field that is absent or not [None],
    provided [json.loads] undoes [json.dumps] on the lists and mappings
    of the record and their JSON text is bracketed. *)
Theorem stored_field_is_read_back (employee_record : record) (field_name : string)
    (default_value : option value) :
  NoDup (map fst employee_record) ->
  assoc field_name employee_record <> Some VNone ->
  (forall v, assoc field_name employee_record = Some v -> is_container v = true ->
             looks_encoded (json_dumps v) = true
             /\ json_loads (json_dumps v) = Some v) ->
  _safely_get_and_parse_json_field
    (_prepare_metadata_for_chroma json_dumps employee_record) field_name default_value
  = _safely_get_and_parse_json_field employee_record field_name default_value.
Proof.
  intros Hnd Hnone Hjson. unfold _safely_get_and_parse_json_field, get_default.
  rewrite (prepared_assoc field_name employee_record Hnd).
  destruct (assoc field_name employee_record) as [v|]; [|reflexivity].
  cbn [option_map].
  destruct v; cbn [prepared_value]; try reflexivity; try congruence.
  - destruct (Hjson _ eq_refl eq_refl) as [Hb Hl]. unfold looks_encoded in Hb.
    rewrite Hb, Hl. reflexivity.
  - destruct (Hjson _ eq_refl eq_refl) as [Hb Hl]. unfold looks_encoded in Hb.
    rewrite Hb, Hl. reflexivity.
Qed.

(** X28. A field that is [None] in the record is not read back as its
    default: the store holds the empty text for it, and that is what
    [_safely_get_and_parse_json_field] then returns, while on the
    original record it returns the default. *)
Theorem stored_none_is_read_back_as_empty_text (employee_record : record)
    (field_name : string) (default_value : value) :
  NoDup (map fst employee_record) ->
  assoc field_name employee_record = Some VNone ->
  _safely_get_and_parse_json_field
    (_prepare_metadata_for_chroma json_dumps employee_record) field_name
    (Some default_value) = VStr EmptyString
  /\ _safely_get_and_parse_json_field employee_record field_name (Some default_value)
     = default_value.
Proof.
  intros Hnd Hnone. unfold _safely_get_and_parse_json_field, get_default.
  rewrite (prepared_assoc field_name employee_record Hnd), Hnone.
  cbn [option_map prepared_value]. split; reflexivity.
Qed.

End StoredMetadata.

(** *** config.py: seconds and milliseconds *)

Section Timestamps.

Context {L : PyLib}.

Variable strftime : datetime -> string.
Variable fromisoformat : string -> option datetime.
Variable strptime : string -> option datetime.

(** X29. [format_timestamp_to_date] prints the same date for an instant
    given in whole seconds and for the same instant given in
    milliseconds, when the seconds lie after 2000-01-01 and at or below
    the mark 946684800000 that separates the two units. *)
Theorem timestamp_in_seconds_and_in_milliseconds_print_the_same_date
    (seconds : Z) (t : datetime) :
  946684800 < seconds <= 946684800000 ->
  fromtimestamp (to_float (inject_Z seconds)) = Some t ->
  strip (py_str (VInt seconds)) <> EmptyString ->
  strip (py_str (VInt (1000 * seconds))) <> EmptyString ->
  format_timestamp_to_date strftime fromisoformat strptime (VInt seconds) = strftime t
  /\ format_timestamp_to_date strftime fromisoformat strptime (VInt (1000 * seconds))
     = strftime t.
Proof.
  intros [Hlo Hhi] Ht Hs Hm. unfold format_timestamp_to_date.
  destruct (String.eqb_spec (strip (py_str (VInt seconds))) EmptyString) as [E|_];
    [contradiction|].
  destruct (String.eqb_spec (strip (py_str (VInt (1000 * seconds)))) EmptyString) as [E|_];
    [contradiction|].
  cbn [as_num]. split.
  - assert (B : Qle_bool (inject_Z seconds) 946684800000 = true).
    { apply Qle_bool_iff. change 946684800000%Q with (inject_Z 946684800000).
      rewrite <- Zle_Qle. exact Hhi. }
    rewrite B. cbn [negb]. rewrite Ht. reflexivity.
  - assert (B : Qle_bool (inject_Z (1000 * seconds)) 946684800000 = false).
    { destruct (Qle_bool _ 946684800000) eqn:B; [|reflexivity].
      apply Qle_bool_iff in B. change 946684800000%Q with (inject_Z 946684800000) in B.
      rewrite <- Zle_Qle in B. lia. }
    rewrite B. cbn [negb].
    assert (E : to_float (inject_Z (1000 * seconds) / 1000)
                = to_float (inject_Z seconds)).
    { unfold to_float. apply Qred_complete. rewrite inject_Z_mult. field. }
    rewrite E, Ht. reflexivity.
Qed.

End Timestamps.

(** *** The work location and the default weights *)

Lemma get_same (a b : record) (k : string) :
  same_except_location a b -> k <> "Work Location" -> k <> "Work Flexibility" ->
  get a k = get b k.
Proof. intros H H1 H2. unfold get. rewrite (H k H1 H2). reflexivity. Qed.

Lemma get_default_same (a b : record) (k : string) (d : value) :
  same_except_location a b -> k <> "Work Location" -> k <> "Work Flexibility" ->
  get_default a k d = get_default b k d.
Proof. intros H H1 H2. unfold get_default. rewrite (H k H1 H2). reflexivity. Qed.

Lemma project_end_val_same (a b : record) :
  same_except_location a b -> project_end_val a = project_end_val b.
Proof.
  intros H. unfold project_end_val.
  rewrite (get_same a b "Requested End Date" H), (get_same a b "Requested End" H);
    try discriminate. reflexivity.
Qed.

Section WorkLocation.

Context {L : PyLib}.

Lemma decoded_field_same (a b : record) (k : string) (d : option value) :
  same_except_location a b -> k <> "Work Location" -> k <> "Work Flexibility" ->
  _safely_get_and_parse_json_field a k d = _safely_get_and_parse_json_field b k d.
Proof.
  intros H H1 H2. unfold _safely_get_and_parse_json_field.
  rewrite (get_default_same a b k _ H H1 H2). reflexivity.
Qed.

Lemma project_complexity_same (a b : record) :
  same_except_location a b -> project_complexity a = project_complexity b.
Proof.
  intros H. unfold project_complexity.
  rewrite (get_same a b "Complexity" H); try discriminate. reflexivity.
Qed.

(** Rewrite the fields read from the second pair of records into the
    fields of the first. *)
Ltac first_record He Hp :=
  repeat match goal with
         | |- context [get ?r ?k] =>
             first [rewrite <- (get_same _ r k He) by discriminate
                   | rewrite <- (get_same _ r k Hp) by discriminate]
         | |- context [get_default ?r ?k ?d] =>
             first [rewrite <- (get_default_same _ r k d He) by discriminate
                   | rewrite <- (get_default_same _ r k d Hp) by discriminate]
         | |- context [_safely_get_and_parse_json_field ?r ?k ?d] =>
             first [rewrite <- (decoded_field_same _ r k d He) by discriminate
                   | rewrite <- (decoded_field_same _ r k d Hp) by discriminate]
         end.

(** X8. With the default weights, in which the location has weight 0,
    the work location and work flexibility of neither record influence
    the overall score: two pairs of records that differ only in these
    fields get the same factor scores, the location score apart, and the
    same overall weighted score. *)
Theorem default_overall_score_ignores_the_work_location (now : datetime)
    (employee_record project_record employee_record' project_record' : record)
    (r r' : report) :
  same_except_location employee_record employee_record' ->
  same_except_location project_record project_record' ->
  score_employee_against_project now employee_record project_record None = Ok r ->
  score_employee_against_project now employee_record' project_record' None = Ok r' ->
  (forall name, name <> "LocationScore" ->
                assoc name (Scores r') = assoc name (Scores r))
  /\ OverallWeightedScore r' = OverallWeightedScore r.
Proof.
  intros He Hp Hr Hr'.
  assert (Hscores : forall name, name <> "LocationScore" ->
                                 assoc name (Scores r') = assoc name (Scores r)).
  { revert Hr Hr'. unfold score_employee_against_project.
    rewrite <- (project_end_val_same _ _ Hp), <- (project_complexity_same _ _ Hp).
    first_record He Hp.
    repeat step_report.
    intros [= <-] [= <-] name Hname. cbn [Scores assoc].
    apply String.eqb_neq in Hname. rewrite Hname. reflexivity. }
  split; [exact Hscores|].
  rewrite (report_overall _ _ _ _ _ Hr), (report_overall _ _ _ _ _ Hr').
  cbn [active_weights]. rewrite !overall_weighted_score_spec. apply py_round_comp.
  change SCORING_WEIGHTS
    with (firstn 7 SCORING_WEIGHTS ++ ("LocationScore", 0%Q) :: skipn 8 SCORING_WEIGHTS).
  rewrite !guarded_mean_drops_idle_weight by (left; reflexivity).
  unfold guarded_mean. rewrite (applied_weights_agree (Scores r) (Scores r')).
  - reflexivity.
  - cbn [firstn skipn SCORING_WEIGHTS app].
    repeat (constructor; [apply Hscores; discriminate|]). constructor.
Qed.

End WorkLocation.

(** ** The scorer run on the sample records *)

#[local] Existing Instance Demo.lib.

Import Samples.

Lemma level_in_range_int (z : Z) : 0 <= z <= 10 -> level_in_range (VInt z).
Proof.
  intros [H0 H1]. exists (inject_Z z). split; [reflexivity|].
  split; [change 0%Q with (inject_Z 0) | change 10%Q with (inject_Z 10)];
    rewrite <- Zle_Qle; assumption.
Qed.

(** The sample records are decoded records. *)
Lemma sample_records_decoded : decoded_records employee project.
Proof.
  split; try exact I; try reflexivity; cbn;
    repeat (constructor; [apply level_in_range_int; cbn; lia|]); constructor.
Qed.

Lemma fuzzy_match_empty_never_matches_witness :
  fuzzy_match (VStr EmptyString) (VStr EmptyString) 70 = false
  /\ fuzzy_match VNone (VStr "Berlin") fuzzy_match_threshold = false
  /\ fst (location_score VNone (VStr "On-site") (VStr "Berlin") (VStr "On-site")) = 0%Q.
Proof.
  apply (fuzzy_match_empty_never_matches 70 (VStr EmptyString) (VStr EmptyString)
           VNone (VStr "On-site") (VStr "Berlin") (VStr "On-site")).
  - left. right. reflexivity.
  - left. reflexivity.
  - left. vm_compute. reflexivity.
Defined.

Lemma skill_empty_requirement_scores_zero_witness :
  score_of (skill_match_score_with_fuzzy_keys (VDict []) (VInt 5)
              (VDict [("Cloud", VInt 10)])) = Ok 0%Q.
Proof.
  apply skill_empty_requirement_scores_zero.
  - right. reflexivity.
  - right. exists [("Cloud", VInt 10)]. reflexivity.
Defined.

Lemma skill_zero_complexity_scores_one_witness :
  exists explanation,
    skill_match_score_with_fuzzy_keys (VDict [("Cloud", VInt 8)]) (VInt 0)
      (VDict [("Cloud", VInt 6)]) = Ok (1%Q, explanation)
    /\ reached_target explanation.
Proof.
  apply skill_zero_complexity_scores_one.
  - vm_compute. reflexivity.
  - constructor; [apply level_in_range_int; cbn; lia | constructor].
  - constructor; [apply level_in_range_int; cbn; lia | constructor].
  - constructor. exists "Cloud". split; [vm_compute; reflexivity | discriminate].
Defined.




Lemma zero_effort_scores_one_witness :
  fst (availability_score new_year_2025 (VInt 0) (VStr "2025-06-30")
         (VStr "2025-01-01") (VInt 40)) = 1%Q.
Proof.
  apply (zero_effort_scores_one new_year_2025 (VInt 0) (VStr "2025-06-30")
           (VStr "2025-01-01") (VInt 40) (inject_Z 0) (inject_Z 40) new_year_2025).
  - reflexivity.
  - unfold Qle. simpl. lia.
  - vm_compute. eexists. reflexivity.
  - vm_compute. reflexivity.
  - reflexivity.
  - unfold Qlt. simpl. lia.
Defined.



(** C2 as stated fails: with zero effort the score is 0.0 when the
    capacity is zero, when the availability date is missing, and when it
    does not parse. *)
Lemma zero_effort_can_score_zero :
  ~ (fst (availability_score new_year_2025 (VInt 0) (VStr "2025-06-30")
            (VStr "2025-01-01") (VInt 0)) == 1)%Q
  /\ ~ (fst (availability_score new_year_2025 (VInt 0) (VStr "2025-06-30")
               VNone (VInt 40)) == 1)%Q
  /\ ~ (fst (availability_score new_year_2025 VNone VNone
               (VStr "not a date") (VInt 40)) == 1)%Q.
Proof. repeat split; vm_compute; discriminate. Qed.


(** The display helper of config.py does tell seconds from milliseconds:
    both forms of 2025-06-01 reach [datetime.fromtimestamp] as the same
    number of seconds. *)
Lemma format_timestamp_reads_both_units :
  (format_timestamp_seconds 1748736000 == 1748736000)%Q
  /\ (format_timestamp_seconds 1748736000000 == 1748736000)%Q.
Proof. split; vm_compute; reflexivity. Qed.


(** *** An encoded skill mapping (C4) *)

(** C4.  A project whose skill mapping arrives as JSON text makes the
    skill scorer raise [AttributeError], whatever the libraries do: the
    text is decoded by [_safely_get_and_parse_json_field], yet the scorer
    is handed the raw field.  The exception leaves
    [score_employee_against_project] and ends the batch, while the same
    project with the mapping decoded is scored. *)
Theorem encoded_skill_mapping_aborts_scoring :
  (forall (L : PyLib) (c : ascii) (s : string) (project_complexity_int : value)
          (entry : string * value) (competencies : list (string * value)),
     skill_match_score_with_fuzzy_keys (VStr (String c s)) project_complexity_int
       (VDict (entry :: competencies)) = Raise AttributeError)
  /\ _safely_get_and_parse_json_field encoded_project "Required Skills and Expertise"
       (Some (VDict [])) = VDict [("Cloud", VInt 8)]
  /\ score_employee_against_project new_year_2025 employee encoded_project None
     = Raise AttributeError
  /\ generate_detailed_scores_for_candidates (fun _ => new_year_2025) encoded_project
       [employee; employee] None = Raise AttributeError
  /\ (exists r, score_employee_against_project new_year_2025 employee project None = Ok r).
Proof.
  split; [|repeat split; try (vm_compute; reflexivity)].
  - intros L c s complexity entry competencies.
    unfold skill_match_score_with_fuzzy_keys. reflexivity.
  - eexists. vm_compute. reflexivity.
Qed.

(** *** The level [Native] (C7) *)

(** C7.  The table gives [Native] the number 6, but a level is looked up
    in upper case, so [Native] is never found and counts as 0: a
    candidate who is a native speaker gets fit 0 against a required C2,
    where the stated rule gives 1.  The levels A1 to C2 follow the rule:
    C2 against A1 gives 1/6, rounded to 0.167. *)
Theorem native_level_scores_as_unknown :
  assoc "Native" cefr_scale = Some 6
  /\ (forall L : PyLib, cefr_lookup (VStr "Native") = 0)
  /\ (forall L : PyLib, level_fit (VStr "C2") (VStr "Native") = 0%Q)
  /\ score_of (language_score (VDict [("English", VStr "C2")])
                 (VDict [("English", VStr "Native")])) = Ok 0%Q
  /\ proficiency_fit 6 6 = 1%Q
  /\ score_of (language_score (VDict [("English", VStr "C2")])
                 (VDict [("English", VStr "A1")])) = Ok (167 # 1000)%Q.
Proof. repeat split; vm_compute; reflexivity. Qed.

(** *** The further properties on the sample records *)

Ltac distinct_keys :=
  repeat (constructor;
          [cbn; intros H; repeat (destruct H as [H|H]; [discriminate H|]); exact H |]);
  constructor.

Lemma best_fuzzy_match_returns_first_most_similar_key_witness :
  exists earlier later,
    map fst [("Spanish", VStr "B1"); ("English", VStr "C2"); ("english", VStr "A1")]
    = earlier ++ "English" :: later
    /\ (70 <= inject_Z (key_ratio "english" "English"))%Q
    /\ 0 < key_ratio "english" "English"
    /\ Forall (fun k' => key_ratio "english" k' < key_ratio "english" "English") earlier
    /\ Forall (fun k' => key_ratio "english" k' <= key_ratio "english" "English") later.
Proof.
  apply (best_fuzzy_match_returns_first_most_similar_key "english"
           [("Spanish", VStr "B1"); ("English", VStr "C2"); ("english", VStr "A1")] 70).
  vm_compute. reflexivity.
Defined.

Lemma best_fuzzy_match_none_iff_all_below_threshold_witness :
  best_fuzzy_match "German" (VDict [("English", VStr "C2")]) 70 = Ok None
  <-> Forall (fun k => (inject_Z (key_ratio "German" k) < 70)%Q)
             (map fst [("English", VStr "C2")]).
Proof.
  apply (best_fuzzy_match_none_iff_all_below_threshold "German" [("English", VStr "C2")] 70).
  reflexivity.
Defined.

Lemma normalize_is_linear_and_clamped_witness :
  exists r,
    normalize (VInt 7) 0 10 = Ok r
    /\ ((inject_Z 7 <= 0)%Q -> (r == 0)%Q)
    /\ ((10 <= inject_Z 7)%Q -> (r == 1)%Q)
    /\ ((0 <= inject_Z 7 <= 10)%Q -> (r == (inject_Z 7 - 0) / (10 - 0))%Q).
Proof.
  apply (normalize_is_linear_and_clamped (VInt 7) (inject_Z 7) 0 10).
  - reflexivity.
  - reflexivity.
Defined.

Lemma normalize_is_monotone_witness :
  exists r s,
    normalize (VInt 3) 0 10 = Ok r /\ normalize (VFloat (15 # 2)) 0 10 = Ok s /\ (r <= s)%Q.
Proof.
  apply (normalize_is_monotone (VInt 3) (VFloat (15 # 2)) (inject_Z 3) (15 # 2) 0 10).
  - reflexivity.
  - reflexivity.
  - unfold Qle. simpl. lia.
  - unfold Qle. simpl. lia.
Defined.


(** The sample employee in Berlin and in Paris: the location score
    differs, the overall score does not. *)
Lemma default_overall_score_ignores_the_work_location_witness :
  exists r r',
    score_employee_against_project new_year_2025 employee project None = Ok r
    /\ score_employee_against_project new_year_2025
         (dict_set "Work Location" (VStr "Paris") employee) project None = Ok r'
    /\ assoc "LocationScore" (Scores r) = Some (VFloat 1)
    /\ assoc "LocationScore" (Scores r') = Some (VFloat 0)
    /\ OverallWeightedScore r' = OverallWeightedScore r.
Proof.
  do 2 eexists. split; [vm_compute; reflexivity|]. split; [vm_compute; reflexivity|].
  split; [reflexivity|]. split; [reflexivity|].
  refine (proj2 (default_overall_score_ignores_the_work_location new_year_2025
                   employee project (dict_set "Work Location" (VStr "Paris") employee)
                   project _ _ _ _ _ _)).
  - intros k Hk _. symmetry. apply assoc_dict_set_other. exact Hk.
  - intros k _ _. reflexivity.
  - vm_compute. reflexivity.
  - vm_compute. reflexivity.
Defined.

Lemma industry_score_is_one_iff_some_entry_matches_witness :
  score_of (industry_score (VStr "Technology")
              (VList [VStr "Finance"; VStr "Technology"]))
  = Ok (if existsb (fun e_ind => fuzzy_match (VStr "Technology") e_ind
                                   fuzzy_match_threshold)
                   [VStr "Finance"; VStr "Technology"]
        then 1%Q else 0%Q).
Proof.
  apply industry_score_is_one_iff_some_entry_matches.
  - reflexivity.
  - discriminate.
  - reflexivity.
Defined.

Lemma industry_score_rejects_an_entry_that_is_not_text_witness :
  industry_score (VStr "Technology") (VList [VStr "Technology"; VInt 3])
  = Raise TypeError.
Proof.
  apply industry_score_rejects_an_entry_that_is_not_text.
  - reflexivity.
  - reflexivity.
Defined.

Lemma availability_above_zero_needs_start_and_capacity_witness :
  deadline_resolves new_year_2025 (VStr "2025-06-30")
  /\ (exists start,
        parse_date_input new_year_2025 (VStr "2025-01-01") = Some (Ok start))
  /\ (exists capacity,
        float_or_zero (VInt 40) = Ok capacity /\ (0 < capacity)%Q)
  /\ (exists effort, float_or_zero (VInt 400) = Ok effort).
Proof.
  apply (availability_above_zero_needs_start_and_capacity new_year_2025
           (VInt 400) (VStr "2025-06-30") (VStr "2025-01-01") (VInt 40)).
  vm_compute. discriminate.
Defined.


Lemma availability_finish_a_month_late_scores_zero_witness :
  fst (availability_score new_year_2025 (VInt 400) (VStr "2025-02-01")
         (VStr "2025-01-01") (VInt 40)) = 0%Q.
Proof.
  apply (availability_finish_a_month_late_scores_zero new_year_2025
           (VInt 400) (VStr "2025-02-01") (VStr "2025-01-01") (VInt 40)
           1738368000000000 new_year_2025 1741737600000000 (inject_Z 40) (inject_Z 400)).
  - vm_compute. reflexivity.
  - vm_compute. reflexivity.
  - reflexivity.
  - unfold Qlt. simpl. lia.
  - reflexivity.
  - unfold Qlt. simpl. lia.
  - vm_compute. reflexivity.
  - vm_compute. discriminate.
Defined.


Lemma skill_score_is_one_when_every_requirement_is_met_witness :
  exists explanation,
    skill_match_score_with_fuzzy_keys (VDict [("Cloud", VInt 6)]) (VInt 9)
      (VDict [("Cloud", VInt 8); ("Python", VInt 5)]) = Ok (1%Q, explanation).
Proof.
  apply skill_score_is_one_when_every_requirement_is_met.
  - discriminate.
  - constructor; [|constructor].
    exists (inject_Z 6), (inject_Z 8). split; [|unfold Qle; simpl; lia].
    exists "Cloud", (VInt 8).
    split; [vm_compute; reflexivity|]. split; [discriminate|].
    split; [reflexivity|]. split; reflexivity.
Defined.

Lemma skill_score_divides_by_zero_below_the_rating_scale_witness :
  skill_match_score_with_fuzzy_keys (VDict [("Cloud", VInt 20)]) (VInt 0)
    (VDict [("Cloud", VInt 5)]) = Raise ZeroDivisionError.
Proof.
  apply skill_score_divides_by_zero_below_the_rating_scale.
  - vm_compute. reflexivity.
  - discriminate.
  - constructor; [|constructor].
    exists (inject_Z 20), (inject_Z 5). split; [|unfold Qlt; simpl; lia].
    exists "Cloud", (VInt 5).
    split; [vm_compute; reflexivity|]. split; [discriminate|].
    split; [reflexivity|]. split; reflexivity.
Defined.

Lemma language_score_is_one_when_every_requirement_is_met_witness :
  score_of (language_score (VDict [("English", VStr "C1")])
              (VDict [("English", VStr "C2")])) = Ok 1%Q.
Proof.
  apply language_score_is_one_when_every_requirement_is_met.
  - discriminate.
  - constructor; [|constructor].
    exists "English", (VStr "C2").
    split; [vm_compute; reflexivity|]. split; [discriminate|].
    split; [reflexivity|]. vm_compute. discriminate.
Defined.

Lemma language_score_rejects_text_for_the_known_languages_witness :
  language_score (VDict [("English", VStr "C1")]) (VStr "English, French")
  = Raise AttributeError.
Proof.
  apply language_score_rejects_text_for_the_known_languages.
  - discriminate.
  - reflexivity.
  - discriminate.
Defined.


Lemma overall_score_ignores_idle_weights_witness :
  fst (fst (overall_weighted_score
              [("SkillMatchScore", VFloat (1 # 2)); ("LocationScore", VFloat 1)]
              ([("SkillMatchScore", 25 # 100)] ++ ("LocationScore", 0)
                 :: [("RetrieverScore", 25 # 100)])%Q))
  = fst (fst (overall_weighted_score
                [("SkillMatchScore", VFloat (1 # 2)); ("LocationScore", VFloat 1)]
                ([("SkillMatchScore", 25 # 100)] ++ [("RetrieverScore", 25 # 100)])%Q)).
Proof.
  apply overall_score_ignores_idle_weights.
  left. reflexivity.
Defined.


Lemma report_has_a_fixed_layout_witness :
  exists r,
    score_employee_against_project new_year_2025 employee project None = Ok r
    /\ map fst (Scores r) = SCORE_NAMES
    /\ map fst (Details r) = DETAIL_NAMES
    /\ EmployeeID r = VStr "E001"
    /\ ProjectID r = VStr "P001".
Proof.
  eexists. split; [vm_compute; reflexivity|].
  edestruct (report_has_a_fixed_layout new_year_2025 employee project None)
    as (Hs & Hd & He & Hp & _).
  - vm_compute. reflexivity.
  - repeat split; assumption.
Defined.

Lemma candidates_are_scored_one_by_one_in_order_witness :
  exists reports,
    generate_detailed_scores_for_candidates (fun _ => new_year_2025) dated_project
      [employee; dict_set "EmployeeID" (VStr "E002") employee] None = Ok reports
    /\ List.length reports = 2%nat
    /\ map EmployeeID reports = [VStr "E001"; VStr "E002"].
Proof.
  eexists. split; [vm_compute; reflexivity|].
  edestruct (candidates_are_scored_one_by_one_in_order (fun _ => new_year_2025)
               dated_project [employee; dict_set "EmployeeID" (VStr "E002") employee]
               None) as [Hlen _].
  - vm_compute. reflexivity.
  - split; [exact Hlen | reflexivity].
Defined.

Lemma one_failing_candidate_fails_the_whole_list_witness :
  exists e',
    generate_detailed_scores_for_candidates (fun _ => new_year_2025) project
      [employee; dict_set "Languages Known" (VStr "English, French") employee] None
    = Raise e'.
Proof.
  apply (one_failing_candidate_fails_the_whole_list (fun _ => new_year_2025) project
           [employee; dict_set "Languages Known" (VStr "English, French") employee]
           None 1%nat (dict_set "Languages Known" (VStr "English, French") employee)
           AttributeError).
  - reflexivity.
  - vm_compute. reflexivity.
Defined.

Lemma prepared_metadata_holds_only_scalars_witness :
  map fst (_prepare_metadata_for_chroma DemoJson.dumps employee) = map fst employee
  /\ Forall (fun kv => is_scalar (snd kv) = true)
            (_prepare_metadata_for_chroma DemoJson.dumps employee).
Proof.
  apply prepared_metadata_holds_only_scalars. distinct_keys.
Defined.

Lemma stored_field_is_read_back_witness :
  _safely_get_and_parse_json_field
    (_prepare_metadata_for_chroma DemoJson.dumps employee) "Core Competencies"
    (Some (VDict []))
  = _safely_get_and_parse_json_field employee "Core Competencies" (Some (VDict [])).
Proof.
  apply stored_field_is_read_back.
  - distinct_keys.
  - vm_compute. discriminate.
  - intros v Hv _. vm_compute in Hv. injection Hv as <-.
    split; vm_compute; reflexivity.
Defined.

Lemma stored_none_is_read_back_as_empty_text_witness :
  _safely_get_and_parse_json_field
    (_prepare_metadata_for_chroma DemoJson.dumps
       [("EmployeeID", VStr "E003"); ("Products Experience", VNone)])
    "Products Experience" (Some (VList [])) = VStr EmptyString
  /\ _safely_get_and_parse_json_field
       [("EmployeeID", VStr "E003"); ("Products Experience", VNone)]
       "Products Experience" (Some (VList [])) = VList [].
Proof.
  apply stored_none_is_read_back_as_empty_text.
  - distinct_keys.
  - reflexivity.
Defined.

Lemma timestamp_in_seconds_and_in_milliseconds_print_the_same_date_witness :
  format_timestamp_to_date Demo.string_of_Z Demo.parse_date Demo.parse_date
    (VInt 1735689600) = Demo.string_of_Z new_year_2025
  /\ format_timestamp_to_date Demo.string_of_Z Demo.parse_date Demo.parse_date
       (VInt (1000 * 1735689600)) = Demo.string_of_Z new_year_2025.
Proof.
  apply (timestamp_in_seconds_and_in_milliseconds_print_the_same_date
           Demo.string_of_Z Demo.parse_date Demo.parse_date 1735689600 new_year_2025).
  - lia.
  - vm_compute. reflexivity.
  - vm_compute. discriminate.
  - vm_compute. discriminate.
Defined.

